(** * Export service of the mock-data generator: a shallow embedding

    The Go package [services] renders a dataset (rows of loosely typed
    cells plus an ordered field list) as JSON, CSV, a Markdown table or
    SQL statements.  This file embeds [ToJSON], [ToCSV],
    [ToMarkdownTable], [ToSQL], [formatValue], [formatSQLValue] and
    [inferSQLType] together with the parts of the Go standard library
    they call ([strings], [unicode/utf8], [strconv], [fmt],
    [encoding/csv], [encoding/json]), and proves the properties stated
    for them.

    Conventions.  A Go [string] and a Go [[]byte] are both sequences of
    bytes and are modelled by [string].  A Go [float64] is a
    [spec_float] of the binary64 format.  A row, [map[string]interface{}],
    is a [gmap string value]. *)

From Stdlib Require Import ZArith Lia String Ascii List Bool.
From Stdlib Require Import Floats.SpecFloat.
From Stdlib Require Import Numbers.DecimalString Numbers.DecimalPos Numbers.DecimalZ.
From stdpp Require Import base option list gmap strings sorting.

#[local] Set Warnings "-register-all".
#[local] Open Scope string_scope.

(* ================================================================== *)
(** * Part I: definitions                                               *)
(* ================================================================== *)

(** ** Bytes *)

Definition byte_val (c : ascii) : Z := Z.of_N (N_of_ascii c).
Definition byte_of (z : Z) : ascii := ascii_of_N (Z.to_N z).

Definition LF : ascii := byte_of 10.
Definition CR : ascii := byte_of 13.
Definition TAB : ascii := byte_of 9.
Definition newline : string := String LF "".

(** ** Package [unicode/utf8] and [unicode.IsSpace] *)

Module GoUtf8.

Definition RuneError : Z := 65533.

Definition is_cont (c : ascii) : bool :=
  (128 <=? byte_val c)%Z && (byte_val c <=? 191)%Z.

Definition in_range (lo hi : Z) (c : ascii) : bool :=
  (lo <=? byte_val c)%Z && (byte_val c <=? hi)%Z.

(** [utf8.DecodeRuneInString]: the first rune of [s] and its width in
    bytes; [(RuneError, 0)] on the empty string and [(RuneError, 1)]
    on an invalid encoding (overlong forms, surrogates and values
    above U+10FFFF are invalid). *)
Definition DecodeRuneInString (s : string) : Z * nat :=
  match s with
  | "" => (RuneError, 0)
  | String b0 r0 =>
      let x0 := byte_val b0 in
      if (x0 <? 128)%Z then (x0, 1)
      else if (x0 <? 194)%Z then (RuneError, 1)
      else if (x0 <? 224)%Z then
        match r0 with
        | String b1 _ =>
            if is_cont b1
            then (Z.lor (Z.shiftl (Z.land x0 31) 6) (Z.land (byte_val b1) 63), 2)
            else (RuneError, 1)
        | _ => (RuneError, 1)
        end
      else if (x0 <? 240)%Z then
        match r0 with
        | String b1 (String b2 _) =>
            let lo := if (x0 =? 224)%Z then 160%Z else 128%Z in
            let hi := if (x0 =? 237)%Z then 159%Z else 191%Z in
            if in_range lo hi b1 && is_cont b2
            then (Z.lor (Z.shiftl (Z.land x0 15) 12)
                    (Z.lor (Z.shiftl (Z.land (byte_val b1) 63) 6)
                           (Z.land (byte_val b2) 63)), 3)
            else (RuneError, 1)
        | _ => (RuneError, 1)
        end
      else if (x0 <? 245)%Z then
        match r0 with
        | String b1 (String b2 (String b3 _)) =>
            let lo := if (x0 =? 240)%Z then 144%Z else 128%Z in
            let hi := if (x0 =? 244)%Z then 143%Z else 191%Z in
            if in_range lo hi b1 && is_cont b2 && is_cont b3
            then (Z.lor (Z.shiftl (Z.land x0 7) 18)
                    (Z.lor (Z.shiftl (Z.land (byte_val b1) 63) 12)
                       (Z.lor (Z.shiftl (Z.land (byte_val b2) 63) 6)
                              (Z.land (byte_val b3) 63))), 4)
            else (RuneError, 1)
        | _ => (RuneError, 1)
        end
      else (RuneError, 1)
  end.

(** [utf8.ValidString]. *)
Fixpoint valid_from (skip : nat) (s : string) : bool :=
  match s with
  | "" => true
  | String _ cs =>
      match skip with
      | S k => valid_from k cs
      | O =>
          let '(r, w) := DecodeRuneInString s in
          if (r =? RuneError)%Z && Nat.eqb w 1 then false
          else valid_from (w - 1) cs
      end
  end.
Definition ValidString (s : string) : bool := valid_from 0 s.

(** [utf8.EncodeRune]: the UTF-8 encoding of a rune; a surrogate or a
    value out of range is encoded as [RuneError]. *)
Definition cont_byte (x : Z) : ascii := byte_of (Z.lor 128 (Z.land x 63)).

Definition EncodeRune (r : Z) : string :=
  if (r <? 0)%Z || (1114111 <? r)%Z || (55296 <=? r)%Z && (r <=? 57343)%Z then
    String (byte_of 239) (String (byte_of 191) (String (byte_of 189) ""))
  else if (r <=? 127)%Z then String (byte_of r) ""
  else if (r <=? 2047)%Z then
    String (byte_of (Z.lor 192 (Z.shiftr r 6))) (String (cont_byte r) "")
  else if (r <=? 65535)%Z then
    String (byte_of (Z.lor 224 (Z.shiftr r 12)))
      (String (cont_byte (Z.shiftr r 6)) (String (cont_byte r) ""))
  else
    String (byte_of (Z.lor 240 (Z.shiftr r 18)))
      (String (cont_byte (Z.shiftr r 12))
         (String (cont_byte (Z.shiftr r 6)) (String (cont_byte r) ""))).

(** [unicode.IsSpace]. *)
Definition IsSpace (r : Z) : bool :=
  ((9 <=? r) && (r <=? 13) || (r =? 32) || (r =? 133) || (r =? 160)
   || (r =? 5760) || (8192 <=? r) && (r <=? 8202) || (r =? 8232)
   || (r =? 8233) || (r =? 8239) || (r =? 8287) || (r =? 12288))%Z.

End GoUtf8.

(** ** Package [strings] *)

Module GoStrings.

(** [strings.Join(elems, sep)]. *)
Fixpoint Join (elems : list string) (sep : string) : string :=
  match elems with
  | [] => ""
  | [x] => x
  | x :: xs => x +:+ sep +:+ Join xs sep
  end.

(** [strings.HasPrefix(s, prefix)]. *)
Fixpoint HasPrefix (s prefix : string) : bool :=
  match prefix, s with
  | "", _ => true
  | String p ps, String c cs => Ascii.eqb p c && HasPrefix cs ps
  | String _ _, "" => false
  end.

Fixpoint drop (n : nat) (s : string) : string :=
  match n, s with
  | O, _ => s
  | S n', String _ cs => drop n' cs
  | S _, "" => ""
  end.

(** The scanning loop of [strings.Replace] for a non-empty [old]:
    left to right, non-overlapping.  [skip] counts the bytes of a
    match that are still to be dropped. *)
Fixpoint replace_from (skip : nat) (s old new : string) : string :=
  match s with
  | "" => ""
  | String c cs =>
      match skip with
      | S k => replace_from k cs old new
      | O =>
          if HasPrefix s old
          then new +:+ replace_from (String.length old - 1) cs old new
          else String c (replace_from O cs old new)
      end
  end.

(** [strings.Contains] for a one-byte needle. *)
Fixpoint ContainsByte (s : string) (b : ascii) : bool :=
  match s with
  | "" => false
  | String c cs => Ascii.eqb c b || ContainsByte cs b
  end.

(** [strings.ReplaceAll] with an empty [old]: [new] is inserted before every
    UTF-8 sequence and at the end. *)
Fixpoint interleave (skip : nat) (s new : string) : string :=
  match s with
  | "" => new
  | String c cs =>
      match skip with
      | S k => String c (interleave k cs new)
      | O => new +:+ String c (interleave (snd (GoUtf8.DecodeRuneInString s) - 1) cs new)
      end
  end.

(** [strings.ReplaceAll(s, old, new)]. *)
Definition ReplaceAll (s old new : string) : string :=
  match old with
  | "" => interleave 0 s new
  | _ => replace_from 0 s old new
  end.
End GoStrings.

(** ** The type [float64] *)

Module GoFloat64.

(** A [float64] is a [spec_float] that is a valid binary64 datum
    (precision 53, [emax] 1024). *)
Definition valid (v : spec_float) : bool := valid_binary 53 1024 v.

(** The comparison [a == b] on [float64]. *)
Definition eqb (a b : spec_float) : bool := SFeqb a b.

Definition int64_min : Z := - 2 ^ 63.
Definition int64_max : Z := 2 ^ 63 - 1.

(** The integer part of a finite value, rounding toward zero. *)
Definition trunc (v : spec_float) : option Z :=
  match v with
  | S754_zero _ => Some 0%Z
  | S754_finite s m e =>
      Some (cond_Zopp s (if (0 <=? e)%Z then Z.shiftl (Zpos m) e
                         else Z.shiftr (Zpos m) (- e)))
  | _ => None
  end.

(** The result of the conversion [int64(v)] when the integer part of
    [v] is not an [int64] (or [v] is an infinity or a NaN).  The Go
    specification leaves it to the implementation; this is what the
    amd64 conversion instruction returns. *)
Definition int64_indefinite : Z := int64_min.

(** The conversion [int64(v)]. *)
Definition to_int64 (v : spec_float) : Z :=
  match trunc v with
  | Some z =>
      if (int64_min <=? z)%Z && (z <=? int64_max)%Z then z
      else int64_indefinite
  | None => int64_indefinite
  end.

(** The conversion [float64(i)] of an [int64]: round to nearest, ties
    to even. *)
Definition of_int64 (i : Z) : spec_float := binary_normalize 53 1024 i 0 false.

(** The value is a mathematical integer. *)
Definition is_integral (v : spec_float) : bool :=
  match v with
  | S754_zero _ => true
  | S754_finite _ m e =>
      (0 <=? e)%Z || (Z.land (Zpos m) (Z.ones (- e)) =? 0)%Z
  | _ => false
  end.

End GoFloat64.

(** ** Package [strconv] *)

Module GoStrconv.
#[local] Open Scope Z_scope.

(** [strconv.FormatInt(i, 10)], which is also [fmt]'s [%d]. *)
Definition FormatInt (i : Z) : string := NilZero.string_of_int (Z.to_int i).

(** *** Shortest decimal digits of a [float64]

    [strconv] prints a finite non-zero [m * 2^e] with the fewest
    decimal digits that read back as the same float
    ([roundShortest]).  The digits of the exact decimal expansion are
    walked from the most significant one; at each position the
    expansion cut there ([down]) and the cut plus one unit ([up]) are
    compared with the two half-way points [lower] and [upper] to the
    neighbouring floats, which are acceptable only when [m] is even.
    All quantities are exact rationals over the common denominator
    [den]. *)

Record interval := {
  num : Z;        (* the value is    num / den *)
  lower : Z;      (* lower bound is  lower / den *)
  upper : Z;      (* upper bound is  upper / den *)
  den : Z;
  inclusive : bool
}.

Definition mantbits : Z := 52.
Definition minexp : Z := -1074.

Definition interval_of (m : positive) (e : Z) : interval :=
  let m := Zpos m in
  let narrow := (m =? 2 ^ mantbits)%Z && (minexp <? e)%Z in
  let lo := if narrow then (4 * m - 1)%Z else (4 * m - 2)%Z in
  let sc := if (2 <=? e)%Z then (2 ^ (e - 2))%Z else 1%Z in
  {| num := 4 * m * sc; lower := lo * sc; upper := (4 * m + 2) * sc;
     den := if (2 <=? e)%Z then 1%Z else (2 ^ (2 - e))%Z;
     inclusive := Z.even m |}.

(** One position of the walk, of weight [10^k]: [Some (q, k)] when
    the digits [q] may stop here. *)
Definition try_position (iv : interval) (k : Z) : option (Z * Z) :=
  let s := if (k <? 0)%Z then (10 ^ (- k))%Z else 1%Z in
  let w := if (k <? 0)%Z then den iv else (10 ^ k * den iv)%Z in
  let q := (num iv * s / w)%Z in
  let okdown := (lower iv * s <? q * w)%Z
                || inclusive iv && (lower iv * s =? q * w)%Z in
  let okup := ((q + 1) * w <? upper iv * s)%Z
              || inclusive iv && ((q + 1) * w =? upper iv * s)%Z in
  if okdown && okup then
    match (2 * num iv * s ?= (2 * q + 1) * w)%Z with
    | Gt => Some ((q + 1)%Z, k)
    | Lt => Some (q, k)
    | Eq => Some (if Z.odd q then (q + 1)%Z else q, k)
    end
  else if okdown then Some (q, k)
  else if okup then Some ((q + 1)%Z, k)
  else None.

Fixpoint walk (fuel : nat) (iv : interval) (k : Z) : option (Z * Z) :=
  match fuel with
  | O => None
  | S n =>
      match try_position iv k with
      | Some r => Some r
      | None => walk n iv (k - 1)
      end
  end.

(** Removal of trailing zeros ([trim]). *)
Fixpoint trim (fuel : nat) (q k : Z) : Z * Z :=
  match fuel with
  | O => (q, k)
  | S n => if (q =? 0)%Z then (q, k)
           else if (q mod 10 =? 0)%Z then trim n (q / 10)%Z (k + 1)%Z
           else (q, k)
  end.

(** The exact decimal expansion of [m * 2^e], as digits and weight. *)
Definition exact_decimal (m : positive) (e : Z) : Z * Z :=
  if (0 <=? e)%Z then (Zpos m * 2 ^ e, 0)%Z else (Zpos m * 5 ^ (- e), e)%Z.

(** The shortest digits [(q, k)] of [m * 2^e]: the printed number is
    [q * 10^k] and [q] has no trailing zero. *)
Definition shortest (m : positive) (e : Z) : Z * Z :=
  let iv := interval_of m e in
  let k0 := Z.log2 (upper iv / den iv + 1) + 1 in
  let '(q, k) :=
    match walk (Z.to_nat (k0 + 1080)) iv k0 with
    | Some r => r
    | None => exact_decimal m e
    end in
  trim (Z.to_nat (Z.log2 q + 1)) q k.

(** The type [decimalSlice]: digits [d] and the position [dp] of the
    decimal point, the value being [0.d * 10^dp]. *)
Record decimalSlice := { d : string; dp : Z }.

Definition nd (ds : decimalSlice) : Z := Z.of_nat (String.length (d ds)).

Definition digits_of (v : spec_float) : decimalSlice :=
  match v with
  | S754_finite _ m e =>
      let '(q, k) := shortest m e in
      let ds := FormatInt q in
      {| d := ds; dp := Z.of_nat (String.length ds) + k |}
  | _ => {| d := ""; dp := 0 |}
  end.

Definition zero_digit : ascii := "0"%char.

(** [n] zeros. *)
Fixpoint zeros (n : nat) : string :=
  match n with
  | O => ""
  | S k => String zero_digit (zeros k)
  end.

(** The slice [d[a:b]] of the digits. *)
Definition digits_slice (ds : decimalSlice) (a b : Z) : string :=
  String.substring (Z.to_nat a) (Z.to_nat (b - a)) (d ds).

(** The digit [d[j]], or ['0'] outside the digits. *)
Definition digit_at (ds : decimalSlice) (j : Z) : ascii :=
  if (0 <=? j) && (j <? nd ds)
  then match String.get (Z.to_nat j) (d ds) with
       | Some c => c
       | None => zero_digit
       end
  else zero_digit.

(** The loop that writes the [n] fraction digits [d[start + i]]. *)
Fixpoint fraction_digits (ds : decimalSlice) (start : Z) (n : nat) : string :=
  match n with
  | O => ""
  | S k => String (digit_at ds start) (fraction_digits ds (start + 1) k)
  end.

Definition sign_prefix (neg : bool) : string := if neg then "-" else "".

(** The exponent, in two digits at least. *)
Definition exponent_digits (exp : Z) : string :=
  if exp <? 10 then String zero_digit (FormatInt exp) else FormatInt exp.

(** [%e]: [-d.ddddde±dd]. *)
Definition fmtE (neg : bool) (ds : decimalSlice) (prec : Z) : string :=
  let ch := if nd ds =? 0 then zero_digit else digit_at ds 0 in
  let m := Z.min (nd ds) (prec + 1) in
  let more :=
    if 0 <? prec
    then "." +:+ (if 1 <? m then digits_slice ds 1 m else "")
         +:+ zeros (Z.to_nat (prec + 1 - Z.max 1 m))
    else "" in
  let exp := if nd ds =? 0 then 0 else dp ds - 1 in
  sign_prefix neg +:+ String ch "" +:+ more +:+ "e"
  +:+ (if exp <? 0 then "-" else "+") +:+ exponent_digits (Z.abs exp).

(** [%f]: [-ddddddd.ddddd]. *)
Definition fmtF (neg : bool) (ds : decimalSlice) (prec : Z) : string :=
  let m := Z.min (nd ds) (dp ds) in
  sign_prefix neg
  +:+ (if 0 <? dp ds
       then digits_slice ds 0 m +:+ zeros (Z.to_nat (dp ds - m))
       else "0")
  +:+ (if 0 <? prec then "." +:+ fraction_digits ds (dp ds) (Z.to_nat prec) else "").

Inductive verb := FmtE | FmtF | FmtG.

Definition is_neg (v : spec_float) : bool :=
  match v with
  | S754_zero s | S754_infinity s | S754_finite s _ _ => s
  | S754_nan => false
  end.

(** [strconv.FormatFloat(v, fmt, -1, 64)]. *)
Definition FormatFloat (v : spec_float) (fmt : verb) : string :=
  match v with
  | S754_nan => "NaN"
  | S754_infinity true => "-Inf"
  | S754_infinity false => "+Inf"
  | _ =>
      let ds := digits_of v in
      let neg := is_neg v in
      match fmt with
      | FmtE => fmtE neg ds (Z.max (nd ds - 1) 0)
      | FmtF => fmtF neg ds (Z.max (nd ds - dp ds) 0)
      | FmtG =>
          let exp := (dp ds - 1)%Z in
          if (exp <? -4)%Z || (6 <=? exp)%Z
          then fmtE neg ds (nd ds - 1)
          else fmtF neg ds (Z.max (nd ds - dp ds) 0)
      end
  end.

(** *** Reading a decimal number

    [strconv.ParseFloat(s, 64)] on the number syntax of JSON: an
    optional minus sign, digits, an optional fraction and an optional
    exponent.  The result is the [float64] nearest to the decimal
    number, ties to even; a number that is too large is a range
    error. *)

Definition is_digit (c : ascii) : bool :=
  (48 <=? byte_val c) && (byte_val c <=? 57).

Fixpoint span_digits (s : string) : string * string :=
  match s with
  | String c cs =>
      if is_digit c then let '(ds, rest) := span_digits cs in (String c ds, rest)
      else ("", s)
  | "" => ("", "")
  end.

(** The number written by a string of digits, most significant first. *)
Fixpoint dec_value_from (acc : Z) (s : string) : Z :=
  match s with
  | "" => acc
  | String c cs => dec_value_from (10 * acc + (byte_val c - 48)) cs
  end.
Definition dec_value (s : string) : Z := dec_value_from 0 s.

(** The exponent part, after the [e]: a sign and digits. *)
Definition read_exponent (s : string) : option Z :=
  let '(neg, ds) :=
    match s with
    | String c cs =>
        if Ascii.eqb c "-"%char then (true, cs)
        else if Ascii.eqb c "+"%char then (false, cs)
        else (false, s)
    | "" => (false, s)
    end in
  let '(es, rest) := span_digits ds in
  if String.eqb es "" || negb (String.eqb rest "") then None
  else Some (if neg then - dec_value es else dec_value es).

(** [readFloat]: the sign, the digits [q] and the decimal exponent
    [k] of the literal, which denotes [q * 10^k]. *)
Definition readFloat (lit : string) : option (bool * Z * Z) :=
  let '(neg, s) :=
    match lit with
    | String c cs => if Ascii.eqb c "-"%char then (true, cs) else (false, lit)
    | "" => (false, lit)
    end in
  let '(ip, s) := span_digits s in
  if String.eqb ip "" then None
  else
    let frac :=
      match s with
      | String c cs =>
          if Ascii.eqb c "."%char then
            let '(fp, rest) := span_digits cs in
            if String.eqb fp "" then None else Some (fp, rest)
          else Some ("", s)
      | "" => Some ("", s)
      end in
    match frac with
    | None => None
    | Some (fp, s) =>
        let exp :=
          match s with
          | "" => Some 0
          | String c cs =>
              if Ascii.eqb c "e"%char || Ascii.eqb c "E"%char then read_exponent cs
              else None
          end in
        match exp with
        | None => None
        | Some e =>
            Some (neg, dec_value (ip +:+ fp), e - Z.of_nat (String.length fp))
        end
    end.

(** The integer nearest to [x / y], ties to even ([0 <= x], [0 < y]). *)
Definition div_nearest_even (x y : Z) : Z :=
  let m := x / y in
  match 2 * (x mod y) ?= y with
  | Lt => m
  | Gt => m + 1
  | Eq => if Z.even m then m else m + 1
  end.

(** The [float64] nearest to [q * 10^k] for [0 <= q]; [None] when it
    is out of range.  Every binary exponent that matters is at least
    [-1100], so the number is first scaled by [2^1100]: it is then
    [x / y] for integers [x] and [y], and so is its quotient by any
    power of two in use.  [round_ratio] rounds [(x / y) / 2^1100]. *)
Definition round_ratio (neg : bool) (x y : Z) : option spec_float :=
  if x <? y then Some (S754_zero neg)
  else
    let l := Z.log2 (x / y) - 1100 in
    let e := Z.max (l - 52) minexp in
    let m := div_nearest_even x (y * 2 ^ (e + 1100)) in
    let '(m, e) := if m =? 2 ^ 53 then (2 ^ 52, e + 1) else (m, e) in
    if 971 <? e then None
    else match m with
         | Zpos p => Some (S754_finite neg p e)
         | _ => Some (S754_zero neg)
         end.

Definition round_decimal (neg : bool) (q k : Z) : option spec_float :=
  round_ratio neg (q * 10 ^ Z.max k 0 * 2 ^ 1100) (10 ^ Z.max (- k) 0).

Definition ParseFloat (lit : string) : option spec_float :=
  match readFloat lit with
  | Some (neg, q, k) => round_decimal neg q k
  | None => None
  end.

(** [strconv.ParseInt(s, 10, 64)]. *)
Definition ParseInt (s : string) : option Z :=
  match NilZero.int_of_string s with
  | Some i =>
      let z := Z.of_int i in
      if (- 2 ^ 63 <=? z) && (z <=? 2 ^ 63 - 1) then Some z else None
  | None => None
  end.

End GoStrconv.

(** ** Go data: slices, interface values, errors *)

(** A slice [[]T]: the [nil] slice, or a slice holding the elements
    [l] (an empty non-nil slice is [mk_slice []]). *)
Inductive slice (A : Type) : Type :=
| nil_slice
| mk_slice (l : list A).
Arguments nil_slice {A}.
Arguments mk_slice {A} l.

Definition elems {A} (s : slice A) : list A :=
  match s with
  | nil_slice => []
  | mk_slice l => l
  end.

Definition len {A} (s : slice A) : nat := List.length (elems s).

(** A cell, [interface{}]: the dynamic types are those that
    [json.Unmarshal] stores in an [interface{}] (the dataset is always
    obtained that way): [nil], [string], [float64], [bool],
    [[]interface{}] and [map[string]interface{}]. *)
Inductive value :=
| VNil
| VString (s : string)
| VFloat64 (f : spec_float)
| VBool (b : bool)
| VSlice (l : list value)
| VMap (m : gmap string value).

(** A row, [map[string]interface{}]: the [nil] map or a map. *)
Inductive row :=
| nil_map
| mk_map (m : gmap string value).

(** The index expression [row[field]]: the zero value [nil] when the
    key is absent, also on a [nil] map. *)
Definition index (r : row) (field : string) : value :=
  match r with
  | nil_map => VNil
  | mk_map m => default VNil (m !! field)
  end.

(** The value [error]: [errors.New]/[fmt.Errorf] without [%w],
    [fmt.Errorf] with [%w] (the message is already formatted), and the
    two failures of [encoding/json]. *)
Inductive error :=
| errorString (s : string)
| wrapError (msg : string) (err : error)
| UnsupportedValueError (str : string)
| errInvalidDelim.

Definition Error (e : error) : string :=
  match e with
  | errorString s => s
  | wrapError msg _ => msg
  | UnsupportedValueError str => "json: unsupported value: " +:+ str
  | errInvalidDelim => "csv: invalid field or comment delimiter"
  end.

(** [fmt.Errorf(format)] and [fmt.Errorf(prefix + "%w", err)]. *)
Definition Errorf (msg : string) : error := errorString msg.
Definition Errorf_w (prefix : string) (err : error) : error :=
  wrapError (prefix +:+ Error err) err.

(** What the four exports return: [([]byte, error)]; [None] is [nil]. *)
Definition result : Type := option string * option error.

(** ** Package [sort] on strings *)

(** Keys are compared bytewise ([String.le]). *)
Definition key_le {A} (x y : string * A) : Prop := String.le x.1 y.1.
#[global] Instance key_le_dec {A} : RelDecision (@key_le A).
Proof. intros x y. unfold key_le. apply _. Defined.

(** The entries of a map in increasing key order (bytewise), as [fmt]
    and [encoding/json] visit them. *)
Definition sorted_entries {A} (m : gmap string A) : list (string * A) :=
  merge_sort key_le (map_to_list m).

(** ** Package [fmt] *)

Module GoFmt.

(** [fmt.Sprintf("%v", v)]. *)
Fixpoint Sprint_v (v : value) : string :=
  match v with
  | VNil => "<nil>"
  | VString s => s
  | VFloat64 f => GoStrconv.FormatFloat f GoStrconv.FmtG
  | VBool b => if b then "true" else "false"
  | VSlice l => "[" +:+ GoStrings.Join (List.map Sprint_v l) " " +:+ "]"
  | VMap m =>
      "map["
      +:+ GoStrings.Join
            (List.map (fun kv : string * string => kv.1 +:+ ":" +:+ kv.2)
               (sorted_entries (Sprint_v <$> m))) " "
      +:+ "]"
  end.

(** [fmt.Sprintf("%d", i)] for an [int64]. *)
Definition Sprint_d (i : Z) : string := GoStrconv.FormatInt i.

End GoFmt.

(** ** Package [encoding/csv]: the writer *)

Module GoCsv.

(** [csv.NewWriter] sets [Comma] to [','] and leaves [UseCRLF]
    false; [ToCSV] changes neither. *)
Definition Comma : ascii := ","%char.
Definition UseCRLF : bool := false.
Definition quote : ascii := byte_of 34.

(** The writer: the bytes written so far. *)
Record Writer := { w : string }.

Definition NewWriter : Writer := {| w := "" |}.

Definition validDelim (r : ascii) : bool :=
  negb (Ascii.eqb r zero) && negb (Ascii.eqb r quote)
  && negb (Ascii.eqb r CR) && negb (Ascii.eqb r LF)
  && (byte_val r <? 128)%Z.

Fixpoint has_special (field : string) : bool :=
  match field with
  | "" => false
  | String c cs =>
      Ascii.eqb c LF || Ascii.eqb c CR || Ascii.eqb c quote
      || Ascii.eqb c Comma || has_special cs
  end.

(** [fieldNeedsQuotes]. *)
Definition fieldNeedsQuotes (field : string) : bool :=
  if String.eqb field "" then false
  else if String.eqb field "\." then true
  else if has_special field then true
  else GoUtf8.IsSpace (fst (GoUtf8.DecodeRuneInString field)).

(** The body of a quoted field: a quote is doubled; a carriage
    return and a line feed are copied ([UseCRLF] is false). *)
Fixpoint quoted_body (field : string) : string :=
  match field with
  | "" => ""
  | String c cs =>
      (if Ascii.eqb c quote then String quote (String quote "")
       else String c "") +:+ quoted_body cs
  end.

Definition write_field (field : string) : string :=
  if fieldNeedsQuotes field
  then String quote (quoted_body field) +:+ String quote ""
  else field.

(** The loop of [Write] over the fields, [n] being the index. *)
Fixpoint write_fields (n : nat) (record : list string) : string :=
  match record with
  | [] => ""
  | field :: rest =>
      (if (0 <? n)%nat then String Comma "" else "")
      +:+ write_field field +:+ write_fields (S n) rest
  end.

(** [Writer.Write(record)]. *)
Definition Write (wr : Writer) (record : list string) : Writer * option error :=
  if negb (validDelim Comma) then (wr, Some errInvalidDelim)
  else ({| w := w wr +:+ write_fields 0 record +:+ newline |}, None).

(** [Flush] and [Error]: the destination is a [bytes.Buffer], whose
    writes do not fail. *)
Definition Flush (wr : Writer) : Writer := wr.
Definition WriterError (wr : Writer) : option error := None.

End GoCsv.

(** ** Package [encoding/json]: the encoder *)

(** A computation that may fail with an [error]. *)
Inductive res (A : Type) : Type :=
| Ok (a : A)
| Err (e : error).
Arguments Ok {A} a.
Arguments Err {A} e.

Definition res_bind {A B} (x : res A) (f : A -> res B) : res B :=
  match x with
  | Ok a => f a
  | Err e => Err e
  end.

Definition res_map {A B} (f : A -> B) (x : res A) : res B :=
  res_bind x (fun a => Ok (f a)).

(** The results of a list of computations, or the first failure. *)
Fixpoint sequence {A} (l : list (res A)) : res (list A) :=
  match l with
  | [] => Ok []
  | x :: xs => res_bind x (fun a => res_map (cons a) (sequence xs))
  end.

Definition sequence_entries {A} (l : list (string * res A)) : res (list (string * A)) :=
  sequence (List.map (fun kv : string * res A => res_map (pair kv.1) kv.2) l).

Module GoJson.

(** The JSON text written by [Marshal], as the tree of its tokens: a
    number, a string and a key are kept as the text of their
    literals. *)
Inductive document :=
| JNull
| JBool (b : bool)
| JNumber (lit : string)
| JString (lit : string)
| JArray (l : list document)
| JObject (kvs : list (string * document)).

(** *** Numbers ([floatEncoder], [intEncoder]) *)

Definition float_1e_6 : spec_float := S754_finite false 4722366482869645 (-72).
Definition float_1e21 : spec_float := S754_finite false 7629394531250000 17.

Definition is_zero (f : spec_float) : bool :=
  match f with S754_zero _ => true | _ => false end.

(** The clean-up of [e-09] to [e-9] at the end of the literal. *)
Definition clean_exponent (b : string) : string :=
  match rev (list_ascii_of_string b) with
  | c1 :: c2 :: c3 :: c4 :: rest =>
      if Ascii.eqb c4 "e"%char
         && (Ascii.eqb c3 "-"%char || Ascii.eqb c3 "+"%char)
         && Ascii.eqb c2 "0"%char
      then string_of_list_ascii (rev (c1 :: c3 :: c4 :: rest))
      else b
  | _ => b
  end.

Definition floatEncoder (f : spec_float) : res string :=
  match f with
  | S754_nan | S754_infinity _ =>
      Err (UnsupportedValueError (GoStrconv.FormatFloat f GoStrconv.FmtG))
  | _ =>
      let abs := SFabs f in
      if negb (is_zero abs) && (SFltb abs float_1e_6 || SFleb float_1e21 abs)
      then Ok (clean_exponent (GoStrconv.FormatFloat f GoStrconv.FmtE))
      else Ok (GoStrconv.FormatFloat f GoStrconv.FmtF)
  end.

Definition intEncoder (i : Z) : string := GoStrconv.FormatInt i.

(** *** Strings ([appendString], with HTML escaping on) *)

Definition hex_digit (n : Z) : ascii :=
  match String.get (Z.to_nat n) "0123456789abcdef" with
  | Some c => c
  | None => "0"%char
  end.

Definition backslash : ascii := byte_of 92.
Definition dquote : ascii := byte_of 34.

Definition htmlSafe (b : ascii) : bool :=
  let x := byte_val b in
  (32 <=? x)%Z && negb (x =? 34)%Z && negb (x =? 92)%Z
  && negb (x =? 60)%Z && negb (x =? 62)%Z && negb (x =? 38)%Z.

(** What is written for an ASCII byte that is not safe. *)
Definition escape_byte (b : ascii) : string :=
  let x := byte_val b in
  if (x =? 92)%Z || (x =? 34)%Z then String backslash (String b "")
  else if (x =? 8)%Z then String backslash "b"
  else if (x =? 12)%Z then String backslash "f"
  else if (x =? 10)%Z then String backslash "n"
  else if (x =? 13)%Z then String backslash "r"
  else if (x =? 9)%Z then String backslash "t"
  else String backslash
         (String "u" (String "0" (String "0"
            (String (hex_digit (Z.shiftr x 4))
               (String (hex_digit (Z.land x 15)) ""))))).

(** The loop of [appendString].  [skip] counts the remaining bytes
    of the rune being handled; they are copied when [copy] holds and
    dropped otherwise. *)
Fixpoint escape_from (skip : nat) (copy : bool) (src : string) : string :=
  match src with
  | "" => ""
  | String b rest =>
      match skip with
      | S k => if copy then String b (escape_from k copy rest)
               else escape_from k copy rest
      | O =>
          if (byte_val b <? 128)%Z then
            (if htmlSafe b then String b "" else escape_byte b)
            +:+ escape_from 0 true rest
          else
            let '(c, size) := GoUtf8.DecodeRuneInString src in
            if (c =? GoUtf8.RuneError)%Z && Nat.eqb size 1 then
              String backslash "ufffd" +:+ escape_from 0 true rest
            else if (c =? 8232)%Z || (c =? 8233)%Z then
              String backslash "u202" +:+ String (hex_digit (Z.land c 15)) ""
              +:+ escape_from (size - 1) false rest
            else String b (escape_from (size - 1) true rest)
      end
  end.

Definition appendString (src : string) : string :=
  String dquote (escape_from 0 true src) +:+ String dquote "".

(** *** The encoder proper

    The dynamic types met while encoding the response of [ToJSON]:
    a cell, the field list [[]string], the rows
    [[]map[string]interface{}] and the count [int]. *)
Inductive any :=
| AnyValue (v : value)
| AnyStrings (s : slice string)
| AnyRows (d : slice row)
| AnyInt (i : Z).

(** The entries of an object: the keys are quoted. *)
Definition members (kvs : list (string * document)) : document :=
  JObject (List.map (fun kv : string * document => (appendString kv.1, kv.2)) kvs).

(** A cell.  Map entries are written in increasing key order. *)
Fixpoint encode (v : value) : res document :=
  match v with
  | VNil => Ok JNull
  | VString s => Ok (JString (appendString s))
  | VFloat64 f => res_map JNumber (floatEncoder f)
  | VBool b => Ok (JBool b)
  | VSlice l => res_map JArray (sequence (List.map encode l))
  | VMap m => res_map members (sequence_entries (sorted_entries (encode <$> m)))
  end.

Definition encode_row (r : row) : res document :=
  match r with
  | nil_map => Ok JNull
  | mk_map m => encode (VMap m)
  end.

Definition encode_any (a : any) : res document :=
  match a with
  | AnyValue v => encode v
  | AnyStrings nil_slice => Ok JNull
  | AnyStrings (mk_slice l) => Ok (JArray (List.map (fun s => JString (appendString s)) l))
  | AnyRows nil_slice => Ok JNull
  | AnyRows (mk_slice l) => res_map JArray (sequence (List.map encode_row l))
  | AnyInt i => Ok (JNumber (intEncoder i))
  end.

(** [Marshal] of a [map[string]interface{}]. *)
Definition Marshal (m : gmap string any) : res document :=
  res_map members (sequence_entries (sorted_entries (encode_any <$> m))).

(** *** [Indent] with prefix [""] and indent ["  "] *)

Fixpoint spaces (depth : nat) : string :=
  match depth with
  | O => ""
  | S n => "  " +:+ spaces n
  end.

Definition appendNewline (depth : nat) : string := newline +:+ spaces depth.

Fixpoint Indent (doc : document) (depth : nat) : string :=
  match doc with
  | JNull => "null"
  | JBool b => if b then "true" else "false"
  | JNumber lit => lit
  | JString lit => lit
  | JArray [] => "[]"
  | JArray l =>
      "[" +:+ appendNewline (S depth)
      +:+ GoStrings.Join (List.map (fun d => Indent d (S depth)) l)
            ("," +:+ appendNewline (S depth))
      +:+ appendNewline depth +:+ "]"
  | JObject [] => "{}"
  | JObject kvs =>
      "{" +:+ appendNewline (S depth)
      +:+ GoStrings.Join
            (List.map (fun kv : string * document =>
                         kv.1 +:+ ": " +:+ Indent kv.2 (S depth)) kvs)
            ("," +:+ appendNewline (S depth))
      +:+ appendNewline depth +:+ "}"
  end.

(** [json.MarshalIndent(v, "", "  ")]. *)
Definition MarshalIndent (m : gmap string any) : res string :=
  res_map (fun doc => Indent doc 0) (Marshal m).

(** *** The decoder: string literals ([unquote]) *)

Definition unhex (c : ascii) : option Z :=
  let x := byte_val c in
  if (48 <=? x)%Z && (x <=? 57)%Z then Some (x - 48)%Z
  else if (97 <=? x)%Z && (x <=? 102)%Z then Some (x - 87)%Z
  else if (65 <=? x)%Z && (x <=? 70)%Z then Some (x - 55)%Z
  else None.

(** [getu4] on the four hexadecimal digits after [\u]. *)
Definition getu4 (h1 h2 h3 h4 : ascii) : option Z :=
  match unhex h1, unhex h2, unhex h3, unhex h4 with
  | Some a, Some b, Some c, Some d => Some (((a * 16 + b) * 16 + c) * 16 + d)%Z
  | _, _, _, _ => None
  end.

Definition IsSurrogate (r : Z) : bool := (55296 <=? r)%Z && (r <? 57344)%Z.

(** [utf16.DecodeRune]. *)
Definition utf16_DecodeRune (r1 r2 : Z) : Z :=
  if (55296 <=? r1)%Z && (r1 <? 56320)%Z && (56320 <=? r2)%Z && (r2 <? 57344)%Z
  then (Z.lor (Z.shiftl (r1 - 55296) 10) (r2 - 56320) + 65536)%Z
  else GoUtf8.RuneError.

Definition prepend (s : string) (o : option string) : option string :=
  match o with
  | Some t => Some (s +:+ t)
  | None => None
  end.

(** The character named by a one-letter escape. *)
Definition simple_escape (e : ascii) : option ascii :=
  let x := byte_val e in
  if (x =? 34)%Z || (x =? 92)%Z || (x =? 47)%Z || (x =? 39)%Z then Some e
  else if (x =? 98)%Z then Some (byte_of 8)
  else if (x =? 102)%Z then Some (byte_of 12)
  else if (x =? 110)%Z then Some LF
  else if (x =? 114)%Z then Some CR
  else if (x =? 116)%Z then Some TAB
  else None.

(** The loop of [unquoteBytes] over the text between the quotes.
    [skip] counts the remaining bytes of a well-formed rune, which are
    copied (a well-formed rune is re-encoded as itself). *)
Fixpoint unquote_from (skip : nat) (s : string) : option string :=
  match s with
  | "" => Some ""
  | String c rest =>
      match skip with
      | S k => prepend (String c "") (unquote_from k rest)
      | O =>
          if Ascii.eqb c backslash then
            match rest with
            | "" => None
            | String e rest1 =>
                if Ascii.eqb e "u"%char then
                  match rest1 with
                  | String h1 (String h2 (String h3 (String h4 rest2))) =>
                      match getu4 h1 h2 h3 h4 with
                      | None => None
                      | Some rr =>
                          if IsSurrogate rr then
                            match rest2 with
                            | String b1 (String u1 (String g1 (String g2
                                (String g3 (String g4 rest3))))) =>
                                let rr1 :=
                                  if Ascii.eqb b1 backslash && Ascii.eqb u1 "u"%char
                                  then default (-1)%Z (getu4 g1 g2 g3 g4)
                                  else (-1)%Z in
                                let dec := utf16_DecodeRune rr rr1 in
                                if (dec =? GoUtf8.RuneError)%Z
                                then prepend (GoUtf8.EncodeRune GoUtf8.RuneError)
                                       (unquote_from 0 rest2)
                                else prepend (GoUtf8.EncodeRune dec) (unquote_from 0 rest3)
                            | _ => prepend (GoUtf8.EncodeRune GoUtf8.RuneError)
                                     (unquote_from 0 rest2)
                            end
                          else prepend (GoUtf8.EncodeRune rr) (unquote_from 0 rest2)
                      end
                  | _ => None
                  end
                else
                  match simple_escape e with
                  | Some x => prepend (String x "") (unquote_from 0 rest1)
                  | None => None
                  end
            end
          else if Ascii.eqb c dquote || (byte_val c <? 32)%Z then None
          else if (byte_val c <? 128)%Z then prepend (String c "") (unquote_from 0 rest)
          else
            let '(rr, size) := GoUtf8.DecodeRuneInString s in
            if (rr =? GoUtf8.RuneError)%Z && Nat.eqb size 1
            then prepend (GoUtf8.EncodeRune GoUtf8.RuneError) (unquote_from 0 rest)
            else prepend (String c "") (unquote_from (size - 1) rest)
      end
  end.

(** [s] without its last byte, when that byte is [c]. *)
Fixpoint chop_last (c : ascii) (s : string) : option string :=
  match s with
  | "" => None
  | String x "" => if Ascii.eqb x c then Some "" else None
  | String x xs => prepend (String x "") (chop_last c xs)
  end.

(** [unquote]: the Go string denoted by a string literal. *)
Definition unquote (lit : string) : option string :=
  match lit with
  | String q rest =>
      if Ascii.eqb q dquote then
        match chop_last dquote rest with
        | Some body => unquote_from 0 body
        | None => None
        end
      else None
  | "" => None
  end.

(** *** The decoder proper

    [Unmarshal] into an [interface{}]: [null] gives [nil], a number a
    [float64], an array a [[]interface{}] and an object a
    [map[string]interface{}], a later key replacing an earlier equal
    one. *)
Definition option_sequence {A} (l : list (option A)) : option (list A) :=
  foldr (fun x acc => match x, acc with
                      | Some a, Some r => Some (a :: r)
                      | _, _ => None
                      end) (Some []) l.

Definition add_entry {A} (m : gmap string A) (kv : string * A) : gmap string A :=
  <[kv.1 := kv.2]> m.

Fixpoint decode (doc : document) : option value :=
  match doc with
  | JNull => Some VNil
  | JBool b => Some (VBool b)
  | JNumber lit => VFloat64 <$> GoStrconv.ParseFloat lit
  | JString lit => VString <$> unquote lit
  | JArray l => VSlice <$> option_sequence (List.map decode l)
  | JObject kvs =>
      (fun entries => VMap (foldl add_entry ∅ entries))
        <$> option_sequence
              (List.map (fun kv : string * document =>
                           match unquote kv.1, decode kv.2 with
                           | Some k, Some v => Some (k, v)
                           | _, _ => None
                           end) kvs)
  end.

(** [Unmarshal] into a [map[string]interface{}], a
    [[]map[string]interface{}], a [[]string] and an [int]. *)
Definition decode_row (doc : document) : option row :=
  match doc with
  | JNull => Some nil_map
  | JObject _ =>
      match decode doc with
      | Some (VMap m) => Some (mk_map m)
      | _ => None
      end
  | _ => None
  end.

Definition decode_rows (doc : document) : option (slice row) :=
  match doc with
  | JNull => Some nil_slice
  | JArray l => mk_slice <$> option_sequence (List.map decode_row l)
  | _ => None
  end.

Definition decode_string (doc : document) : option string :=
  match doc with
  | JNull => Some ""
  | JString lit => unquote lit
  | _ => None
  end.

Definition decode_strings (doc : document) : option (slice string) :=
  match doc with
  | JNull => Some nil_slice
  | JArray l => mk_slice <$> option_sequence (List.map decode_string l)
  | _ => None
  end.

Definition decode_int (doc : document) : option Z :=
  match doc with
  | JNumber lit => GoStrconv.ParseInt lit
  | _ => None
  end.

End GoJson.

(** ** The export service: value formatting *)

Import GoFloat64.

(** A [bytes.Buffer] is the string of the bytes written so far, and
    [buf.WriteString(s)] appends to it. *)
Definition WriteString (buf s : string) : string := buf +:+ s.

(** The test [v == float64(int64(v))]. *)
Definition is_whole (v : spec_float) : bool := eqb v (of_int64 (to_int64 v)).

(** [formatValue] converts any value to a string for CSV/Markdown. *)
Definition formatValue (value : value) : string :=
  match value with
  | VNil => ""
  | VString v => v
  | VFloat64 v =>
      if is_whole v then GoFmt.Sprint_d (to_int64 v)
      else GoFmt.Sprint_v value
  | _ => GoFmt.Sprint_v value
  end.

(** [formatSQLValue] formats a value for an SQL INSERT statement. *)
Definition formatSQLValue (value : value) : string :=
  match value with
  | VNil => "NULL"
  | VString v =>
      let escaped := GoStrings.ReplaceAll v "'" "''" in
      "'" +:+ escaped +:+ "'"
  | VFloat64 v =>
      if is_whole v then GoFmt.Sprint_d (to_int64 v)
      else GoFmt.Sprint_v value
  | VBool v => if v then "TRUE" else "FALSE"
  | _ => "'" +:+ GoFmt.Sprint_v value +:+ "'"
  end.

(** [inferSQLType] infers the SQL column type from a value. *)
Definition inferSQLType (value : value) : string :=
  match value with
  | VNil => "TEXT"
  | VFloat64 _ => "NUMERIC"
  | VBool _ => "BOOLEAN"
  | VString _ => "TEXT"
  | _ => "TEXT"
  end.

(** The inner loop shared by the three text exports:
    [values[i] = format(row[field])] for every field. *)
Definition row_values (format : value -> string) (r : row)
    (fieldNames : list string) : list string :=
  List.map (fun field => format (index r field)) fieldNames.

Definition EmptyDataset : error := Errorf "no data to export".

(** ** [ToJSON] *)

Definition ToJSON (data : slice row) (fieldNames : slice string) : result :=
  let response : gmap string GoJson.any :=
    {[ "fields" := GoJson.AnyStrings fieldNames;
       "data" := GoJson.AnyRows data;
       "count" := GoJson.AnyInt (Z.of_nat (len data)) ]} in
  match GoJson.MarshalIndent response with
  | Err err => (None, Some (Errorf_w "failed to marshal JSON: " err))
  | Ok jsonData => (Some jsonData, None)
  end.

(** ** [ToCSV] *)

(** The loop over the data rows; it stops at the first failing write. *)
Fixpoint csv_rows (writer : GoCsv.Writer) (data : list row)
    (fieldNames : list string) : GoCsv.Writer * option error :=
  match data with
  | [] => (writer, None)
  | r :: rest =>
      let values := row_values formatValue r fieldNames in
      match GoCsv.Write writer values with
      | (_, Some err) => (writer, Some err)
      | (writer', None) => csv_rows writer' rest fieldNames
      end
  end.

Definition ToCSV (data : slice row) (fieldNames : slice string) : result :=
  if (len data =? 0)%nat then (None, Some EmptyDataset)
  else
    let writer := GoCsv.NewWriter in
    match GoCsv.Write writer (elems fieldNames) with
    | (_, Some err) => (None, Some (Errorf_w "failed to write CSV header: " err))
    | (writer, None) =>
        match csv_rows writer (elems data) (elems fieldNames) with
        | (_, Some err) => (None, Some (Errorf_w "failed to write CSV row: " err))
        | (writer, None) =>
            let writer := GoCsv.Flush writer in
            match GoCsv.WriterError writer with
            | Some err => (None, Some (Errorf_w "CSV writer error: " err))
            | None => (Some (GoCsv.w writer), None)
            end
        end
    end.

(** ** [ToMarkdownTable] *)

Fixpoint md_separator (buf : string) (fieldNames : list string) : string :=
  match fieldNames with
  | [] => buf
  | _ :: rest => md_separator (WriteString buf "--------|") rest
  end.

Fixpoint md_rows (buf : string) (data : list row) (fieldNames : list string) : string :=
  match data with
  | [] => buf
  | r :: rest =>
      let buf := WriteString buf "| " in
      let values := row_values formatValue r fieldNames in
      let buf := WriteString buf (GoStrings.Join values " | ") in
      let buf := WriteString buf (" |" +:+ newline) in
      md_rows buf rest fieldNames
  end.

Definition ToMarkdownTable (data : slice row) (fieldNames : slice string) : result :=
  if (len data =? 0)%nat then (None, Some EmptyDataset)
  else
    let buf := "" in
    let buf := WriteString buf "| " in
    let buf := WriteString buf (GoStrings.Join (elems fieldNames) " | ") in
    let buf := WriteString buf (" |" +:+ newline) in
    let buf := WriteString buf "|" in
    let buf := md_separator buf (elems fieldNames) in
    let buf := WriteString buf newline in
    let buf := md_rows buf (elems data) (elems fieldNames) in
    (Some buf, None).

(** ** [ToSQL] *)

(** The column loop, [i] being the index and [n] [len(fieldNames)]. *)
Fixpoint sql_columns (buf : string) (i : nat) (n : Z) (firstRow : row)
    (fieldNames : list string) : string :=
  match fieldNames with
  | [] => buf
  | field :: rest =>
      let colType := inferSQLType (index firstRow field) in
      let buf := WriteString buf ("  " +:+ field +:+ " " +:+ colType) in
      let buf := if (Z.of_nat i <? n - 1)%Z then WriteString buf "," else buf in
      let buf := WriteString buf newline in
      sql_columns buf (S i) n firstRow rest
  end.

Fixpoint sql_inserts (buf : string) (tableName : string) (data : list row)
    (fieldNames : list string) : string :=
  match data with
  | [] => buf
  | r :: rest =>
      let buf := WriteString buf
                   ("INSERT INTO " +:+ tableName +:+ " ("
                    +:+ GoStrings.Join fieldNames ", " +:+ ") VALUES (") in
      let values := row_values formatSQLValue r fieldNames in
      let buf := WriteString buf (GoStrings.Join values ", ") in
      let buf := WriteString buf (");" +:+ newline) in
      sql_inserts buf tableName rest fieldNames
  end.

Definition ToSQL (data : slice row) (fieldNames : slice string)
    (tableName : string) : result :=
  if (len data =? 0)%nat then (None, Some EmptyDataset)
  else
    let tableName := if String.eqb tableName "" then "mock_data" else tableName in
    let buf := "" in
    let buf := WriteString buf ("-- Generated data" +:+ newline) in
    let buf := WriteString buf ("-- Table: " +:+ tableName +:+ newline +:+ newline) in
    let buf := WriteString buf
                 ("CREATE TABLE IF NOT EXISTS " +:+ tableName +:+ " (" +:+ newline) in
    (* [data[0]] exists: [len(data)] is not 0 here *)
    let firstRow := List.hd nil_map (elems data) in
    let buf := sql_columns buf 0 (Z.of_nat (len fieldNames)) firstRow (elems fieldNames) in
    let buf := WriteString buf (");" +:+ newline +:+ newline) in
    let buf := sql_inserts buf tableName (elems data) (elems fieldNames) in
    (Some buf, None).

(** ** The shape of the outputs

    The pieces of text named in the statements below. *)

(** The concatenation of a list of strings. *)
Definition cat (l : list string) : string := String.concat "" l.

(** One data row of the Markdown table. *)
Definition md_row (fieldNames : list string) (r : row) : string :=
  "| " +:+ GoStrings.Join (row_values formatValue r fieldNames) " | "
  +:+ " |" +:+ newline.

(** One INSERT statement. *)
Definition sql_insert (tableName : string) (fieldNames : list string) (r : row) : string :=
  "INSERT INTO " +:+ tableName +:+ " (" +:+ GoStrings.Join fieldNames ", "
  +:+ ") VALUES (" +:+ GoStrings.Join (row_values formatSQLValue r fieldNames) ", "
  +:+ ");" +:+ newline.

(** One column definition of CREATE TABLE; [last] tells whether it is
    the last one. *)
Definition sql_column (firstRow : row) (field : string) (last : bool) : string :=
  "  " +:+ field +:+ " " +:+ inferSQLType (index firstRow field)
  +:+ (if last then "" else ",") +:+ newline.

Fixpoint sql_column_list (firstRow : row) (fieldNames : list string) : string :=
  match fieldNames with
  | [] => ""
  | [field] => sql_column firstRow field true
  | field :: rest => sql_column firstRow field false +:+ sql_column_list firstRow rest
  end.

(** One CSV record as [Writer.Write] lays it out: the fields, each
    quoted when [fieldNeedsQuotes] says so, joined by the comma and
    ended by a line feed. *)
Definition csv_record (record : list string) : string :=
  GoStrings.Join (List.map GoCsv.write_field record) "," +:+ newline.

(** The header and separator rows of the Markdown table. *)
Definition md_header (fieldNames : list string) : string :=
  "| " +:+ GoStrings.Join fieldNames " | " +:+ " |" +:+ newline.

Definition md_separator_row (fieldNames : list string) : string :=
  "|" +:+ cat (List.map (fun _ => "--------|") fieldNames) +:+ newline.

(** A row of cells, each padded by one space on both sides and closed
    by a vertical bar, after the opening bar. *)
Definition padded_cells (cells : list string) : string :=
  "|" +:+ cat (List.map (fun c => " " +:+ c +:+ " |") cells).

(** The table name used by [ToSQL]. *)
Definition effective_table (tableName : string) : string :=
  if String.eqb tableName "" then "mock_data" else tableName.

(** The comment block and the CREATE TABLE statement of [ToSQL]. *)
Definition sql_comment (tableName : string) : string :=
  "-- Generated data" +:+ newline +:+ "-- Table: " +:+ tableName +:+ newline +:+ newline.

Definition sql_create_table (tableName : string) (firstRow : row)
    (fieldNames : list string) : string :=
  "CREATE TABLE IF NOT EXISTS " +:+ tableName +:+ " (" +:+ newline
  +:+ sql_column_list firstRow fieldNames +:+ ");" +:+ newline +:+ newline.

(** The number of occurrences of a byte ([strings.Count]). *)
Fixpoint count_byte (b : ascii) (s : string) : nat :=
  match s with
  | "" => 0
  | String c cs => (if Ascii.eqb c b then 1 else 0) + count_byte b cs
  end.

(** A string of the test data: [float64(i)]. *)
Definition num (i : Z) : value := VFloat64 (GoFloat64.of_int64 i).

(** The dataset of the unit tests: two people. *)
Definition john : row :=
  mk_map {[ "id" := num 1; "name" := VString "John"; "age" := num 30 ]}.
Definition jane : row :=
  mk_map {[ "id" := num 2; "name" := VString "Jane"; "age" := num 25 ]}.

(** A run of [n] dashes. *)
Fixpoint dash_run (n : nat) : string :=
  match n with
  | O => ""
  | S k => "-" +:+ dash_run k
  end.

(** The column definitions of CREATE TABLE as a list: one line per
    field, each naming the field and the type inferred from the cell of
    [firstRow], the lines separated by a comma. *)
Definition sql_column_lines (firstRow : row) (fieldNames : list string) : string :=
  match fieldNames with
  | [] => ""
  | _ =>
      GoStrings.Join
        (List.map (fun field => "  " +:+ field +:+ " "
                                +:+ inferSQLType (index firstRow field)) fieldNames)
        ("," +:+ newline)
      +:+ newline
  end.

(** Data of the unit tests and of the examples below. *)
Definition john_active : row :=
  mk_map {[ "id" := num 1; "name" := VString "John"; "active" := VBool true ]}.
Definition john_short : row := mk_map {[ "id" := num 1; "name" := VString "John" ]}.
Definition jane_short : row := mk_map {[ "id" := num 2; "name" := VString "Jane" ]}.
Definition null_then_number : slice row :=
  mk_slice [mk_map {[ "n" := VNil ]}; mk_map {[ "n" := num 7 ]}].
Definition note (s : string) : row := mk_map {[ "note" := VString s ]}.

(** Two rows hold the same cell under every key. *)
Definition same_cells (r r' : row) : Prop :=
  forall field : string, index r field = index r' field.

(** The row [{}] and the row [{"f": null}]. *)
Definition row_without_f : row := mk_map ∅.
Definition row_with_null_f : row := mk_map {[ "f" := VNil ]}.

(** An integer literal: an optional minus sign and one or more decimal
    digits, nothing else. *)
Fixpoint all_digits (s : string) : bool :=
  match s with
  | "" => true
  | String c cs => GoStrconv.is_digit c && all_digits cs
  end.

Definition is_integer_literal (s : string) : bool :=
  match s with
  | "" => false
  | String c cs =>
      if Ascii.eqb c "-"%char
      then negb (String.eqb cs "") && all_digits cs
      else all_digits s
  end.

(** Every single quote doubled, every other byte kept. *)
Fixpoint double_quotes (s : string) : string :=
  match s with
  | "" => ""
  | String c cs =>
      (if Ascii.eqb c "'"%char then "''" else String c "") +:+ double_quotes cs
  end.

(** The [float64] values [3.14] (the nearest float) and [1.5e22]
    (exactly [7152557373046875 * 2^21]). *)
Definition float_3_14 : spec_float := S754_finite false 7070651414971679 (-51).
Definition float_1_5e22 : spec_float := S754_finite false 7152557373046875 21.

(** The decimal number [q * 10^k] lies between the bounds of the
    interval (a bound itself is allowed when the interval is
    inclusive). *)
Definition within (iv : GoStrconv.interval) (q k : Z) : Prop :=
  let s := (10 ^ Z.max (- k) 0)%Z in
  let w := (10 ^ Z.max k 0)%Z in
  ((GoStrconv.lower iv * s < q * w * GoStrconv.den iv)%Z
   \/ GoStrconv.inclusive iv = true
      /\ (GoStrconv.lower iv * s = q * w * GoStrconv.den iv)%Z)
  /\ ((q * w * GoStrconv.den iv < GoStrconv.upper iv * s)%Z
      \/ GoStrconv.inclusive iv = true
         /\ (q * w * GoStrconv.den iv = GoStrconv.upper iv * s)%Z).

(** The exponent part of a literal: nothing, or [e], a sign and
    digits. *)
Definition exponent_part (text : string) (e : Z) : Prop :=
  text = "" /\ e = 0%Z
  \/ exists (eneg : bool) (ed : string),
       text = "e" +:+ (if eneg then "-" else "+") +:+ ed
       /\ all_digits ed = true /\ ed <> ""
       /\ e = (if eneg then (- GoStrconv.dec_value ed)%Z else GoStrconv.dec_value ed).

(** ** Cells that JSON can carry

    The member of an object read back, as the loop of [decode] does
    it. *)
Definition decode_member (kv : string * GoJson.document) : option (string * value) :=
  match GoJson.unquote kv.1, GoJson.decode kv.2 with
  | Some k, Some v => Some (k, v)
  | _, _ => None
  end.

(** The number of constructors of a cell. *)
Fixpoint value_size (v : value) : nat :=
  match v with
  | VSlice l => S (list_sum (List.map value_size l))
  | VMap m => S (map_fold (fun _ n acc => (n + acc)%nat) 0%nat (value_size <$> m))
  | _ => 1
  end.

(** Neither [NaN] nor an infinity. *)
Definition is_finite (f : spec_float) : bool :=
  match f with
  | S754_zero _ | S754_finite _ _ _ => true
  | _ => false
  end.

(** The cells that JSON can carry: every number is finite, every
    string and every key is valid UTF-8. *)
Fixpoint json_clean (v : value) : bool :=
  match v with
  | VNil | VBool _ => true
  | VString s => GoUtf8.ValidString s
  | VFloat64 f => GoFloat64.valid f && is_finite f
  | VSlice l => forallb json_clean l
  | VMap m =>
      bool_decide (map_Forall (fun (k : string) (b : bool) =>
                                 GoUtf8.ValidString k = true /\ b = true)
                     (json_clean <$> m))
  end.

Definition row_clean (r : row) : bool :=
  match r with
  | nil_map => true
  | mk_map m => json_clean (VMap m)
  end.

Definition rows_clean (data : slice row) : bool := forallb row_clean (elems data).

Definition names_clean (fieldNames : slice string) : bool :=
  forallb GoUtf8.ValidString (elems fieldNames).

(** A row whose cell is not a number. *)
Definition nan_row : row := mk_map {[ "x" := VFloat64 S754_nan ]}.

(** ** Further notions used in the statements *)

(** Every number of the cell is finite. *)
Fixpoint numbers_finite (v : value) : bool :=
  match v with
  | VFloat64 f => is_finite f
  | VSlice l => forallb numbers_finite l
  | VMap m =>
      bool_decide (map_Forall (fun (_ : string) (b : bool) => b = true)
                     (numbers_finite <$> m))
  | _ => true
  end.

Definition row_finite (r : row) : bool :=
  match r with
  | nil_map => true
  | mk_map m => numbers_finite (VMap m)
  end.

Definition rows_finite (data : slice row) : bool := forallb row_finite (elems data).

(** The error of [encoding/json] on a number that is not finite. *)
Definition unsupported (e : error) : Prop :=
  e = UnsupportedValueError "NaN" \/ e = UnsupportedValueError "+Inf"
  \/ e = UnsupportedValueError "-Inf".

(** Two rows hold the same cell under every listed field. *)
Definition same_listed_cells (fieldNames : list string) (r r' : row) : Prop :=
  forall field : string, field ∈ fieldNames -> index r field = index r' field.

(** What follows a field in a record: the comma or the line feed. *)
Definition field_end (s : string) : Prop :=
  exists r, s = String GoCsv.Comma r \/ s = String LF r.

(** ** [strings.Split] *)

Module GoStringsSplit.
Import GoStrings.

(** [explode]: the UTF-8 sequences of [s], one string each (an
    invalid byte is a sequence of its own).  [skip] counts the bytes
    of the sequence that are still to be passed. *)
Fixpoint explode (skip : nat) (s : string) : list string :=
  match s with
  | "" => []
  | String c cs =>
      match skip with
      | S k => explode k cs
      | O =>
          let size := snd (GoUtf8.DecodeRuneInString s) in
          String.substring 0 size s :: explode (size - 1) cs
      end
  end.

(** The loop of [genSplit] for a non-empty [sep]: [cur] holds the
    bytes of the piece being read, and [skip] counts the bytes of a
    separator that are still to be dropped. *)
Fixpoint split_from (skip : nat) (cur s sep : string) : list string :=
  match s with
  | "" => [cur]
  | String c cs =>
      match skip with
      | S k => split_from k cur cs sep
      | O =>
          if HasPrefix s sep
          then cur :: split_from (String.length sep - 1) "" cs sep
          else split_from O (cur +:+ String c "") cs sep
      end
  end.

(** [strings.Split(s, sep)]; the result is never [nil]. *)
Definition Split (s sep : string) : slice string :=
  match sep with
  | "" => mk_slice (explode 0 s)
  | _ => mk_slice (split_from 0 "" s sep)
  end.
End GoStringsSplit.

(** ** Package [sort] *)

Module GoSort.
(** [sort.Strings]: increasing bytewise order. *)
Definition Strings (x : list string) : list string := merge_sort String.le x.
End GoSort.

(** ** The export service: the format registry *)

(** [GetAvailableFormats] returns the list of the supported export
    formats, sorted. *)
Definition GetAvailableFormats : slice string :=
  let formats := ["json"; "csv"; "markdown"; "sql"] in
  let formats := GoSort.Strings formats in
  mk_slice formats.

(** ** Package [models] *)

Module Models.

(** [errors.go]. *)
Definition ErrInvalidScenario : error := errorString "scenario description is required".
Definition ErrInvalidRowCount : error := errorString "row count must be between 1 and 1000".

Record GenerateRequest := { Scenario : string; RowCount : Z }.

(** [Validate] checks if the request is valid. *)
Definition Validate (r : GenerateRequest) : option error :=
  if String.eqb (Scenario r) "" then Some ErrInvalidScenario
  else if (RowCount r <? 1)%Z || (1000 <? RowCount r)%Z then Some ErrInvalidRowCount
  else None.

(** A [time.Time]. *)
Definition Time : Type := Z.

Module GenerateResponse.
Record t := { ID : Z; Status : string; Message : string; CreatedAt : Time }.
End GenerateResponse.

Record ErrorResponse := { Error : string; Message : string }.

End Models.

(** ** Package [fiber]: the part of [*fiber.Ctx] that the export
    handler uses *)

Module Fiber.

Definition StatusOK : Z := 200.
Definition StatusCreated : Z := 201.
Definition StatusBadRequest : Z := 400.
Definition StatusNotFound : Z := 404.
Definition StatusInternalServerError : Z := 500.

(** The values that the handlers hand to [c.JSON]. *)
Inductive payload :=
| OfError (v : Models.ErrorResponse)
| OfGenerate (v : Models.GenerateResponse.t).

(** The body of the response: nothing yet, the value handed to
    [c.JSON], or the bytes handed to [c.Send] ([None] is a [nil]
    slice). *)
Inductive Body :=
| NoBody
| JSONBody (v : payload)
| RawBody (b : option string).

(** The context: the request (route parameters and query string) and
    the response built so far. *)
Record Ctx := {
  params : gmap string string;
  queries : gmap string string;
  status : Z;
  headers : gmap string string;
  body : Body
}.

(** [c.Params(key)]: the empty string when the parameter is absent. *)
Definition Params (c : Ctx) (key : string) : string := default "" (params c !! key).

(** [c.Query(key, defaultValue)]: the default when the key is absent
    or its value is empty. *)
Definition Query (c : Ctx) (key defaultValue : string) : string :=
  let value := default "" (queries c !! key) in
  if String.eqb value "" then defaultValue else value.

Definition Status (c : Ctx) (code : Z) : Ctx :=
  {| params := params c; queries := queries c; status := code;
     headers := headers c; body := body c |}.

Definition Set_ (c : Ctx) (key val : string) : Ctx :=
  {| params := params c; queries := queries c; status := status c;
     headers := <[key := val]> (headers c); body := body c |}.

(** [c.JSON(v)] sets the body and the content type. *)
Definition JSON (c : Ctx) (v : payload) : Ctx :=
  {| params := params c; queries := queries c; status := status c;
     headers := <["Content-Type" := "application/json"]> (headers c);
     body := JSONBody v |}.

Definition Send (c : Ctx) (b : option string) : Ctx :=
  {| params := params c; queries := queries c; status := status c;
     headers := headers c; body := RawBody b |}.

End Fiber.

(** ** [json.Marshal]: the compact text *)

Module GoJsonText.
Import GoJson.

(** The text of a document as [Marshal] writes it, without white
    space. *)
Fixpoint compact (doc : document) : string :=
  match doc with
  | JNull => "null"
  | JBool b => if b then "true" else "false"
  | JNumber lit => lit
  | JString lit => lit
  | JArray l => "[" +:+ GoStrings.Join (List.map compact l) "," +:+ "]"
  | JObject kvs =>
      "{" +:+ GoStrings.Join
                (List.map (fun kv : string * document => kv.1 +:+ ":" +:+ compact kv.2) kvs)
                ","
      +:+ "}"
  end.

(** [json.Marshal(data)] for a [[]map[string]interface{}]. *)
Definition Marshal_rows (data : slice row) : res string :=
  res_map compact (encode_any (AnyRows data)).

End GoJsonText.

(** ** Package [services]: what [GenerateMockData] does with the
    answer of the model *)

Module OpenAI.
Section GenerateMockData.
(** [json.Unmarshal(content, &result)] into the struct of [fields]
    and [data]. *)
Variable Unmarshal : string -> res (slice string * slice row).

(** [GenerateMockData], from the outcome of [CreateChatCompletion]:
    an error, or the contents of the choices. *)
Definition GenerateMockData (completion : res (list string))
    : res (slice row * slice string) :=
  match completion with
  | Err err => Err (Errorf_w "OpenAI API error: " err)
  | Ok [] => Err (Errorf "no response from OpenAI")
  | Ok (content :: _) =>
      match Unmarshal content with
      | Err err =>
          Err (wrapError ("failed to parse OpenAI response as JSON: " +:+ Error err
                          +:+ " (response: " +:+ content +:+ ")") err)
      | Ok (Fields, Data) =>
          if (len Fields =? 0)%nat then Err (Errorf "OpenAI response missing fields")
          else if (len Data =? 0)%nat then Err (Errorf "OpenAI response missing data")
          else Ok (Data, Fields)
      end
  end.
End GenerateMockData.
End OpenAI.

(** ** Package [handlers] *)

Module Handlers.
Import Fiber.

(** What [QueryRow(...).Scan(&dataJSON, &fieldNames)] on the table
    [mock_datasets] gives: [sql.ErrNoRows], another error, or the two
    columns of the row. *)
Inductive scan :=
| ErrNoRows
| ScanError (err : error)
| Scanned (dataJSON : string) (fieldNames : slice string).

(** The database, as the outcome of each statement of the handlers
    on its arguments:
    - [SELECT data, field_names FROM mock_datasets WHERE request_id = $1];
    - [INSERT INTO generation_requests (scenario, row_count, status)
       VALUES ($1, $2, 'pending') RETURNING id];
    - [UPDATE generation_requests SET status = '...' WHERE id = $1];
    - [INSERT INTO mock_datasets (request_id, data, field_names)
       VALUES ($1, $2, $3)];
    - [UPDATE generation_requests SET status = 'completed',
       generated_at = $1 WHERE id = $2]. *)
Record DB := {
  select_dataset : string -> scan;
  insert_request : string -> Z -> res Z;
  update_status : string -> Z -> option error;
  insert_dataset : Z -> string -> slice string -> option error;
  complete_request : Models.Time -> Z -> option error
}.

Record Handler := {
  db : DB;
  openaiService : string -> Z -> res (slice row * slice string)
}.

(** The calls that a handler makes to the database and to the OpenAI
    service, with their arguments. *)
Inductive call :=
| InsertRequest (scenario : string) (rowCount : Z)
| UpdateStatus (status : string) (id : Z)
| Generate (scenario : string) (rowCount : Z)
| InsertDataset (id : Z) (dataJSON : string) (fieldNames : slice string)
| CompleteRequest (generatedAt : Models.Time) (id : Z).

Section GenerateMockData.
(** [c.BodyParser(&req)], and the readings of [time.Now()], in
    order. *)
Variable BodyParser : Ctx -> res Models.GenerateRequest.
Variable Now : nat -> Models.Time.

(** [GenerateMockData]: the calls made, in order, and the response.
    The error of the two status updates that are only logged is
    dropped. *)
Definition GenerateMockData (h : Handler) (c : Ctx) : list call * Ctx :=
  match BodyParser c with
  | Err err =>
      ([], JSON (Status c StatusBadRequest)
             (OfError {| Models.Error := "Invalid request body";
                         Models.Message := Error err |}))
  | Ok req =>
      match Models.Validate req with
      | Some err =>
          ([], JSON (Status c StatusBadRequest)
                 (OfError {| Models.Error := "Validation failed";
                             Models.Message := Error err |}))
      | None =>
          let calls := [InsertRequest (Models.Scenario req) (Models.RowCount req)] in
          match insert_request (db h) (Models.Scenario req) (Models.RowCount req) with
          | Err err =>
              (calls, JSON (Status c StatusInternalServerError)
                        (OfError {| Models.Error := "Database error";
                                    Models.Message := Error err |}))
          | Ok requestID =>
              let calls := (calls ++ [UpdateStatus "processing" requestID])%list in
              let _ := update_status (db h) "processing" requestID in
              let calls :=
                (calls ++ [Generate (Models.Scenario req) (Models.RowCount req)])%list in
              match openaiService h (Models.Scenario req) (Models.RowCount req) with
              | Err err =>
                  let calls := (calls ++ [UpdateStatus "failed" requestID])%list in
                  let _ := update_status (db h) "failed" requestID in
                  (calls, JSON (Status c StatusInternalServerError)
                            (OfError {| Models.Error := "Failed to generate data";
                                        Models.Message := Error err |}))
              | Ok (data, fieldNames) =>
                  match GoJsonText.Marshal_rows data with
                  | Err err =>
                      (calls, JSON (Status c StatusInternalServerError)
                                (OfError {| Models.Error := "Failed to serialize data";
                                            Models.Message := Error err |}))
                  | Ok dataJSON =>
                      let calls := (calls ++ [InsertDataset requestID dataJSON fieldNames])%list in
                      match insert_dataset (db h) requestID dataJSON fieldNames with
                      | Some err =>
                          (calls, JSON (Status c StatusInternalServerError)
                                    (OfError {| Models.Error := "Failed to save dataset";
                                                Models.Message := Error err |}))
                      | None =>
                          let calls := (calls ++ [CompleteRequest (Now 0) requestID])%list in
                          let _ := complete_request (db h) (Now 0) requestID in
                          (calls,
                           JSON (Status c StatusCreated)
                             (OfGenerate
                                {| Models.GenerateResponse.ID := requestID;
                                   Models.GenerateResponse.Status := "completed";
                                   Models.GenerateResponse.Message :=
                                     "Successfully generated "
                                     +:+ GoStrconv.FormatInt (Models.RowCount req)
                                     +:+ " rows of mock data";
                                   Models.GenerateResponse.CreatedAt := Now 1 |}))
                      end
                  end
              end
          end
      end
  end.
End GenerateMockData.

Section ExportMockData.
(** [json.Unmarshal(dataJSON, &data)] into a
    [[]map[string]interface{}]. *)
Variable Unmarshal : string -> res (slice row).

Definition ExportMockData (h : Handler) (c : Ctx) : Ctx :=
  let requestID := Params c "id" in
  let format := Query c "format" "json" in
  let tableName := Query c "table" "mock_data" in
  match select_dataset (db h) requestID with
  | ErrNoRows =>
      JSON (Status c StatusNotFound)
        (OfError {| Models.Error := "Dataset not found";
           Models.Message := "No dataset found for request ID " +:+ requestID |})
  | ScanError err =>
      JSON (Status c StatusInternalServerError)
        (OfError {| Models.Error := "Database error"; Models.Message := Error err |})
  | Scanned dataJSON fieldNames =>
      match Unmarshal dataJSON with
      | Err err =>
          JSON (Status c StatusInternalServerError)
            (OfError {| Models.Error := "Failed to parse data"; Models.Message := Error err |})
      | Ok data =>
          let exported : option (result * string * string) :=
            if String.eqb format "json" then
              Some (ToJSON data fieldNames, "application/json",
                    "mockdata-" +:+ requestID +:+ ".json")
            else if String.eqb format "csv" then
              Some (ToCSV data fieldNames, "text/csv",
                    "mockdata-" +:+ requestID +:+ ".csv")
            else if String.eqb format "markdown" || String.eqb format "md" then
              Some (ToMarkdownTable data fieldNames, "text/markdown",
                    "mockdata-" +:+ requestID +:+ ".md")
            else if String.eqb format "sql" then
              Some (ToSQL data fieldNames tableName, "application/sql",
                    "mockdata-" +:+ requestID +:+ ".sql")
            else None in
          match exported with
          | None =>
              JSON (Status c StatusBadRequest)
                (OfError {| Models.Error := "Invalid format";
                   Models.Message :=
                     "Format '" +:+ format
                     +:+ "' is not supported. Use: json, csv, markdown, or sql" |})
          | Some ((_, Some err), _, _) =>
              JSON (Status c StatusInternalServerError)
                (OfError {| Models.Error := "Export failed"; Models.Message := Error err |})
          | Some ((exportData, None), contentType, filename) =>
              let c := Set_ c "Content-Type" contentType in
              let c := Set_ c "Content-Disposition" ("attachment; filename=" +:+ filename) in
              Send c exportData
          end
      end
  end.
End ExportMockData.
End Handlers.

(** ** Package [middleware]: the CORS origins *)

Module Middleware.
(** The loop of [getAllowOriginsString], [i] being the index and [n]
    [len(origins)]. *)
Fixpoint origins_loop (result : string) (i : nat) (n : Z) (origins : list string) : string :=
  match origins with
  | [] => result
  | origin :: rest =>
      let result := result +:+ origin in
      let result := if (Z.of_nat i <? n - 1)%Z then result +:+ "," else result in
      origins_loop result (S i) n rest
  end.

(** [getAllowOriginsString] converts a slice of origins to a
    comma-separated string. *)
Definition getAllowOriginsString (origins : slice string) : string :=
  origins_loop "" 0 (Z.of_nat (len origins)) (elems origins).
End Middleware.

(** ** Package [config] *)

Module Config.

Module DatabaseConfig.
Record t := {
  Host : string;
  Port : string;
  User : string;
  Password : string;
  DBName : string;
  SSLMode : string
}.
End DatabaseConfig.

Record Config := {
  Port : string;
  Environment : string;
  OpenAIAPIKey : string;
  Database : DatabaseConfig.t;
  CORSOrigins : slice string
}.

(** The environment of the process; [os.Getenv] gives the empty
    string for a variable that is not set. *)
Definition environ : Type := gmap string string.
Definition Getenv (env : environ) (key : string) : string := default "" (env !! key).

(** [getEnv] retrieves an environment variable or returns a default
    value. *)
Definition getEnv (env : environ) (key defaultValue : string) : string :=
  let value := Getenv env key in
  if negb (String.eqb value "") then value else defaultValue.

Definition Validate (c : Config) : option error :=
  if String.eqb (OpenAIAPIKey c) "" then Some (Errorf "OPENAI_API_KEY is required")
  else if String.eqb (DatabaseConfig.Password (Database c)) ""
  then Some (Errorf "DB_PASSWORD is required")
  else None.

(** [Load], on the environment that [godotenv.Load] leaves. *)
Definition Load (env : environ) : option Config * option error :=
  let config :=
    {| Port := getEnv env "PORT" "3000";
       Environment := getEnv env "ENVIRONMENT" "development";
       OpenAIAPIKey := getEnv env "OPENAI_API_KEY" "";
       Database :=
         {| DatabaseConfig.Host := getEnv env "DB_HOST" "localhost";
            DatabaseConfig.Port := getEnv env "DB_PORT" "5432";
            DatabaseConfig.User := getEnv env "DB_USER" "postgres";
            DatabaseConfig.Password := getEnv env "DB_PASSWORD" "";
            DatabaseConfig.DBName := getEnv env "DB_NAME" "mockdata_generator";
            DatabaseConfig.SSLMode := getEnv env "DB_SSL_MODE" "disable" |};
       CORSOrigins :=
         GoStringsSplit.Split (getEnv env "CORS_ORIGINS" "http://localhost:5173") "," |} in
  match Validate config with
  | Some err => (None, Some err)
  | None => (Some config, None)
  end.

(** [GetDatabaseDSN] returns the PostgreSQL connection string. *)
Definition GetDatabaseDSN (c : Config) : string :=
  "host=" +:+ DatabaseConfig.Host (Database c)
  +:+ " port=" +:+ DatabaseConfig.Port (Database c)
  +:+ " user=" +:+ DatabaseConfig.User (Database c)
  +:+ " password=" +:+ DatabaseConfig.Password (Database c)
  +:+ " dbname=" +:+ DatabaseConfig.DBName (Database c)
  +:+ " sslmode=" +:+ DatabaseConfig.SSLMode (Database c).

End Config.

(** ** Requests and handlers of the examples *)

(** An environment with the two secrets. *)
Definition sample_env : Config.environ :=
  {[ "OPENAI_API_KEY" := "sk-test"; "DB_PASSWORD" := "secret";
     "CORS_ORIGINS" := "http://a.example,http://b.example" ]}.

(** What the client receives: the status, the headers and the body. *)
Definition response (c : Fiber.Ctx) : Z * gmap string string * Fiber.Body :=
  (Fiber.status c, Fiber.headers c, Fiber.body c).

(** The request [c] with the query parameter [key] set to [val]. *)
Definition with_query (c : Fiber.Ctx) (key val : string) : Fiber.Ctx :=
  {| Fiber.params := Fiber.params c; Fiber.queries := <[key := val]> (Fiber.queries c);
     Fiber.status := Fiber.status c; Fiber.headers := Fiber.headers c;
     Fiber.body := Fiber.body c |}.

(** The answer of [ExportMockData] to a format that it does not know. *)
Definition invalid_format (c : Fiber.Ctx) (format : string) : Fiber.Ctx :=
  Fiber.JSON (Fiber.Status c Fiber.StatusBadRequest)
    (Fiber.OfError {| Models.Error := "Invalid format";
       Models.Message :=
         "Format '" +:+ format +:+ "' is not supported. Use: json, csv, markdown, or sql" |}).

(** The download that [ExportMockData] answers with. *)
Definition download (c : Fiber.Ctx) (contentType extension : string) (bytes : string)
    : Fiber.Ctx :=
  Fiber.Send
    (Fiber.Set_ (Fiber.Set_ c "Content-Type" contentType) "Content-Disposition"
       ("attachment; filename=mockdata-" +:+ Fiber.Params c "id" +:+ extension))
    (Some bytes).

(** A request for the export of dataset 7, and a handler whose table
    holds that dataset alone. *)
Definition export_request (format : string) : Fiber.Ctx :=
  {| Fiber.params := {[ "id" := "7" ]}; Fiber.queries := {[ "format" := format ]};
     Fiber.status := Fiber.StatusOK; Fiber.headers := ∅; Fiber.body := Fiber.NoBody |}.

Definition dataset_7 : Handlers.DB :=
  {| Handlers.select_dataset := fun id =>
       if String.eqb id "7" then Handlers.Scanned "stored" (mk_slice ["id"; "name"])
       else Handlers.ErrNoRows;
     Handlers.insert_request := fun _ _ => Ok 7%Z;
     Handlers.update_status := fun _ _ => None;
     Handlers.insert_dataset := fun _ _ _ => None;
     Handlers.complete_request := fun _ _ => None |}.

Definition one_dataset : Handlers.Handler :=
  {| Handlers.db := dataset_7;
     Handlers.openaiService := fun _ _ => Ok (mk_slice [john_short; jane_short],
                                              mk_slice ["id"; "name"]) |}.

(** The stored rows of the examples. *)
Definition stored_rows (_ : string) : res (slice row) := Ok (mk_slice [john_short; jane_short]).
Definition stored_nothing (_ : string) : res (slice row) := Ok (mk_slice []).

(** Requests for a generation: a valid one and one without scenario;
    a clock; a handler whose service fails and one whose table of
    datasets refuses the insertion. *)
Definition users_request (_ : Fiber.Ctx) : res Models.GenerateRequest :=
  Ok {| Models.Scenario := "users"; Models.RowCount := 2 |}.
Definition empty_scenario_request (_ : Fiber.Ctx) : res Models.GenerateRequest :=
  Ok {| Models.Scenario := ""; Models.RowCount := 2 |}.
Definition clock (n : nat) : Models.Time := Z.of_nat n.
Definition failing_service : Handlers.Handler :=
  {| Handlers.db := dataset_7;
     Handlers.openaiService := fun _ _ => Err (errorString "no response from OpenAI") |}.
Definition full_table : Handlers.Handler :=
  {| Handlers.db :=
       {| Handlers.select_dataset := fun _ => Handlers.ErrNoRows;
          Handlers.insert_request := fun _ _ => Ok 7%Z;
          Handlers.update_status := fun _ _ => None;
          Handlers.insert_dataset := fun _ _ _ => Some (errorString "disk full");
          Handlers.complete_request := fun _ _ => None |};
     Handlers.openaiService := fun _ _ => Ok (mk_slice [john_short; jane_short],
                                              mk_slice ["id"; "name"]) |}.

(** The answer of a model, as [json.Unmarshal] reads it. *)
Definition two_people (_ : string) : res (slice string * slice row) :=
  Ok (mk_slice ["id"; "name"], mk_slice [john_short; jane_short]).

(* ================================================================== *)
(** * Part II: properties                                               *)
(* ================================================================== *)

(** ** Strings *)

Lemma app_cons (c : ascii) (a b : string) : String c a +:+ b = String c (a +:+ b).
Proof. reflexivity. Qed.

Lemma app_nil_l (s : string) : "" +:+ s = s.
Proof. reflexivity. Qed.

Lemma app_nil_r (s : string) : s +:+ "" = s.
Proof. induction s as [|c s IH]; [reflexivity|]. by rewrite app_cons, IH. Qed.

Lemma app_assoc (a b c : string) : (a +:+ b) +:+ c = a +:+ (b +:+ c).
Proof. induction a as [|x a IH]; [reflexivity|]. by rewrite !app_cons, IH. Qed.

Lemma contains_app (a b : string) (c : ascii) :
  GoStrings.ContainsByte (a +:+ b) c
  = GoStrings.ContainsByte a c || GoStrings.ContainsByte b c.
Proof.
  induction a as [|x a IH]; [reflexivity|].
  rewrite app_cons. cbn. rewrite IH. by rewrite orb_assoc.
Qed.

(** Normal form of concatenations: right-nested, no empty pieces. *)
Ltac norm_str := rewrite ?app_assoc, ?app_nil_r, ?app_nil_l.

Lemma cat_cons (x : string) (l : list string) : cat (x :: l) = x +:+ cat l.
Proof. destruct l; cbn; [by rewrite app_nil_r|reflexivity]. Qed.

Lemma cat_nil : cat [] = "".
Proof. reflexivity. Qed.

(** ** The text exports write through an accumulating buffer *)

Lemma md_separator_buf (buf : string) (fieldNames : list string) :
  md_separator buf fieldNames
  = buf +:+ cat (List.map (fun _ => "--------|") fieldNames).
Proof.
  revert buf. induction fieldNames as [|f fs IH]; intros buf.
  - cbn. by rewrite app_nil_r.
  - cbn [md_separator List.map]. rewrite IH, cat_cons. unfold WriteString.
    by rewrite app_assoc.
Qed.

Lemma md_rows_buf (buf : string) (data : list row) (fieldNames : list string) :
  md_rows buf data fieldNames = buf +:+ cat (List.map (md_row fieldNames) data).
Proof.
  revert buf. induction data as [|r rs IH]; intros buf.
  - cbn. by rewrite app_nil_r.
  - cbn [md_rows List.map]. rewrite IH, cat_cons. unfold WriteString, md_row.
    by rewrite !app_assoc.
Qed.

Lemma sql_inserts_buf (buf tableName : string) (data : list row) (fieldNames : list string) :
  sql_inserts buf tableName data fieldNames
  = buf +:+ cat (List.map (sql_insert tableName fieldNames) data).
Proof.
  revert buf. induction data as [|r rs IH]; intros buf.
  - cbn. by rewrite app_nil_r.
  - cbn [sql_inserts List.map]. rewrite IH, cat_cons. unfold WriteString, sql_insert.
    by rewrite !app_assoc.
Qed.

Lemma sql_columns_buf (buf : string) (i : nat) (firstRow : row) (fieldNames : list string) :
  sql_columns buf i (Z.of_nat (i + List.length fieldNames)) firstRow fieldNames
  = buf +:+ sql_column_list firstRow fieldNames.
Proof.
  revert buf i. induction fieldNames as [|f fs IH]; intros buf i.
  - cbn. by rewrite app_nil_r.
  - cbn [sql_columns]. cbn [List.length].
    replace (i + S (List.length fs))%nat with (S i + List.length fs)%nat by lia.
    rewrite IH. unfold WriteString. destruct fs as [|g fs].
    + cbn [List.length sql_column_list].
      replace (Z.of_nat i <? Z.of_nat (S i + 0) - 1)%Z with false
        by (symmetry; apply Z.ltb_ge; lia).
      unfold sql_column. by norm_str.
    + cbn [List.length].
      replace (Z.of_nat i <? Z.of_nat (S i + S (List.length fs)) - 1)%Z with true
        by (symmetry; apply Z.ltb_lt; lia).
      change (sql_column_list firstRow (f :: g :: fs))
        with (sql_column firstRow f false +:+ sql_column_list firstRow (g :: fs)).
      unfold sql_column. by rewrite !app_assoc.
Qed.

(** ** The CSV writer *)

Lemma validDelim_Comma : GoCsv.validDelim GoCsv.Comma = true.
Proof. reflexivity. Qed.

Lemma write_fields_cons (n : nat) (record : list string) :
  GoCsv.write_fields (S n) record
  = cat (List.map (fun f => "," +:+ GoCsv.write_field f) record).
Proof.
  revert n. induction record as [|f fs IH]; intros n; [reflexivity|].
  cbn [GoCsv.write_fields List.map]. rewrite cat_cons, IH.
  replace (0 <? S n)%nat with true by (symmetry; apply Nat.ltb_lt; lia).
  by norm_str.
Qed.

Lemma Join_cons (x : string) (xs : list string) (sep : string) :
  GoStrings.Join (x :: xs) sep = x +:+ cat (List.map (fun y => sep +:+ y) xs).
Proof.
  revert x. induction xs as [|y ys IH]; intros x.
  - cbn. by rewrite app_nil_r.
  - change (GoStrings.Join (x :: y :: ys) sep)
      with (x +:+ sep +:+ GoStrings.Join (y :: ys) sep).
    rewrite IH. cbn [List.map]. rewrite cat_cons. by norm_str.
Qed.

Lemma write_fields_Join (record : list string) :
  GoCsv.write_fields 0 record
  = GoStrings.Join (List.map GoCsv.write_field record) ",".
Proof.
  destruct record as [|f fs]; [reflexivity|].
  cbn [GoCsv.write_fields List.map]. rewrite write_fields_cons, Join_cons.
  rewrite List.map_map. replace (0 <? 0)%nat with false by reflexivity.
  by norm_str.
Qed.

Lemma Write_ok (wr : GoCsv.Writer) (record : list string) :
  GoCsv.Write wr record = ({| GoCsv.w := GoCsv.w wr +:+ csv_record record |}, None).
Proof.
  unfold GoCsv.Write, csv_record. rewrite validDelim_Comma. cbn [negb].
  by rewrite write_fields_Join.
Qed.

Lemma csv_rows_ok (wr : GoCsv.Writer) (data : list row) (fieldNames : list string) :
  csv_rows wr data fieldNames
  = ({| GoCsv.w :=
          GoCsv.w wr
          +:+ cat (List.map (fun r => csv_record (row_values formatValue r fieldNames)) data) |},
     None).
Proof.
  revert wr. induction data as [|r rs IH]; intros wr.
  - cbn. rewrite app_nil_r. by destruct wr.
  - cbn [csv_rows]. rewrite Write_ok, IH. cbn [GoCsv.w List.map].
    by rewrite cat_cons, app_assoc.
Qed.

Lemma len_nonzero {A} (s : slice A) :
  len s <> 0%nat -> (len s =? 0)%nat = false.
Proof. intros H. by apply Nat.eqb_neq. Qed.

(** The complete output of [ToCSV] on a non-empty dataset. *)
Lemma ToCSV_output (data : slice row) (fieldNames : slice string) :
  len data <> 0%nat ->
  ToCSV data fieldNames
  = (Some (csv_record (elems fieldNames)
           +:+ cat (List.map (fun r => csv_record (row_values formatValue r (elems fieldNames)))
                      (elems data))),
     None).
Proof.
  intros H. unfold ToCSV. rewrite (len_nonzero _ H).
  rewrite Write_ok. rewrite csv_rows_ok. reflexivity.
Qed.

(** A field is written as it is unless it needs quotes. *)
Lemma csv_record_plain (record : list string) :
  Forall (fun f => GoCsv.fieldNeedsQuotes f = false) record ->
  csv_record record = GoStrings.Join record "," +:+ newline.
Proof.
  intros H. unfold csv_record. f_equal. f_equal.
  induction H as [|f fs Hf _ IH]; [reflexivity|].
  cbn [List.map]. rewrite IH. unfold GoCsv.write_field. by rewrite Hf.
Qed.

Lemma count_byte_app (b : ascii) (s t : string) :
  count_byte b (s +:+ t) = (count_byte b s + count_byte b t)%nat.
Proof.
  induction s as [|c s IH]; [reflexivity|].
  rewrite app_cons. cbn [count_byte]. rewrite IH. lia.
Qed.

Lemma count_byte_Join (b : ascii) (l : list string) (sep : string) :
  count_byte b sep = 0%nat ->
  Forall (fun s => count_byte b s = 0%nat) l ->
  count_byte b (GoStrings.Join l sep) = 0%nat.
Proof.
  intros Hsep H. induction H as [|x xs Hx Hxs IH]; [reflexivity|].
  destruct xs as [|y ys]; [exact Hx|].
  change (GoStrings.Join (x :: y :: ys) sep)
    with (x +:+ sep +:+ GoStrings.Join (y :: ys) sep).
  rewrite !count_byte_app, Hx, Hsep, IH. reflexivity.
Qed.

Lemma has_special_no_LF (s : string) :
  GoCsv.has_special s = false -> count_byte LF s = 0%nat.
Proof.
  induction s as [|c s IH]; [reflexivity|].
  cbn [GoCsv.has_special count_byte]. intros H.
  apply orb_false_elim in H as [H Hs].
  apply orb_false_elim in H as [H _].
  apply orb_false_elim in H as [H _].
  apply orb_false_elim in H as [H _].
  rewrite H, IH by exact Hs. reflexivity.
Qed.

Lemma plain_field_no_LF (f : string) :
  GoCsv.fieldNeedsQuotes f = false -> count_byte LF f = 0%nat.
Proof.
  unfold GoCsv.fieldNeedsQuotes. intros H. apply has_special_no_LF. revert H.
  destruct (String.eqb_spec f "") as [E|_]; [intros _; by rewrite E|].
  destruct (String.eqb f "\."); [discriminate|].
  by destruct (GoCsv.has_special f).
Qed.

(** C3.  On a non-empty dataset [ToCSV] succeeds and writes the record
    of the field names followed by one record per row, in the order of
    the rows, each record holding the formatted cell of every field in
    the order of the fields; the fields of a record are joined by the
    comma and the record is one line (the fields that need no quoting
    are written as they are).  The two-person dataset gives the lines
    [id,name,age], [1,John,30] and [2,Jane,25]. *)
Theorem ToCSV_header_then_rows :
  (forall (data : slice row) (fieldNames : slice string),
      len data <> 0%nat ->
      ToCSV data fieldNames
      = (Some (csv_record (elems fieldNames)
               +:+ cat (List.map
                          (fun r => csv_record (row_values formatValue r (elems fieldNames)))
                          (elems data))),
         None))
  /\ (forall record : list string,
         Forall (fun f => GoCsv.fieldNeedsQuotes f = false) record ->
         csv_record record = GoStrings.Join record "," +:+ newline
         /\ count_byte LF (csv_record record) = 1%nat)
  /\ ToCSV (mk_slice [john; jane]) (mk_slice ["id"; "name"; "age"])
     = (Some ("id,name,age" +:+ newline +:+ "1,John,30" +:+ newline
              +:+ "2,Jane,25" +:+ newline), None).
Proof.
  split; [exact ToCSV_output|]. split; [|by vm_compute].
  intros record H. split; [by apply csv_record_plain|].
  rewrite (csv_record_plain _ H), count_byte_app.
  rewrite count_byte_Join; [reflexivity|reflexivity|].
  eapply Forall_impl; [exact H|]. intros f. apply plain_field_no_LF.
Qed.

Lemma ToCSV_header_then_rows_witness :
  ToCSV (mk_slice [nil_map]) (mk_slice ["a"; "b"])
  = (Some (csv_record ["a"; "b"] +:+ cat [csv_record [""; ""]]), None).
Proof.
  apply (proj1 ToCSV_header_then_rows (mk_slice [nil_map]) (mk_slice ["a"; "b"])).
  cbn. lia.
Defined.

(** ** The Markdown table *)

Lemma ToMarkdownTable_output (data : slice row) (fieldNames : slice string) :
  len data <> 0%nat ->
  ToMarkdownTable data fieldNames
  = (Some (md_header (elems fieldNames) +:+ md_separator_row (elems fieldNames)
           +:+ cat (List.map (md_row (elems fieldNames)) (elems data))),
     None).
Proof.
  intros H. unfold ToMarkdownTable. rewrite (len_nonzero _ H).
  rewrite md_rows_buf, md_separator_buf.
  unfold WriteString, md_header, md_separator_row. by norm_str.
Qed.

Lemma padded_tail (xs : list string) :
  cat (List.map (fun y => " | " +:+ y) xs) +:+ " |"
  = " |" +:+ cat (List.map (fun c => " " +:+ c +:+ " |") xs).
Proof.
  induction xs as [|y ys IH]; [reflexivity|].
  cbn [List.map]. rewrite !cat_cons. norm_str. rewrite IH.
  change (" | " +:+ ?s) with (" |" +:+ " " +:+ s). by norm_str.
Qed.

Lemma padded_cells_Join (cells : list string) :
  cells <> [] ->
  "| " +:+ GoStrings.Join cells " | " +:+ " |" = padded_cells cells.
Proof.
  destruct cells as [|x xs]; [done|]. intros _.
  unfold padded_cells. cbn [List.map]. rewrite cat_cons, Join_cons.
  norm_str. rewrite padded_tail.
  change ("| " +:+ ?s) with ("|" +:+ " " +:+ s). by norm_str.
Qed.

(** C8.  On a non-empty dataset [ToMarkdownTable] succeeds and writes
    a header row, a separator row and one data row per row of the
    dataset, in order.  The header row lists the fields in order and a
    data row the formatted cells ([formatValue]) in the same order;
    both have the same shape: every cell is padded by one space on each
    side, and the cells are separated and the line is bounded by
    vertical bars.  The separator row has one segment per field, a run
    of eight dashes closed by a bar, after an opening bar. *)
Theorem ToMarkdownTable_three_sections :
  (forall (data : slice row) (fieldNames : slice string),
      len data <> 0%nat ->
      ToMarkdownTable data fieldNames
      = (Some (md_header (elems fieldNames) +:+ md_separator_row (elems fieldNames)
               +:+ cat (List.map (md_row (elems fieldNames)) (elems data))),
         None))
  /\ (forall fieldNames : list string,
         fieldNames <> [] ->
         md_header fieldNames = padded_cells fieldNames +:+ newline)
  /\ (forall (fieldNames : list string) (r : row),
         fieldNames <> [] ->
         md_row fieldNames r
         = padded_cells (List.map (fun field => formatValue (index r field)) fieldNames)
           +:+ newline)
  /\ (forall fieldNames : list string,
         md_separator_row fieldNames
         = "|" +:+ cat (List.map (fun _ => dash_run 8 +:+ "|") fieldNames) +:+ newline)
  /\ ToMarkdownTable (mk_slice [john_short; jane_short]) (mk_slice ["id"; "name"])
     = (Some ("| id | name |" +:+ newline +:+ "|--------|--------|" +:+ newline
              +:+ "| 1 | John |" +:+ newline +:+ "| 2 | Jane |" +:+ newline), None).
Proof.
  split; [exact ToMarkdownTable_output|].
  split.
  { intros fs H. unfold md_header. by rewrite <- (padded_cells_Join fs H), !app_assoc. }
  split.
  { intros fs r H. unfold md_row, row_values.
    rewrite <- padded_cells_Join by (by destruct fs).
    by rewrite !app_assoc. }
  split; [reflexivity|by vm_compute].
Qed.

Lemma ToMarkdownTable_three_sections_witness :
  ToMarkdownTable (mk_slice [nil_map]) (mk_slice ["a"])
  = (Some (md_header ["a"] +:+ md_separator_row ["a"] +:+ cat [md_row ["a"] nil_map]), None)
  /\ md_header ["a"] = padded_cells ["a"] +:+ newline
  /\ md_row ["a"] nil_map = padded_cells [""] +:+ newline.
Proof.
  split; [|split].
  - apply (proj1 ToMarkdownTable_three_sections (mk_slice [nil_map]) (mk_slice ["a"])).
    cbn. lia.
  - by apply (proj1 (proj2 ToMarkdownTable_three_sections) ["a"]).
  - by apply (proj1 (proj2 (proj2 ToMarkdownTable_three_sections)) ["a"] nil_map).
Defined.

(** C10.  [ToMarkdownTable] writes the formatted cell as it is: a
    string cell is copied verbatim between the bars.  A cell that
    contains a vertical bar therefore yields a data line with more
    cells than fields (three bars for one field), and a cell that
    contains a line feed yields a data row that spans two lines.
    [ToCSV] quotes the cell with the line feed, and a cell with its own
    delimiter. *)
Theorem ToMarkdownTable_no_escaping :
  (forall (field s : string),
      md_row [field] (mk_map {[ field := VString s ]}) = "| " +:+ s +:+ " |" +:+ newline)
  /\ ToMarkdownTable (mk_slice [note "a | b"]) (mk_slice ["note"])
     = (Some ("| note |" +:+ newline +:+ "|--------|" +:+ newline
              +:+ "| a | b |" +:+ newline), None)
  /\ count_byte "|" (md_header ["note"]) = 2%nat
  /\ count_byte "|" (md_row ["note"] (note "a | b")) = 3%nat
  /\ ToMarkdownTable (mk_slice [note ("a" +:+ newline +:+ "b")]) (mk_slice ["note"])
     = (Some ("| note |" +:+ newline +:+ "|--------|" +:+ newline
              +:+ "| a" +:+ newline +:+ "b |" +:+ newline), None)
  /\ count_byte LF (md_row ["note"] (note ("a" +:+ newline +:+ "b"))) = 2%nat
  /\ ToCSV (mk_slice [note ("a" +:+ newline +:+ "b")]) (mk_slice ["note"])
     = (Some ("note" +:+ newline
              +:+ String GoCsv.quote ("a" +:+ newline +:+ "b") +:+ String GoCsv.quote newline),
        None)
  /\ ToCSV (mk_slice [note "a,b"]) (mk_slice ["note"])
     = (Some ("note" +:+ newline
              +:+ String GoCsv.quote "a,b" +:+ String GoCsv.quote newline),
        None).
Proof.
  split.
  { intros field s. unfold md_row, row_values. cbn [List.map index GoStrings.Join].
    by rewrite lookup_singleton_eq. }
  repeat split; by vm_compute.
Qed.

(** ** The SQL statements *)

Lemma sql_column_list_lines (firstRow : row) (fieldNames : list string) :
  sql_column_list firstRow fieldNames = sql_column_lines firstRow fieldNames.
Proof.
  destruct fieldNames as [|f fs]; [reflexivity|].
  unfold sql_column_lines. revert f. induction fs as [|g gs IH]; intros f.
  - cbn. unfold sql_column. by norm_str.
  - change (sql_column_list firstRow (f :: g :: gs))
      with (sql_column firstRow f false +:+ sql_column_list firstRow (g :: gs)).
    rewrite IH. cbn [List.map].
    change (GoStrings.Join (?a :: ?b :: ?l) ?sep)
      with (a +:+ sep +:+ GoStrings.Join (b :: l) sep).
    unfold sql_column. by norm_str.
Qed.

Lemma ToSQL_output (data : slice row) (fieldNames : slice string) (tableName : string) :
  len data <> 0%nat ->
  ToSQL data fieldNames tableName
  = (Some (sql_comment (effective_table tableName)
           +:+ sql_create_table (effective_table tableName)
                 (List.hd nil_map (elems data)) (elems fieldNames)
           +:+ cat (List.map (sql_insert (effective_table tableName) (elems fieldNames))
                      (elems data))),
     None).
Proof.
  intros H. unfold ToSQL. rewrite (len_nonzero _ H).
  fold (effective_table tableName).
  rewrite sql_inserts_buf.
  rewrite (sql_columns_buf _ 0 _ (elems fieldNames)).
  unfold WriteString, sql_comment, sql_create_table. by norm_str.
Qed.

(** C5.  On a non-empty dataset the output of [ToSQL] is the comment
    block, then the CREATE TABLE IF NOT EXISTS statement, then the
    INSERT statements.  The CREATE TABLE statement lists the fields in
    order, one per line, separated by commas, each with the type
    inferred from the cell of the first row alone: [nil] gives TEXT, a
    [float64] NUMERIC, a [bool] BOOLEAN, a [string] and any other value
    TEXT.  A column that is [nil] in the first row and a number in the
    second is declared TEXT. *)
Theorem ToSQL_create_table_from_first_row :
  (forall (data : slice row) (fieldNames : slice string) (tableName : string)
          (firstRow : row) (rest : list row),
      elems data = firstRow :: rest ->
      ToSQL data fieldNames tableName
      = (Some (sql_comment (effective_table tableName)
               +:+ ("CREATE TABLE IF NOT EXISTS " +:+ effective_table tableName
                    +:+ " (" +:+ newline
                    +:+ sql_column_lines firstRow (elems fieldNames)
                    +:+ ");" +:+ newline +:+ newline)
               +:+ cat (List.map (sql_insert (effective_table tableName) (elems fieldNames))
                          (elems data))),
         None))
  /\ (inferSQLType VNil = "TEXT"
      /\ (forall f, inferSQLType (VFloat64 f) = "NUMERIC")
      /\ (forall b, inferSQLType (VBool b) = "BOOLEAN")
      /\ (forall s, inferSQLType (VString s) = "TEXT")
      /\ (forall l, inferSQLType (VSlice l) = "TEXT")
      /\ (forall m, inferSQLType (VMap m) = "TEXT"))
  /\ ToSQL null_then_number (mk_slice ["n"]) "t"
     = (Some ("-- Generated data" +:+ newline +:+ "-- Table: t" +:+ newline +:+ newline
              +:+ "CREATE TABLE IF NOT EXISTS t (" +:+ newline
              +:+ "  n TEXT" +:+ newline
              +:+ ");" +:+ newline +:+ newline
              +:+ "INSERT INTO t (n) VALUES (NULL);" +:+ newline
              +:+ "INSERT INTO t (n) VALUES (7);" +:+ newline), None).
Proof.
  split.
  { intros data fs t firstRow rest H.
    rewrite ToSQL_output by (unfold len; rewrite H; done).
    rewrite H. cbn [List.hd]. unfold sql_create_table.
    by rewrite sql_column_list_lines. }
  split; [by repeat split|by vm_compute].
Qed.

Lemma ToSQL_create_table_from_first_row_witness :
  ToSQL (mk_slice [nil_map]) (mk_slice ["a"]) "t"
  = (Some (sql_comment "t"
           +:+ ("CREATE TABLE IF NOT EXISTS t (" +:+ newline
                +:+ sql_column_lines nil_map ["a"] +:+ ");" +:+ newline +:+ newline)
           +:+ cat [sql_insert "t" ["a"] nil_map]), None).
Proof.
  exact (proj1 ToSQL_create_table_from_first_row
           (mk_slice [nil_map]) (mk_slice ["a"]) "t" nil_map [] eq_refl).
Defined.

(** C7.  On a non-empty dataset [ToSQL] writes, after the comment
    block and the CREATE TABLE statement, exactly one statement
    [INSERT INTO <table> (<fields>) VALUES (<values>);] per row, in the
    order of the rows, each ended by a line feed (and on one line when
    no name and no value contains a line feed); the fields are joined by
    a comma and a space, and so are the cells formatted by
    [formatSQLValue].  The table is [mock_data] when [tableName] is
    empty and [tableName] otherwise. *)
Theorem ToSQL_one_insert_per_row :
  (forall (data : slice row) (fieldNames : slice string) (tableName : string),
      len data <> 0%nat ->
      ToSQL data fieldNames tableName
      = (Some (sql_comment (effective_table tableName)
               +:+ sql_create_table (effective_table tableName)
                     (List.hd nil_map (elems data)) (elems fieldNames)
               +:+ cat (List.map
                          (fun r =>
                             "INSERT INTO " +:+ effective_table tableName +:+ " ("
                             +:+ GoStrings.Join (elems fieldNames) ", " +:+ ") VALUES ("
                             +:+ GoStrings.Join
                                   (List.map (fun field => formatSQLValue (index r field))
                                      (elems fieldNames)) ", "
                             +:+ ");" +:+ newline)
                          (elems data))),
         None))
  /\ (forall (tableName : string) (fieldNames : list string) (r : row),
         count_byte LF tableName = 0%nat ->
         Forall (fun field => count_byte LF field = 0%nat) fieldNames ->
         Forall (fun field => count_byte LF (formatSQLValue (index r field)) = 0%nat)
           fieldNames ->
         count_byte LF (sql_insert tableName fieldNames r) = 1%nat)
  /\ effective_table "" = "mock_data"
  /\ (forall tableName, tableName <> "" -> effective_table tableName = tableName)
  /\ ToSQL (mk_slice [john_active]) (mk_slice ["id"; "name"; "active"]) "users"
     = (Some ("-- Generated data" +:+ newline +:+ "-- Table: users" +:+ newline +:+ newline
              +:+ "CREATE TABLE IF NOT EXISTS users (" +:+ newline
              +:+ "  id NUMERIC," +:+ newline
              +:+ "  name TEXT," +:+ newline
              +:+ "  active BOOLEAN" +:+ newline
              +:+ ");" +:+ newline +:+ newline
              +:+ "INSERT INTO users (id, name, active) VALUES (1, 'John', TRUE);"
              +:+ newline), None).
Proof.
  split; [exact ToSQL_output|]. split.
  { intros t fs r Ht Hfs Hvs. unfold sql_insert.
    rewrite !count_byte_app, Ht.
    rewrite (count_byte_Join LF fs ", " eq_refl Hfs).
    rewrite (count_byte_Join LF (row_values formatSQLValue r fs) ", " eq_refl).
    - reflexivity.
    - unfold row_values. by apply Forall_map. }
  split; [reflexivity|]. split; [|by vm_compute].
  intros t H. unfold effective_table. by destruct (String.eqb_spec t "").
Qed.

Lemma ToSQL_one_insert_per_row_witness :
  ToSQL (mk_slice [nil_map]) (mk_slice ["a"]) ""
  = (Some (sql_comment "mock_data" +:+ sql_create_table "mock_data" nil_map ["a"]
           +:+ cat ["INSERT INTO mock_data (a) VALUES (NULL);" +:+ newline]), None)
  /\ count_byte LF (sql_insert "t" ["a"] nil_map) = 1%nat
  /\ effective_table "t" = "t".
Proof.
  split; [|split].
  - apply (proj1 ToSQL_one_insert_per_row (mk_slice [nil_map]) (mk_slice ["a"]) "").
    cbn. lia.
  - apply (proj1 (proj2 ToSQL_one_insert_per_row) "t" ["a"] nil_map).
    + reflexivity.
    + repeat constructor.
    + repeat constructor.
  - by apply (proj1 (proj2 (proj2 (proj2 ToSQL_one_insert_per_row))) "t").
Defined.

(** ** The empty dataset *)

Lemma sorted_three {A} (a b c : A) :
  sorted_entries ({[ "fields" := a; "data" := b; "count" := c ]} : gmap string A)
  = [("count", c); ("data", b); ("fields", a)].
Proof. by vm_compute. Qed.

Lemma Marshal_response (a b c : GoJson.any) :
  GoJson.Marshal {[ "fields" := a; "data" := b; "count" := c ]}
  = res_map GoJson.members
      (sequence_entries [("count", GoJson.encode_any c); ("data", GoJson.encode_any b);
                         ("fields", GoJson.encode_any a)]).
Proof.
  unfold GoJson.Marshal. rewrite !fmap_insert, map_fmap_singleton.
  by rewrite sorted_three.
Qed.

(** C2.  With an empty dataset (a [nil] slice or a slice of length 0)
    [ToCSV], [ToMarkdownTable] and [ToSQL] return no bytes ([nil]) and
    the error [no data to export], whatever the field list; [ToJSON]
    never returns that error. *)
Theorem empty_dataset_fails :
  (forall (data : slice row) (fieldNames : slice string) (tableName : string),
      len data = 0%nat ->
      ToCSV data fieldNames = (None, Some EmptyDataset)
      /\ ToMarkdownTable data fieldNames = (None, Some EmptyDataset)
      /\ ToSQL data fieldNames tableName = (None, Some EmptyDataset))
  /\ (forall (data : slice row) (fieldNames : slice string),
         snd (ToJSON data fieldNames) <> Some EmptyDataset).
Proof.
  split.
  - intros data fs t H. unfold ToCSV, ToMarkdownTable, ToSQL. by rewrite H.
  - intros data fs. unfold ToJSON.
    destruct (GoJson.MarshalIndent _); cbn; [discriminate|].
    unfold Errorf_w, EmptyDataset, Errorf. discriminate.
Qed.

Lemma empty_dataset_fails_witness :
  ToCSV nil_slice (mk_slice ["id"; "name"]) = (None, Some EmptyDataset)
  /\ ToMarkdownTable nil_slice (mk_slice ["id"; "name"]) = (None, Some EmptyDataset)
  /\ ToSQL nil_slice (mk_slice ["id"; "name"]) "users" = (None, Some EmptyDataset).
Proof.
  exact (proj1 empty_dataset_fails nil_slice (mk_slice ["id"; "name"]) "users" eq_refl).
Defined.

(** ** A missing key and a [nil] cell *)

Lemma same_cells_insert_nil (m : gmap string value) (f : string) :
  m !! f = None -> same_cells (mk_map m) (mk_map (<[f := VNil]> m)).
Proof.
  intros H g. cbn [index]. destruct (decide (f = g)) as [->|Hne].
  - by rewrite lookup_insert_eq, H.
  - by rewrite lookup_insert_ne.
Qed.

Lemma same_cells_nil_map (m : gmap string value) :
  m = ∅ -> same_cells nil_map (mk_map m).
Proof. intros -> g. cbn [index]. by rewrite lookup_empty. Qed.

Lemma row_values_same (format : value -> string) (r r' : row) (fs : list string) :
  same_cells r r' -> row_values format r fs = row_values format r' fs.
Proof. intros H. unfold row_values. apply List.map_ext. intros g. by rewrite H. Qed.

Lemma sql_column_list_same (r r' : row) (fs : list string) :
  same_cells r r' -> sql_column_list r fs = sql_column_list r' fs.
Proof.
  intros H. rewrite !sql_column_list_lines. unfold sql_column_lines.
  destruct fs as [|f fs]; [reflexivity|]. do 2 f_equal.
  apply List.map_ext. intros g. by rewrite H.
Qed.

Lemma text_exports_same (data data' : list row) (fieldNames : slice string)
    (tableName : string) :
  Forall2 same_cells data data' ->
  ToCSV (mk_slice data) fieldNames = ToCSV (mk_slice data') fieldNames
  /\ ToMarkdownTable (mk_slice data) fieldNames = ToMarkdownTable (mk_slice data') fieldNames
  /\ ToSQL (mk_slice data) fieldNames tableName = ToSQL (mk_slice data') fieldNames tableName.
Proof.
  intros H. destruct H as [|r r' rs rs' Hr Hrs]; [done|].
  rewrite !ToCSV_output, !ToMarkdownTable_output, !ToSQL_output by done.
  cbn [elems List.hd].
  assert (Hcsv : List.map (fun r => csv_record (row_values formatValue r (elems fieldNames)))
                   (r :: rs)
                 = List.map (fun r => csv_record (row_values formatValue r (elems fieldNames)))
                     (r' :: rs')).
  { assert (H2 : Forall2 same_cells (r :: rs) (r' :: rs')) by by constructor.
    clear Hr Hrs. induction H2 as [|a b l l' Hab _ IH]; [reflexivity|].
    cbn [List.map]. by rewrite IH, (row_values_same _ a b). }
  assert (Hmd : List.map (md_row (elems fieldNames)) (r :: rs)
                = List.map (md_row (elems fieldNames)) (r' :: rs')).
  { assert (H2 : Forall2 same_cells (r :: rs) (r' :: rs')) by by constructor.
    clear Hr Hrs Hcsv. induction H2 as [|a b l l' Hab _ IH]; [reflexivity|].
    cbn [List.map]. unfold md_row at 1 3. by rewrite IH, (row_values_same _ a b). }
  assert (Hsql : List.map (sql_insert (effective_table tableName) (elems fieldNames)) (r :: rs)
                 = List.map (sql_insert (effective_table tableName) (elems fieldNames))
                     (r' :: rs')).
  { assert (H2 : Forall2 same_cells (r :: rs) (r' :: rs')) by by constructor.
    clear Hr Hrs Hcsv Hmd. induction H2 as [|a b l l' Hab _ IH]; [reflexivity|].
    cbn [List.map]. unfold sql_insert at 1 3. by rewrite IH, (row_values_same _ a b). }
  rewrite Hcsv, Hmd, Hsql. unfold sql_create_table.
  by rewrite (sql_column_list_same r r').
Qed.

(** C9 as stated fails for the JSON export: the row [{}] and the row
    [{"f": null}] are written differently by [ToJSON]. *)
Lemma ToJSON_missing_key_differs :
  index row_without_f "f" = VNil
  /\ index row_with_null_f "f" = VNil
  /\ ToJSON (mk_slice [row_without_f]) (mk_slice ["f"])
     = (Some ("{" +:+ newline
              +:+ "  " +:+ GoJson.appendString "count" +:+ ": 1," +:+ newline
              +:+ "  " +:+ GoJson.appendString "data" +:+ ": [" +:+ newline
              +:+ "    {}" +:+ newline
              +:+ "  ]," +:+ newline
              +:+ "  " +:+ GoJson.appendString "fields" +:+ ": [" +:+ newline
              +:+ "    " +:+ GoJson.appendString "f" +:+ newline
              +:+ "  ]" +:+ newline +:+ "}"), None)
  /\ ToJSON (mk_slice [row_with_null_f]) (mk_slice ["f"])
     = (Some ("{" +:+ newline
              +:+ "  " +:+ GoJson.appendString "count" +:+ ": 1," +:+ newline
              +:+ "  " +:+ GoJson.appendString "data" +:+ ": [" +:+ newline
              +:+ "    {" +:+ newline
              +:+ "      " +:+ GoJson.appendString "f" +:+ ": null" +:+ newline
              +:+ "    }" +:+ newline
              +:+ "  ]," +:+ newline
              +:+ "  " +:+ GoJson.appendString "fields" +:+ ": [" +:+ newline
              +:+ "    " +:+ GoJson.appendString "f" +:+ newline
              +:+ "  ]" +:+ newline +:+ "}"), None)
  /\ ToJSON (mk_slice [row_without_f]) (mk_slice ["f"])
     <> ToJSON (mk_slice [row_with_null_f]) (mk_slice ["f"]).
Proof. repeat split; [by vm_compute..|]. by vm_compute. Qed.

(** C9, amended.  In [ToCSV], [ToMarkdownTable] and [ToSQL] a row
    that lacks the key [f] gives the same output as the same row with
    [f] mapped to [nil], wherever the row stands in the dataset and
    whatever the field list and the table name. *)
Theorem missing_key_as_nil_in_text_exports
    (before after : list row) (m : gmap string value) (f : string)
    (fieldNames : slice string) (tableName : string) :
  m !! f = None ->
  let lacking := mk_slice (before ++ mk_map m :: after) in
  let with_nil := mk_slice (before ++ mk_map (<[f := VNil]> m) :: after) in
  ToCSV lacking fieldNames = ToCSV with_nil fieldNames
  /\ ToMarkdownTable lacking fieldNames = ToMarkdownTable with_nil fieldNames
  /\ ToSQL lacking fieldNames tableName = ToSQL with_nil fieldNames tableName.
Proof.
  intros H lacking with_nil. apply text_exports_same.
  apply Forall2_app.
  - apply Forall_Forall2_diag, Forall_forall. by intros r _ g.
  - constructor; [by apply same_cells_insert_nil|].
    apply Forall_Forall2_diag, Forall_forall. by intros r _ g.
Qed.

Lemma missing_key_as_nil_in_text_exports_witness :
  ToCSV (mk_slice [john; mk_map ∅]) (mk_slice ["f"])
  = ToCSV (mk_slice [john; mk_map {[ "f" := VNil ]}]) (mk_slice ["f"])
  /\ ToMarkdownTable (mk_slice [john; mk_map ∅]) (mk_slice ["f"])
     = ToMarkdownTable (mk_slice [john; mk_map {[ "f" := VNil ]}]) (mk_slice ["f"])
  /\ ToSQL (mk_slice [john; mk_map ∅]) (mk_slice ["f"]) "t"
     = ToSQL (mk_slice [john; mk_map {[ "f" := VNil ]}]) (mk_slice ["f"]) "t".
Proof.
  exact (missing_key_as_nil_in_text_exports [john] [] ∅ "f" (mk_slice ["f"]) "t"
           (lookup_empty "f")).
Defined.

Section Float64.
#[local] Open Scope Z_scope.
Import GoFloat64.

(** ** [float64]: whole numbers *)

Lemma iter_pos_Pos_iter {A} (f : A -> A) (n : positive) (x : A) :
  SpecFloat.iter_pos f n x = Pos.iter f x n.
Proof.
  revert x. induction n as [n IH|n IH|]; intros x; cbn.
  - rewrite !IH. by rewrite <- !Pos.iter_swap.
  - by rewrite !IH.
  - reflexivity.
Qed.

Lemma Zpos_iter_xO (p n : positive) :
  Zpos (Pos.iter xO p n) = Zpos p * 2 ^ Zpos n.
Proof.
  induction n as [|n IH] using Pos.peano_ind.
  - cbn. lia.
  - rewrite Pos.iter_succ, Pos2Z.inj_succ, Z.pow_succ_r by lia.
    rewrite Pos2Z.inj_xO, IH. lia.
Qed.

Lemma digits2_iter_xO (p n : positive) :
  Zpos (digits2_pos (Pos.iter xO p n)) = Zpos (digits2_pos p) + Zpos n.
Proof.
  induction n as [|n IH] using Pos.peano_ind.
  - cbn. lia.
  - rewrite Pos.iter_succ. cbn [digits2_pos]. rewrite Pos2Z.inj_succ, IH. lia.
Qed.

Lemma shr_exact (p n : positive) :
  SpecFloat.iter_pos shr_1 n {| shr_m := Zpos (Pos.iter xO p n); shr_r := false; shr_s := false |}
  = {| shr_m := Zpos p; shr_r := false; shr_s := false |}.
Proof.
  rewrite iter_pos_Pos_iter.
  induction n as [|n IH] using Pos.peano_ind.
  - reflexivity.
  - rewrite Pos.iter_succ_r, Pos.iter_succ. cbn [shr_1 orb].
    exact IH.
Qed.

Lemma shr_fexp_canonical (m : positive) (e : Z) :
  canonical_mantissa 53 1024 m e = true ->
  shr_fexp 53 1024 (Zpos m) e loc_Exact
  = ({| shr_m := Zpos m; shr_r := false; shr_s := false |}, e).
Proof.
  unfold canonical_mantissa, shr_fexp. intros H. apply Z.eqb_eq in H.
  cbn [Zdigits2]. rewrite H, Z.sub_diag. reflexivity.
Qed.

Lemma binary_round_aux_canonical (s : bool) (m : positive) (e : Z) :
  bounded 53 1024 m e = true ->
  binary_round_aux 53 1024 s (Zpos m) e loc_Exact = S754_finite s m e.
Proof.
  unfold bounded. intros H. apply andb_prop in H as [Hc He].
  unfold binary_round_aux. rewrite (shr_fexp_canonical _ _ Hc).
  cbn [shr_m loc_of_shr_record round_nearest_even shr_r shr_s].
  rewrite (shr_fexp_canonical _ _ Hc). cbn [shr_m].
  change (1024 - 53) with 971 in *. by rewrite He.
Qed.

Lemma binary_round_canonical (s : bool) (m : positive) (e : Z) (p : positive) :
  bounded 53 1024 m e = true ->
  (e = 0 /\ p = m \/ exists n, e = Zpos n /\ p = Pos.iter xO m n
   \/ exists k, e = Zneg k /\ m = Pos.iter xO p k) ->
  binary_round 53 1024 s p 0 = S754_finite s m e.
Proof.
  intros Hb H. pose proof Hb as Hb'. unfold bounded in Hb'.
  apply andb_prop in Hb' as [Hc He]. unfold canonical_mantissa in Hc.
  apply Z.eqb_eq in Hc.
  unfold binary_round. rewrite Z.add_0_r. destruct H as [[-> ->]|[n H]].
  - pose proof Hc as Hc0. rewrite Z.add_0_r in Hc0. rewrite Hc0.
    change (shl_align m 0 0) with (m, 0).
    by apply binary_round_aux_canonical.
  - destruct H as [[-> ->]|[k [-> ->]]].
    + rewrite digits2_iter_xO, Hc.
      change (shl_align (Pos.iter xO m n) 0 (Zpos n)) with (Pos.iter xO m n, 0).
      unfold binary_round_aux, shr_fexp at 1.
      cbn [Zdigits2]. rewrite Z.add_0_r, digits2_iter_xO, Hc, Z.sub_0_r.
      cbn [shr_record_of_loc shr]. rewrite shr_exact.
      cbn [shr_m loc_of_shr_record round_nearest_even].
      rewrite Z.add_0_l.
      rewrite shr_fexp_canonical by (unfold canonical_mantissa; by apply Z.eqb_eq).
      cbn [shr_m]. by rewrite He.
    + rewrite digits2_iter_xO in Hc.
      replace (Zpos (digits2_pos p) + Zpos k + Zneg k) with (Zpos (digits2_pos p)) in Hc by lia.
      rewrite Hc. change (shl_align p 0 (Zneg k)) with (Pos.iter xO p k, Zneg k).
      by apply binary_round_aux_canonical.
Qed.

Lemma of_int64_trunc (s : bool) (m : positive) (e z : Z) :
  valid (S754_finite s m e) = true ->
  is_integral (S754_finite s m e) = true ->
  trunc (S754_finite s m e) = Some z ->
  of_int64 z = S754_finite s m e.
Proof.
  unfold valid, valid_binary. intros Hb Hi Ht. cbn [trunc] in Ht.
  injection Ht as <-. cbn [is_integral] in Hi.
  assert (Hp : exists p, (if 0 <=? e then Z.shiftl (Zpos m) e else Z.shiftr (Zpos m) (- e))
                         = Zpos p
                         /\ (e = 0 /\ p = m \/ exists n, e = Zpos n /\ p = Pos.iter xO m n
                             \/ exists k, e = Zneg k /\ m = Pos.iter xO p k)).
  { destruct e as [|n|k].
    - exists m. cbn. auto.
    - exists (Pos.iter xO m n). split; [|right; exists n; auto].
      cbn [Z.leb Z.compare]. rewrite Z.shiftl_mul_pow2 by lia. by rewrite Zpos_iter_xO.
    - cbn [Z.leb Z.compare orb] in *. change (- Zneg k) with (Zpos k) in *.
      apply Z.eqb_eq in Hi.
      rewrite Z.land_ones in Hi by lia. rewrite Z.shiftr_div_pow2 by lia.
      assert (H2 : 0 < 2 ^ Zpos k) by (apply Z.pow_pos_nonneg; lia).
      pose proof (Z.div_mod (Zpos m) (2 ^ Zpos k) ltac:(lia)) as Hdm.
      rewrite Hi, Z.add_0_r in Hdm.
      destruct (Zpos m / 2 ^ Zpos k) as [|q|q] eqn:Hq; [lia| |lia].
      exists q. split; [reflexivity|]. right. exists k. right. exists k.
      split; [reflexivity|]. apply Pos2Z.inj. rewrite Zpos_iter_xO. lia. }
  destruct Hp as [p [-> Hp]].
  unfold of_int64. destruct s; cbn [cond_Zopp Z.opp binary_normalize];
    by apply binary_round_canonical.
Qed.

Lemma SFeqb_refl_finite (s : bool) (m : positive) (e : Z) :
  SFeqb (S754_finite s m e) (S754_finite s m e) = true.
Proof.
  unfold SFeqb, SFcompare. rewrite Z.compare_refl, Pos.compare_cont_refl.
  by destruct s.
Qed.

(** An integral [float64] in the range of [int64] passes the test
    [v == float64(int64(v))]. *)
Lemma is_whole_integral (v : spec_float) (z : Z) :
  valid v = true -> is_integral v = true -> trunc v = Some z ->
  int64_min <= z <= int64_max ->
  is_whole v = true /\ to_int64 v = z.
Proof.
  intros Hv Hi Ht Hr. unfold is_whole, to_int64. rewrite Ht.
  replace ((int64_min <=? z) && (z <=? int64_max)) with true
    by (symmetry; apply andb_true_intro; split; apply Z.leb_le; lia).
  split; [|reflexivity]. destruct v as [s| | |s m e]; try discriminate.
  - injection Ht as <-. reflexivity.
  - rewrite (of_int64_trunc s m e z Hv Hi Ht). apply SFeqb_refl_finite.
Qed.

Lemma shr_exp_ge (mrs : shr_record) (e n : Z) : e <= snd (shr mrs e n).
Proof. unfold shr. destruct n; cbn [snd]; lia. Qed.

Lemma shr_fexp_exp_ge (m e : Z) (l : location) :
  e <= snd (shr_fexp 53 1024 m e l).
Proof. unfold shr_fexp. apply shr_exp_ge. Qed.

Lemma binary_round_aux_exp_ge (s0 s : bool) (mx ex : Z) (m : positive) (e : Z) :
  binary_round_aux 53 1024 s0 mx ex loc_Exact = S754_finite s m e -> ex <= e.
Proof.
  unfold binary_round_aux.
  destruct (shr_fexp 53 1024 mx ex loc_Exact) as [mrs' e'] eqn:E1.
  destruct (shr_fexp 53 1024 _ e' loc_Exact) as [mrs'' e''] eqn:E2.
  pose proof (shr_fexp_exp_ge mx ex loc_Exact) as H1. rewrite E1 in H1.
  pose proof (shr_fexp_exp_ge (round_nearest_even (shr_m mrs') (loc_of_shr_record mrs'))
                e' loc_Exact) as H2. rewrite E2 in H2. cbn [snd] in *.
  destruct (shr_m mrs''); [discriminate| |discriminate].
  destruct (e'' <=? 1024 - 53); [|discriminate].
  intros [= _ _ <-]. lia.
Qed.

(** [float64(i)] is a mathematical integer when it is finite. *)
Lemma of_int64_integral (z : Z) (s : bool) (m : positive) (e : Z) :
  of_int64 z = S754_finite s m e -> is_integral (S754_finite s m e) = true.
Proof.
  assert (H : forall s0 p, binary_round 53 1024 s0 p 0 = S754_finite s m e ->
                           is_integral (S754_finite s m e) = true).
  { intros s0 p. unfold binary_round. rewrite Z.add_0_r.
    assert (Hf : fexp 53 1024 (Zpos (digits2_pos p)) = Zpos (digits2_pos p) - 53).
    { unfold fexp, emin. lia. }
    rewrite Hf. destruct (Zpos (digits2_pos p) - 53) as [|n|k] eqn:Hd.
    - change (shl_align p 0 0) with (p, 0). intros H%binary_round_aux_exp_ge.
      cbn [is_integral]. replace (0 <=? e) with true by (symmetry; apply Z.leb_le; lia).
      reflexivity.
    - change (shl_align p 0 (Zpos n)) with (p, 0). intros H%binary_round_aux_exp_ge.
      cbn [is_integral]. replace (0 <=? e) with true by (symmetry; apply Z.leb_le; lia).
      reflexivity.
    - change (shl_align p 0 (Zneg k)) with (Pos.iter xO p k, Zneg k).
      cbv beta iota. rewrite binary_round_aux_canonical.
      + intros [= <- <- <-]. cbn [is_integral Z.leb Z.compare orb].
        change (- Zneg k) with (Zpos k). apply Z.eqb_eq.
        rewrite Z.land_ones by lia. rewrite Zpos_iter_xO. apply Z.mod_mul.
        apply Z.pow_nonzero; lia.
      + unfold bounded, canonical_mantissa. apply andb_true_intro. split.
        * apply Z.eqb_eq. rewrite digits2_iter_xO.
          replace (Zpos (digits2_pos p) + Zpos k + Zneg k) with (Zpos (digits2_pos p)) by lia.
          rewrite Hf. lia.
        * apply Z.leb_le. lia. }
  unfold of_int64, binary_normalize. destruct z; [discriminate|apply H..].
Qed.

Lemma SFeqb_finite_eq (s s' : bool) (m m' : positive) (e e' : Z) :
  SFeqb (S754_finite s m e) (S754_finite s' m' e') = true ->
  s = s' /\ m = m' /\ e = e'.
Proof.
  unfold SFeqb, SFcompare.
  destruct s, s'; try discriminate;
    destruct (Z.compare_spec e e') as [->| |]; try discriminate;
    fold (Pos.compare m m'); destruct (Pos.compare_spec m m') as [->| |];
    try discriminate; auto.
Qed.

(** A [float64] that passes the test [v == float64(int64(v))] is a
    mathematical integer. *)
Lemma is_whole_is_integral (v : spec_float) :
  is_whole v = true -> is_integral v = true.
Proof.
  unfold is_whole, eqb. destruct v as [s|s| |s m e].
  - reflexivity.
  - by destruct s.
  - discriminate.
  - destruct (of_int64 (to_int64 (S754_finite s m e))) as [s'|s'| |s' m' e'] eqn:Ew.
    + unfold SFeqb, SFcompare. by destruct s.
    + unfold SFeqb, SFcompare. by destruct s, s'.
    + discriminate.
    + intros (-> & -> & ->)%SFeqb_finite_eq. by eapply of_int64_integral.
Qed.

End Float64.

(** ** Integers in decimal *)

Lemma all_digits_uint (u : Decimal.uint) :
  all_digits (NilEmpty.string_of_uint u) = true.
Proof. induction u; cbn; auto. Qed.

Lemma NilZero_digits (u : Decimal.uint) :
  all_digits (NilZero.string_of_uint u) = true
  /\ String.eqb (NilZero.string_of_uint u) "" = false.
Proof.
  destruct u; (split; [|reflexivity]); try reflexivity;
    unfold NilZero.string_of_uint; apply all_digits_uint.
Qed.

Lemma all_digits_first (s : string) :
  all_digits s = true -> String.eqb s "" = false ->
  is_integer_literal s = true.
Proof.
  destruct s as [|c cs]; [discriminate|]. intros H _.
  unfold is_integer_literal. destruct (Ascii.eqb_spec c "-"%char) as [->|_]; [|exact H].
  discriminate.
Qed.

(** [%d] writes an integer literal. *)
Lemma FormatInt_literal (z : Z) : is_integer_literal (GoStrconv.FormatInt z) = true.
Proof.
  unfold GoStrconv.FormatInt, NilZero.string_of_int.
  destruct (Z.to_int z) as [u|u]; destruct (NilZero_digits u) as [Hd Hn].
  - by apply all_digits_first.
  - unfold is_integer_literal. rewrite Ascii.eqb_refl, Hn, Hd. reflexivity.
Qed.

Lemma all_digits_no_point (s : string) :
  all_digits s = true -> count_byte "." s = 0%nat.
Proof.
  induction s as [|c cs IH]; [reflexivity|]. cbn [all_digits count_byte].
  intros [Hc Hs]%andb_prop. rewrite (IH Hs).
  destruct (Ascii.eqb_spec c "."%char) as [->|_]; [discriminate|reflexivity].
Qed.

(** An integer literal has no decimal point. *)
Lemma integer_literal_no_point (s : string) :
  is_integer_literal s = true -> count_byte "." s = 0%nat.
Proof.
  destruct s as [|c cs]; [discriminate|]. unfold is_integer_literal.
  destruct (Ascii.eqb_spec c "-"%char) as [->|_].
  - intros [_ H]%andb_prop. cbn [count_byte]. by rewrite (all_digits_no_point _ H).
  - apply all_digits_no_point.
Qed.

(** ** [formatValue] and [formatSQLValue] *)

Lemma format_whole (v : spec_float) (z : Z) :
  valid v = true -> is_integral v = true -> trunc v = Some z ->
  (int64_min <= z <= int64_max)%Z ->
  formatValue (VFloat64 v) = GoStrconv.FormatInt z
  /\ formatSQLValue (VFloat64 v) = GoStrconv.FormatInt z.
Proof.
  intros Hv Hi Ht Hr. destruct (is_whole_integral v z Hv Hi Ht Hr) as [Hw Hz].
  unfold formatValue, formatSQLValue. by rewrite Hw, Hz.
Qed.

Lemma format_fractional (v : spec_float) :
  is_integral v = false ->
  formatValue (VFloat64 v) = GoStrconv.FormatFloat v GoStrconv.FmtG
  /\ formatSQLValue (VFloat64 v) = GoStrconv.FormatFloat v GoStrconv.FmtG.
Proof.
  intros Hi. unfold formatValue, formatSQLValue.
  destruct (is_whole v) eqn:Hw; [|done].
  apply is_whole_is_integral in Hw. congruence.
Qed.

Lemma ReplaceAll_quote (s : string) :
  GoStrings.ReplaceAll s "'" "''" = double_quotes s.
Proof.
  unfold GoStrings.ReplaceAll. induction s as [|c cs IH]; [reflexivity|].
  cbn [GoStrings.replace_from GoStrings.HasPrefix double_quotes String.length Nat.sub].
  replace (GoStrings.HasPrefix cs "") with true by (by destruct cs).
  rewrite andb_true_r, IH, (Ascii.eqb_sym "'"%char c).
  by destruct (Ascii.eqb c "'"%char).
Qed.

(** C4 as stated fails: [1.5e22] is a mathematical integer, and both
    [formatValue] and [formatSQLValue] write it with a decimal point. *)
Lemma format_large_integral_has_point :
  valid float_1_5e22 = true
  /\ is_integral float_1_5e22 = true
  /\ trunc float_1_5e22 = Some 15000000000000000000000%Z
  /\ formatValue (VFloat64 float_1_5e22) = "1.5e+22"
  /\ formatSQLValue (VFloat64 float_1_5e22) = "1.5e+22"
  /\ count_byte "." (formatValue (VFloat64 float_1_5e22)) = 1%nat
  /\ count_byte "." (formatSQLValue (VFloat64 float_1_5e22)) = 1%nat.
Proof. repeat split; by vm_compute. Qed.

(** C4, amended.  [formatValue] writes [nil] (also the cell of an
    absent key) as the empty string, a string as it is and a boolean as
    [true] or [false].  A number that is a mathematical integer within
    the range of [int64] is written as an integer literal, without
    decimal point or fractional digits, by [formatValue] and by
    [formatSQLValue] alike ([42], not [42.0]); a number that is not an
    integer is written in the default form of [%v] ([3.14]). *)
Theorem formatValue_rule :
  formatValue VNil = ""
  /\ (forall (m : gmap string value) (field : string),
         m !! field = None -> formatValue (index (mk_map m) field) = "")
  /\ (forall s : string, formatValue (VString s) = s)
  /\ (forall b : bool, formatValue (VBool b) = if b then "true" else "false")
  /\ (forall (v : spec_float) (z : Z),
         valid v = true -> is_integral v = true -> trunc v = Some z ->
         (int64_min <= z <= int64_max)%Z ->
         formatValue (VFloat64 v) = GoStrconv.FormatInt z
         /\ formatSQLValue (VFloat64 v) = GoStrconv.FormatInt z
         /\ is_integer_literal (GoStrconv.FormatInt z) = true
         /\ count_byte "." (GoStrconv.FormatInt z) = 0%nat)
  /\ (forall v : spec_float,
         is_integral v = false ->
         formatValue (VFloat64 v) = GoStrconv.FormatFloat v GoStrconv.FmtG)
  /\ formatValue (num 42) = "42"
  /\ formatSQLValue (num 42) = "42"
  /\ formatValue (VFloat64 float_3_14) = "3.14".
Proof.
  split; [reflexivity|]. split.
  { intros m field H. cbn [index]. by rewrite H. }
  split; [reflexivity|]. split; [by intros []|]. split.
  { intros v z Hv Hi Ht Hr. destruct (format_whole v z Hv Hi Ht Hr) as [H1 H2].
    repeat split; [exact H1|exact H2|apply FormatInt_literal|].
    apply integer_literal_no_point, FormatInt_literal. }
  split; [intros v Hi; apply (format_fractional v Hi)|].
  repeat split; by vm_compute.
Qed.

Lemma formatValue_rule_witness :
  formatValue (index (mk_map ∅) "age") = ""
  /\ (formatValue (num 42) = GoStrconv.FormatInt 42
      /\ formatSQLValue (num 42) = GoStrconv.FormatInt 42
      /\ is_integer_literal (GoStrconv.FormatInt 42) = true
      /\ count_byte "." (GoStrconv.FormatInt 42) = 0%nat)
  /\ formatValue (VFloat64 float_3_14) = GoStrconv.FormatFloat float_3_14 GoStrconv.FmtG.
Proof.
  split; [|split].
  - exact (proj1 (proj2 formatValue_rule) ∅ "age" (lookup_empty "age")).
  - apply (proj1 (proj2 (proj2 (proj2 (proj2 formatValue_rule)))) (of_int64 42) 42%Z).
    + reflexivity.
    + reflexivity.
    + reflexivity.
    + unfold int64_min, int64_max. lia.
  - apply (proj1 (proj2 (proj2 (proj2 (proj2 (proj2 formatValue_rule))))) float_3_14).
    reflexivity.
Defined.

(** C6 as stated fails: [1.5e22] is an integral number, and
    [formatSQLValue] does not write it as an integer literal. *)
Lemma formatSQLValue_large_integral :
  valid float_1_5e22 = true
  /\ is_integral float_1_5e22 = true
  /\ trunc float_1_5e22 = Some 15000000000000000000000%Z
  /\ formatSQLValue (VFloat64 float_1_5e22) = "1.5e+22"
  /\ is_integer_literal (formatSQLValue (VFloat64 float_1_5e22)) = false.
Proof. repeat split; by vm_compute. Qed.

(** C6, amended.  [formatSQLValue] writes [nil] as the keyword [NULL];
    a string between single quotes with every single quote doubled and
    every other byte kept ([it's] gives ['it''s']); a number that is a
    mathematical integer within the range of [int64] as an integer
    literal and a number that is not an integer in the default form of
    [%v], both without quotes; a boolean as the keyword [TRUE] or
    [FALSE]; any other value as its [%v] text between single quotes,
    unchanged. *)
Theorem formatSQLValue_rule :
  formatSQLValue VNil = "NULL"
  /\ (forall s : string, formatSQLValue (VString s) = "'" +:+ double_quotes s +:+ "'")
  /\ formatSQLValue (VString "it's") = "'it''s'"
  /\ (forall (v : spec_float) (z : Z),
         valid v = true -> is_integral v = true -> trunc v = Some z ->
         (int64_min <= z <= int64_max)%Z ->
         formatSQLValue (VFloat64 v) = GoStrconv.FormatInt z
         /\ is_integer_literal (GoStrconv.FormatInt z) = true)
  /\ (forall v : spec_float,
         is_integral v = false ->
         formatSQLValue (VFloat64 v) = GoStrconv.FormatFloat v GoStrconv.FmtG)
  /\ (forall b : bool, formatSQLValue (VBool b) = if b then "TRUE" else "FALSE")
  /\ (forall l : list value,
         formatSQLValue (VSlice l) = "'" +:+ GoFmt.Sprint_v (VSlice l) +:+ "'")
  /\ (forall m : gmap string value,
         formatSQLValue (VMap m) = "'" +:+ GoFmt.Sprint_v (VMap m) +:+ "'")
  /\ formatSQLValue (VSlice [VString "it's"; num 2]) = "'[it's 2]'"
  /\ formatSQLValue (VFloat64 float_3_14) = "3.14".
Proof.
  split; [reflexivity|]. split.
  { intros s. cbn [formatSQLValue]. by rewrite ReplaceAll_quote. }
  split; [by vm_compute|]. split.
  { intros v z Hv Hi Ht Hr. split; [apply (format_whole v z Hv Hi Ht Hr)|].
    apply FormatInt_literal. }
  split; [intros v Hi; apply (format_fractional v Hi)|].
  split; [by intros []|]. split; [reflexivity|]. split; [reflexivity|].
  split; by vm_compute.
Qed.

Lemma formatSQLValue_rule_witness :
  (formatSQLValue (num 42) = GoStrconv.FormatInt 42
   /\ is_integer_literal (GoStrconv.FormatInt 42) = true)
  /\ formatSQLValue (VFloat64 float_3_14) = GoStrconv.FormatFloat float_3_14 GoStrconv.FmtG.
Proof.
  split.
  - apply (proj1 (proj2 (proj2 (proj2 formatSQLValue_rule))) (of_int64 42) 42%Z).
    + reflexivity.
    + reflexivity.
    + reflexivity.
    + unfold int64_min, int64_max. lia.
  - apply (proj1 (proj2 (proj2 (proj2 (proj2 formatSQLValue_rule)))) float_3_14).
    reflexivity.
Defined.

(** ** JSON string literals *)

Section JsonStrings.
Import GoJson GoUtf8.

Ltac bytes b := destruct b as [[] [] [] [] [] [] [] []].

Lemma chop_last_app (c : ascii) (s : string) :
  chop_last c (s +:+ String c "") = Some s.
Proof.
  induction s as [|x xs IH].
  - rewrite app_nil_l. cbn [chop_last]. by rewrite Ascii.eqb_refl.
  - rewrite app_cons. cbn [chop_last]. rewrite IH.
    destruct xs; reflexivity.
Qed.

Lemma escape_from_0_copy (copy : bool) (s : string) :
  escape_from 0 copy s = escape_from 0 true s.
Proof. by destruct s. Qed.

(** A safe ASCII byte is copied by the encoder and by the decoder. *)
Lemma unquote_safe (b : ascii) (t : string) :
  (byte_val b <? 128)%Z = true -> htmlSafe b = true ->
  unquote_from 0 (String b t) = prepend (String b "") (unquote_from 0 t).
Proof. bytes b; intros H1 H2; try discriminate; reflexivity. Qed.

(** The escape of an unsafe ASCII byte is read back as that byte. *)
Lemma unquote_escape_byte (b : ascii) (t : string) :
  (byte_val b <? 128)%Z = true -> htmlSafe b = false ->
  unquote_from 0 (escape_byte b +:+ t) = prepend (String b "") (unquote_from 0 t).
Proof. bytes b; intros H1 H2; try discriminate; reflexivity. Qed.

Lemma lor_shiftl (a b n : Z) :
  (0 <= a)%Z -> (0 <= n)%Z -> (0 <= b < 2 ^ n)%Z ->
  Z.lor (Z.shiftl a n) b = (a * 2 ^ n + b)%Z.
Proof.
  intros Ha Hn Hb. rewrite <- Z.shiftl_mul_pow2 by lia.
  rewrite <- Z.add_lor_land.
  assert (H0 : Z.land (Z.shiftl a n) b = 0%Z); [|lia].
  apply Z.bits_inj'. intros k Hk.
  rewrite Z.land_spec, Z.bits_0, Z.shiftl_spec by lia.
  destruct (Z.ltb_spec k n) as [Hlt|Hge].
  - rewrite Z.testbit_neg_r by lia. reflexivity.
  - destruct (Z.eq_dec b 0%Z) as [->|Hb0]; [by rewrite Z.bits_0, andb_false_r|].
    rewrite (Z.bits_above_log2 b k), andb_false_r; [reflexivity|lia|].
    assert (Z.log2 b < n)%Z by (apply Z.log2_lt_pow2; lia). lia.
Qed.

Lemma land_low_bound (x n : Z) :
  (0 <= x)%Z -> (0 <= n)%Z -> (0 <= Z.land x (Z.ones n) < 2 ^ n)%Z.
Proof. intros Hx Hn. rewrite Z.land_ones by lia. apply Z.mod_pos_bound. lia. Qed.

Lemma byte_val_range (b : ascii) : (0 <= byte_val b < 256)%Z.
Proof. bytes b; vm_compute; split; congruence. Qed.

(** The bytes of U+2028 and U+2029. *)
Lemma decode3_separator (b0 b1 b2 : ascii) :
  let c := Z.lor (Z.shiftl (Z.land (byte_val b0) 15) 12)
             (Z.lor (Z.shiftl (Z.land (byte_val b1) 63) 6)
                (Z.land (byte_val b2) 63)) in
  (224 <=? byte_val b0)%Z = true -> (byte_val b0 <? 240)%Z = true ->
  is_cont b1 = true -> is_cont b2 = true ->
  (c =? 8232)%Z || (c =? 8233)%Z = true ->
  EncodeRune c = String b0 (String b1 (String b2 "")).
Proof.
  intros c H0 H0' H1 H2 Hc.
  pose proof (land_low_bound (byte_val b0) 4 (proj1 (byte_val_range b0)) ltac:(lia)) as B0.
  pose proof (land_low_bound (byte_val b1) 6 (proj1 (byte_val_range b1)) ltac:(lia)) as B1.
  pose proof (land_low_bound (byte_val b2) 6 (proj1 (byte_val_range b2)) ltac:(lia)) as B2.
  change (Z.ones 4) with 15%Z in B0. change (Z.ones 6) with 63%Z in B1, B2.
  change (2 ^ 4)%Z with 16%Z in B0. change (2 ^ 6)%Z with 64%Z in B1, B2.
  assert (Hsum : c = (Z.land (byte_val b0) 15 * 4096
                      + Z.land (byte_val b1) 63 * 64 + Z.land (byte_val b2) 63)%Z).
  { unfold c. rewrite (lor_shiftl _ _ 6) by (change (2 ^ 6)%Z with 64%Z; lia).
    rewrite (lor_shiftl _ _ 12) by (change (2 ^ 12)%Z with 4096%Z; lia).
    change (2 ^ 6)%Z with 64%Z. change (2 ^ 12)%Z with 4096%Z. lia. }
  assert (Hb0 : Z.land (byte_val b0) 15 = 2%Z
                /\ Z.land (byte_val b1) 63 = 0%Z
                /\ (Z.land (byte_val b2) 63 = 40 \/ Z.land (byte_val b2) 63 = 41)%Z).
  { apply orb_prop in Hc. destruct Hc as [Hc|Hc]; apply Z.eqb_eq in Hc; lia. }
  destruct Hb0 as (E0 & E1 & E2).
  assert (b0 = byte_of 226).
  { clear -E0 H0 H0'. bytes b0; try discriminate; reflexivity. }
  assert (b1 = byte_of 128).
  { clear -E1 H1. bytes b1; try discriminate; reflexivity. }
  assert (b2 = byte_of 168 /\ c = 8232%Z \/ b2 = byte_of 169 /\ c = 8233%Z) as Hb2.
  { destruct E2 as [E2|E2]; [left|right]; (split; [|lia]);
      clear -E2 H2; bytes b2; try discriminate; reflexivity. }
  subst b0 b1. destruct Hb2 as [[-> ->]|[-> ->]]; reflexivity.
Qed.

Lemma cont_low_bits (b : ascii) :
  is_cont b = true ->
  (0 <= Z.land (byte_val b) 63 < 64)%Z.
Proof. intros _. apply (land_low_bound (byte_val b) 6); [apply byte_val_range|lia]. Qed.

Lemma not_separator_2 (b0 b1 : ascii) :
  let c := Z.lor (Z.shiftl (Z.land (byte_val b0) 31) 6) (Z.land (byte_val b1) 63) in
  (c =? 8232)%Z || (c =? 8233)%Z = false.
Proof.
  intros c.
  pose proof (land_low_bound (byte_val b0) 5 (proj1 (byte_val_range b0)) ltac:(lia)) as B0.
  pose proof (land_low_bound (byte_val b1) 6 (proj1 (byte_val_range b1)) ltac:(lia)) as B1.
  change (Z.ones 5) with 31%Z in B0. change (Z.ones 6) with 63%Z in B1.
  change (2 ^ 5)%Z with 32%Z in B0. change (2 ^ 6)%Z with 64%Z in B1.
  assert (c = (Z.land (byte_val b0) 31 * 64 + Z.land (byte_val b1) 63)%Z) as Hc.
  { unfold c. rewrite (lor_shiftl _ _ 6) by (change (2 ^ 6)%Z with 64%Z; lia).
    reflexivity. }
  apply orb_false_intro; apply Z.eqb_neq; lia.
Qed.

Lemma not_separator_4 (b0 b1 b2 b3 : ascii) :
  let c := Z.lor (Z.shiftl (Z.land (byte_val b0) 7) 18)
             (Z.lor (Z.shiftl (Z.land (byte_val b1) 63) 12)
                (Z.lor (Z.shiftl (Z.land (byte_val b2) 63) 6)
                   (Z.land (byte_val b3) 63))) in
  (240 <=? byte_val b0)%Z = true -> (byte_val b0 <? 245)%Z = true ->
  in_range (if (byte_val b0 =? 240)%Z then 144 else 128)
           (if (byte_val b0 =? 244)%Z then 143 else 191) b1 = true ->
  (c =? 8232)%Z || (c =? 8233)%Z = false.
Proof.
  intros c H0 H0' H1.
  pose proof (land_low_bound (byte_val b0) 3 (proj1 (byte_val_range b0)) ltac:(lia)) as B0.
  pose proof (land_low_bound (byte_val b1) 6 (proj1 (byte_val_range b1)) ltac:(lia)) as B1.
  pose proof (land_low_bound (byte_val b2) 6 (proj1 (byte_val_range b2)) ltac:(lia)) as B2.
  pose proof (land_low_bound (byte_val b3) 6 (proj1 (byte_val_range b3)) ltac:(lia)) as B3.
  change (Z.ones 3) with 7%Z in B0. change (Z.ones 6) with 63%Z in B1, B2, B3.
  change (2 ^ 3)%Z with 8%Z in B0. change (2 ^ 6)%Z with 64%Z in B1, B2, B3.
  assert (c = (Z.land (byte_val b0) 7 * 262144 + Z.land (byte_val b1) 63 * 4096
               + Z.land (byte_val b2) 63 * 64 + Z.land (byte_val b3) 63)%Z) as Hc.
  { unfold c. rewrite (lor_shiftl _ _ 6) by (change (2 ^ 6)%Z with 64%Z; lia).
    rewrite (lor_shiftl _ _ 12) by (change (2 ^ 12)%Z with 4096%Z; lia).
    rewrite (lor_shiftl _ _ 18) by (change (2 ^ 18)%Z with 262144%Z; lia).
    change (2 ^ 6)%Z with 64%Z. change (2 ^ 12)%Z with 4096%Z.
    change (2 ^ 18)%Z with 262144%Z. lia. }
  assert (1 <= Z.land (byte_val b0) 7 \/ 16 <= Z.land (byte_val b1) 63)%Z as Hlow.
  { destruct (byte_val b0 =? 240)%Z eqn:E.
    - right. unfold in_range in H1.
      destruct (byte_val b0 =? 244)%Z; clear -H1;
        bytes b1; try discriminate; vm_compute; congruence.
    - left. clear -E H0 H0'. bytes b0; try discriminate; vm_compute; congruence. }
  apply orb_false_intro; apply Z.eqb_neq; lia.
Qed.

(** The shape of a well-formed rune of more than one byte: its bytes
    alone decide how it is decoded. *)
Lemma decode_valid_shape (b0 : ascii) (r0 : string) (c : Z) (size : nat) :
  (byte_val b0 <? 128)%Z = false ->
  DecodeRuneInString (String b0 r0) = (c, size) ->
  (c =? RuneError)%Z && Nat.eqb size 1 = false ->
  (size = 2%nat /\ exists b1 r1,
      r0 = String b1 r1
      /\ (forall X, DecodeRuneInString (String b0 (String b1 X)) = (c, 2%nat))
      /\ (c =? 8232)%Z || (c =? 8233)%Z = false)
  \/ (size = 3%nat /\ exists b1 b2 r2,
         r0 = String b1 (String b2 r2)
         /\ (forall X, DecodeRuneInString (String b0 (String b1 (String b2 X))) = (c, 3%nat))
         /\ ((c =? 8232)%Z || (c =? 8233)%Z = true ->
             EncodeRune c = String b0 (String b1 (String b2 ""))))
  \/ (size = 4%nat /\ exists b1 b2 b3 r3,
         r0 = String b1 (String b2 (String b3 r3))
         /\ (forall X, DecodeRuneInString
                         (String b0 (String b1 (String b2 (String b3 X)))) = (c, 4%nat))
         /\ (c =? 8232)%Z || (c =? 8233)%Z = false).
Proof.
  intros H128 Hd Hv. unfold DecodeRuneInString in Hd. cbv zeta in Hd.
  rewrite H128 in Hd.
  destruct (byte_val b0 <? 194)%Z eqn:E194.
  { injection Hd as <- <-. discriminate. }
  destruct (byte_val b0 <? 224)%Z eqn:E224.
  { destruct r0 as [|b1 r1]; [injection Hd as <- <-; discriminate|].
    destruct (is_cont b1) eqn:C1; [|injection Hd as <- <-; discriminate].
    injection Hd as <- <-. left. split; [reflexivity|]. exists b1, r1.
    split; [reflexivity|]. split; [|apply not_separator_2].
    intros X. unfold DecodeRuneInString. cbv zeta. by rewrite H128, E194, E224, C1. }
  destruct (byte_val b0 <? 240)%Z eqn:E240.
  { destruct r0 as [|b1 [|b2 r2]]; try (injection Hd as <- <-; discriminate).
    destruct (in_range _ _ b1 && is_cont b2) eqn:C; [|injection Hd as <- <-; discriminate].
    injection Hd as <- <-. right. left. split; [reflexivity|]. exists b1, b2, r2.
    split; [reflexivity|]. split.
    - intros X. unfold DecodeRuneInString. cbv zeta. by rewrite H128, E194, E224, E240, C.
    - apply andb_prop in C as [C1 C2]. apply decode3_separator; try done.
      + apply Z.leb_le. apply Z.ltb_ge in E224. lia.
      + unfold in_range in C1. unfold is_cont.
        destruct (byte_val b0 =? 224)%Z, (byte_val b0 =? 237)%Z;
          apply andb_prop in C1 as [L U]; apply Z.leb_le in L, U;
          apply andb_true_intro; split; apply Z.leb_le; lia. }
  destruct (byte_val b0 <? 245)%Z eqn:E245; [|injection Hd as <- <-; discriminate].
  destruct r0 as [|b1 [|b2 [|b3 r3]]]; try (injection Hd as <- <-; discriminate).
  destruct (in_range _ _ b1 && is_cont b2 && is_cont b3) eqn:C;
    [|injection Hd as <- <-; discriminate].
  injection Hd as <- <-. right. right. split; [reflexivity|]. exists b1, b2, b3, r3.
  split; [reflexivity|]. split.
  - intros X. unfold DecodeRuneInString. cbv zeta.
    by rewrite H128, E194, E224, E240, E245, C.
  - apply andb_prop in C as [C12 C3]. apply andb_prop in C12 as [C1 C2].
    apply not_separator_4; try done.
    apply Z.leb_le. apply Z.ltb_ge in E240. lia.
Qed.

Lemma unquote_high (b : ascii) (t : string) :
  (byte_val b <? 128)%Z = false ->
  unquote_from 0 (String b t)
  = let '(rr, size) := DecodeRuneInString (String b t) in
    if (rr =? RuneError)%Z && Nat.eqb size 1
    then prepend (EncodeRune RuneError) (unquote_from 0 t)
    else prepend (String b "") (unquote_from (size - 1) t).
Proof. bytes b; intros H; try discriminate; reflexivity. Qed.

Lemma unquote_separator (c : Z) (t : string) :
  (c =? 8232)%Z || (c =? 8233)%Z = true ->
  unquote_from 0 (String backslash "u202" +:+ String (hex_digit (Z.land c 15)) "" +:+ t)
  = prepend (EncodeRune c) (unquote_from 0 t).
Proof.
  intros [H|H]%orb_prop; apply Z.eqb_eq in H; subst c; reflexivity.
Qed.

(** Reading back what [appendString] wrote between the quotes. *)
Lemma unquote_escape_from (n : nat) (s : string) :
  String.length s <= n -> valid_from 0 s = true ->
  unquote_from 0 (escape_from 0 true s) = Some s.
Proof.
  revert s. induction n as [|n IH]; intros s Hn Hv.
  { destruct s; [reflexivity|cbn in Hn; lia]. }
  destruct s as [|b0 r0]; [reflexivity|]. cbn [String.length] in Hn.
  cbn [escape_from valid_from] in *.
  destruct (byte_val b0 <? 128)%Z eqn:H128.
  - (* an ASCII byte *)
    assert (Hr : valid_from 0 r0 = true).
    { unfold DecodeRuneInString in Hv. cbv zeta in Hv. rewrite H128 in Hv.
      destruct ((byte_val b0 =? RuneError)%Z && Nat.eqb 1 1); [discriminate|exact Hv]. }
    destruct (htmlSafe b0) eqn:Hs.
    + rewrite app_cons, app_nil_l, unquote_safe by done.
      rewrite IH by (done || lia). reflexivity.
    + rewrite unquote_escape_byte by done. rewrite IH by (done || lia). reflexivity.
  - (* the first byte of a rune *)
    destruct (DecodeRuneInString (String b0 r0)) as [c size] eqn:Hd.
    destruct ((c =? RuneError)%Z && Nat.eqb size 1) eqn:Hbad; [discriminate|].
    destruct (decode_valid_shape b0 r0 c size H128 Hd Hbad)
      as [(-> & b1 & r1 & -> & HX & Hsep)
         |[(-> & b1 & b2 & r2 & -> & HX & Hsep)
          |(-> & b1 & b2 & b3 & r3 & -> & HX & Hsep)]].
    + rewrite Hsep. cbn [Nat.sub escape_from]. cbn [Nat.sub valid_from] in Hv.
      rewrite unquote_high, HX, Hbad by done. cbn [Nat.sub unquote_from].
      rewrite IH by (done || cbn [String.length] in Hn; lia). reflexivity.
    + cbn [Nat.sub valid_from] in Hv.
      destruct ((c =? 8232)%Z || (c =? 8233)%Z) eqn:Hc.
      * cbn [Nat.sub escape_from]. rewrite escape_from_0_copy.
        rewrite unquote_separator by done.
        rewrite IH by (done || cbn [String.length] in Hn; lia).
        cbn [prepend]. by rewrite (Hsep eq_refl).
      * cbn [Nat.sub escape_from].
        rewrite unquote_high, HX, Hbad by done. cbn [Nat.sub unquote_from].
        rewrite IH by (done || cbn [String.length] in Hn; lia). reflexivity.
    + rewrite Hsep. cbn [Nat.sub escape_from]. cbn [Nat.sub valid_from] in Hv.
      rewrite unquote_high, HX, Hbad by done. cbn [Nat.sub unquote_from].
      rewrite IH by (done || cbn [String.length] in Hn; lia). reflexivity.
Qed.

(** A Go string that is valid UTF-8 is read back from its literal. *)
Lemma unquote_appendString (s : string) :
  ValidString s = true -> unquote (appendString s) = Some s.
Proof.
  intros Hv. unfold unquote, appendString. rewrite app_cons.
  rewrite Ascii.eqb_refl, chop_last_app.
  by apply (unquote_escape_from (String.length s)).
Qed.
End JsonStrings.

(** ** Digit strings *)

Section Digits.
Import GoStrconv.
#[local] Open Scope Z_scope.

Lemma string_length_app (a b : string) :
  String.length (a +:+ b) = (String.length a + String.length b)%nat.
Proof. induction a as [|c a IH]; [reflexivity|]. rewrite app_cons. cbn. by rewrite IH. Qed.

Lemma dec_value_from_app (acc : Z) (a b : string) :
  dec_value_from acc (a +:+ b) = dec_value_from (dec_value_from acc a) b.
Proof.
  revert acc. induction a as [|c a IH]; intros acc; [reflexivity|].
  rewrite app_cons. cbn [dec_value_from]. apply IH.
Qed.

Lemma dec_value_from_acc (acc : Z) (s : string) :
  dec_value_from acc s = acc * 10 ^ Z.of_nat (String.length s) + dec_value s.
Proof.
  unfold dec_value. revert acc. induction s as [|c s IH]; intros acc.
  - cbn. lia.
  - cbn [dec_value_from String.length]. rewrite IH, (IH (10 * 0 + _)).
    rewrite Nat2Z.inj_succ, Z.pow_succ_r by lia. ring.
Qed.

Lemma dec_value_app (a b : string) :
  dec_value (a +:+ b) = dec_value a * 10 ^ Z.of_nat (String.length b) + dec_value b.
Proof. unfold dec_value at 1. by rewrite dec_value_from_app, dec_value_from_acc. Qed.

Lemma zeros_length (n : nat) : String.length (zeros n) = n.
Proof. induction n; cbn; auto. Qed.

Lemma zeros_digits (n : nat) : all_digits (zeros n) = true.
Proof. induction n; cbn; auto. Qed.

Lemma zeros_value (n : nat) : dec_value (zeros n) = 0.
Proof.
  unfold dec_value. induction n as [|n IH]; [reflexivity|]. cbn [zeros dec_value_from].
  exact IH.
Qed.

Lemma all_digits_app (a b : string) :
  all_digits (a +:+ b) = all_digits a && all_digits b.
Proof.
  induction a as [|c a IH]; [reflexivity|]. rewrite app_cons. cbn [all_digits].
  by rewrite IH, andb_assoc.
Qed.

(** The digits of a positive number, as [FormatInt] writes them. *)
Lemma dec_value_uint_acc (u : Decimal.uint) (acc : positive) :
  dec_value_from (Zpos acc) (NilEmpty.string_of_uint u) = Zpos (Pos.of_uint_acc u acc).
Proof.
  revert acc. induction u; intros acc; cbn [NilEmpty.string_of_uint dec_value_from Pos.of_uint_acc];
    [reflexivity|rewrite <- IHu; f_equal; vm_compute (byte_val _); lia..].
Qed.

Lemma dec_value_uint (u : Decimal.uint) :
  dec_value (NilEmpty.string_of_uint u) = Z.of_N (Pos.of_uint u).
Proof.
  unfold dec_value.
  induction u; cbn [NilEmpty.string_of_uint dec_value_from Pos.of_uint];
    [reflexivity|exact IHu|..];
    vm_compute (10 * 0 + _); by rewrite dec_value_uint_acc.
Qed.

Lemma FormatInt_pos (p : positive) :
  FormatInt (Zpos p) = NilEmpty.string_of_uint (Pos.to_uint p).
Proof.
  unfold FormatInt. cbn [Z.to_int NilZero.string_of_int]. unfold NilZero.string_of_uint.
  destruct (Pos.to_uint p) eqn:E; try reflexivity.
  exfalso. pose proof (DecimalPos.Unsigned.of_to p) as H. rewrite E in H. discriminate.
Qed.

Lemma FormatInt_value (q : Z) : 0 < q -> dec_value (FormatInt q) = q.
Proof.
  destruct q as [|p|p]; try lia. intros _.
  by rewrite FormatInt_pos, dec_value_uint, DecimalPos.Unsigned.of_to.
Qed.

Lemma FormatInt_digits (q : Z) :
  0 <= q -> all_digits (FormatInt q) = true /\ FormatInt q <> "".
Proof.
  intros Hq. unfold FormatInt, NilZero.string_of_int.
  destruct q as [|p|p]; try lia; cbn [Z.to_int].
  - split; [reflexivity|discriminate].
  - destruct (NilZero_digits (Pos.to_uint p)) as [H1 H2]. split; [exact H1|].
    intros E. rewrite E in H2. discriminate.
Qed.

(** *** Reading a literal *)

Lemma span_digits_all (a : string) :
  all_digits a = true -> span_digits a = (a, "").
Proof.
  induction a as [|c a IH]; [reflexivity|]. cbn [all_digits span_digits].
  intros [Hc Ha]%andb_prop. by rewrite Hc, (IH Ha).
Qed.

Lemma span_digits_app (a : string) (c : ascii) (r : string) :
  all_digits a = true -> is_digit c = false ->
  span_digits (a +:+ String c r) = (a, String c r).
Proof.
  intros Ha Hc. induction a as [|x a IH].
  - rewrite app_nil_l. cbn [span_digits]. by rewrite Hc.
  - rewrite app_cons. cbn [all_digits span_digits] in *.
    apply andb_prop in Ha as [Hx Ha]. by rewrite Hx, (IH Ha).
Qed.

Lemma first_digit_not_minus (a : string) :
  all_digits a = true -> a <> "" ->
  exists c r, a = String c r /\ Ascii.eqb c "-"%char = false /\ is_digit c = true.
Proof.
  destruct a as [|c r]; [done|]. intros [Hc _]%andb_prop _. exists c, r.
  split; [reflexivity|]. split; [|exact Hc].
  destruct (Ascii.eqb_spec c "-"%char) as [->|]; [discriminate|reflexivity].
Qed.

Lemma read_exponent_digits (eneg : bool) (ed : string) :
  all_digits ed = true -> ed <> "" ->
  read_exponent ((if eneg then "-" else "+") +:+ ed)
  = Some (if eneg then - dec_value ed else dec_value ed).
Proof.
  intros Hd Hn. unfold read_exponent.
  assert (He : String.eqb ed "" = false) by (by apply String.eqb_neq).
  destruct eneg; rewrite app_cons, app_nil_l; cbn [Ascii.eqb Bool.eqb andb];
    rewrite (span_digits_all ed Hd), He; reflexivity.
Qed.

Lemma exponent_part_head (text : string) (e : Z) :
  exponent_part text e ->
  text = "" \/ exists r, text = String "e" r.
Proof.
  intros [[-> _]|(eneg & ed & -> & _)]; [by left|right]. eexists. reflexivity.
Qed.

Lemma read_exponent_part (text : string) (e : Z) :
  exponent_part text e ->
  match text with
  | "" => Some 0
  | String c cs =>
      if Ascii.eqb c "e"%char || Ascii.eqb c "E"%char then read_exponent cs else None
  end = Some e.
Proof.
  intros [[-> ->]|(eneg & ed & -> & Hd & Hn & ->)]; [reflexivity|].
  rewrite app_cons, app_nil_l. cbn [Ascii.eqb Bool.eqb andb orb].
  by apply read_exponent_digits.
Qed.

(** A literal made of a sign, integer digits, fraction digits and an
    exponent part is read as the number it writes. *)
Lemma readFloat_literal (neg : bool) (ip fp text : string) (e : Z) :
  all_digits ip = true -> ip <> "" -> all_digits fp = true ->
  exponent_part text e ->
  readFloat (sign_prefix neg +:+ ip
             +:+ (if String.eqb fp "" then "" else "." +:+ fp) +:+ text)
  = Some (neg, dec_value (ip +:+ fp), e - Z.of_nat (String.length fp)).
Proof.
  intros Hip Hne Hfp Hex.
  destruct (first_digit_not_minus ip Hip Hne) as (c0 & r0 & Eip & Hc0 & _).
  assert (Hsign : forall rest,
             match sign_prefix neg +:+ ip +:+ rest with
             | String c cs =>
                 if Ascii.eqb c "-"%char then (true, cs)
                 else (false, sign_prefix neg +:+ ip +:+ rest)
             | "" => (false, sign_prefix neg +:+ ip +:+ rest)
             end = (neg, ip +:+ rest)).
  { intros rest. destruct neg; cbn [sign_prefix].
    - rewrite app_cons, app_nil_l. reflexivity.
    - rewrite app_nil_l. rewrite Eip, app_cons. by rewrite Hc0. }
  unfold readFloat. rewrite Hsign.
  assert (Hnip : String.eqb ip "" = false) by (by apply String.eqb_neq).
  pose proof (read_exponent_part text e Hex) as Hre.
  destruct (String.eqb_spec fp "") as [->|Hfne].
  - rewrite app_nil_l.
    destruct (exponent_part_head text e Hex) as [->|[r ->]].
    + rewrite app_nil_r, (span_digits_all ip Hip), Hnip. cbn in Hre.
      injection Hre as <-. cbv beta iota. by rewrite app_nil_r.
    + rewrite (span_digits_app ip "e" r Hip eq_refl), Hnip.
      cbn [Ascii.eqb Bool.eqb andb]. cbn [Ascii.eqb Bool.eqb andb] in Hre.
      cbv beta iota. rewrite Hre. by rewrite app_nil_r.
  - rewrite app_assoc, app_cons, app_nil_l.
    rewrite (span_digits_app ip "." _ Hip eq_refl), Hnip.
    cbn [Ascii.eqb Bool.eqb andb].
    assert (Hnfp : String.eqb fp "" = false) by (by apply String.eqb_neq).
    destruct (exponent_part_head text e Hex) as [->|[r ->]].
    + rewrite app_nil_r, (span_digits_all fp Hfp), Hnfp. cbn in Hre.
      injection Hre as <-. reflexivity.
    + rewrite (span_digits_app fp "e" r Hfp eq_refl), Hnfp. rewrite Hre. reflexivity.
Qed.

(** *** Slices of the digits *)

Lemma split_at (s : string) (a : nat) :
  (a <= String.length s)%nat ->
  exists s1 s2, s = s1 +:+ s2 /\ String.length s1 = a.
Proof.
  revert a. induction s as [|c s IH]; intros [|a] Ha; cbn in Ha.
  - by exists "", "".
  - lia.
  - by exists "", (String c s).
  - destruct (IH a) as (s1 & s2 & -> & <-); [lia|].
    exists (String c s1), s2. by rewrite app_cons.
Qed.

Lemma substring_prefix (s1 s2 : string) :
  String.substring 0 (String.length s1) (s1 +:+ s2) = s1.
Proof.
  induction s1 as [|c s1 IH].
  - rewrite app_nil_l. by destruct s2.
  - rewrite app_cons. cbn. by rewrite IH.
Qed.

Lemma substring_all (s : string) : String.substring 0 (String.length s) s = s.
Proof. by rewrite <- (app_nil_r s) at 2; rewrite substring_prefix. Qed.

Lemma get_app (s1 : string) (c : ascii) (s2 : string) :
  String.get (String.length s1) (s1 +:+ String c s2) = Some c.
Proof.
  induction s1 as [|x s1 IH]; [by rewrite app_nil_l|]. rewrite app_cons. exact IH.
Qed.

Lemma fraction_digits_suffix (ds : decimalSlice) (s1 s2 : string) :
  d ds = s1 +:+ s2 ->
  fraction_digits ds (Z.of_nat (String.length s1)) (String.length s2) = s2.
Proof.
  revert s1. induction s2 as [|c s2 IH]; intros s1 E; [reflexivity|].
  cbn [String.length fraction_digits]. f_equal.
  - unfold digit_at, nd. rewrite E, string_length_app. cbn [String.length].
    rewrite (proj2 (Z.leb_le _ _)), (proj2 (Z.ltb_lt _ _)) by lia.
    by rewrite Nat2Z.id, get_app.
  - replace (Z.of_nat (String.length s1) + 1)
      with (Z.of_nat (String.length (s1 +:+ String c ""))).
    + apply IH. by rewrite E, app_assoc, app_cons, app_nil_l.
    + rewrite string_length_app. cbn [String.length]. lia.
Qed.

Lemma fraction_digits_zeros (ds : decimalSlice) (z n : nat) :
  fraction_digits ds (- Z.of_nat z) (z + n) = zeros z +:+ fraction_digits ds 0 n.
Proof.
  induction z as [|z IH]; [by rewrite app_nil_l|].
  cbn [Nat.add fraction_digits zeros]. rewrite app_cons. f_equal.
  replace (- Z.of_nat (S z) + 1) with (- Z.of_nat z) by lia. exact IH.
Qed.

Lemma dec_value_from_nonneg (acc : Z) (s : string) :
  0 <= acc -> all_digits s = true -> 0 <= dec_value_from acc s.
Proof.
  revert acc. induction s as [|c s IH]; intros a Ha Hd; [exact Ha|].
  cbn [all_digits dec_value_from] in *. apply andb_prop in Hd as [Hc Hd].
  apply IH; [|exact Hd]. unfold is_digit in Hc. lia.
Qed.

Lemma dec_value_nonneg (s : string) : all_digits s = true -> 0 <= dec_value s.
Proof. by apply dec_value_from_nonneg. Qed.

Lemma eqb_nonempty (s : string) : s <> "" -> String.eqb s "" = false.
Proof. intros H. by apply String.eqb_neq. Qed.

Lemma length_pos (s : string) : s <> "" -> (0 < String.length s)%nat.
Proof. destruct s; [done|cbn; lia]. Qed.

Lemma round_decimal_scaled (neg : bool) (q k : Z) :
  0 <= k -> round_decimal neg (q * 10 ^ k) 0 = round_decimal neg q k.
Proof.
  intros Hk. unfold round_decimal.
  rewrite (Z.max_l k 0), (Z.max_r (- k) 0) by lia.
  change (Z.max 0 0) with 0. change (Z.max (- 0) 0) with 0.
  by rewrite Z.pow_0_r, Z.mul_1_r.
Qed.

(** The [%f] form of the digits [q] with decimal exponent [k] reads
    as [q * 10^k]. *)
Lemma fmtF_read (neg : bool) (q k : Z) :
  0 < q ->
  let ds := {| d := FormatInt q; dp := Z.of_nat (String.length (FormatInt q)) + k |} in
  exists Q K,
    readFloat (fmtF neg ds (Z.max (nd ds - dp ds) 0)) = Some (neg, Q, K)
    /\ round_decimal neg Q K = round_decimal neg q k.
Proof.
  intros Hq. destruct (FormatInt_digits q) as [HD HDne]; [lia|].
  pose proof (FormatInt_value q Hq) as HV. pose proof (length_pos _ HDne) as Hlen.
  revert HD HDne HV Hlen. generalize (FormatInt q) as D. intros D HD HDne HV Hlen ds.
  subst ds. unfold fmtF, nd. cbn [d dp].
  set (len := Z.of_nat (String.length D)).
  assert (Elen : len = Z.of_nat (String.length D)) by reflexivity.
  replace (len - (len + k)) with (- k) by lia.
  destruct (Z.leb_spec 0 k) as [Hk|Hk].
  - (* integer digits followed by zeros *)
    rewrite (Z.min_l len), (Z.max_r (- k) 0) by lia.
    rewrite (proj2 (Z.ltb_lt 0 (len + k))) by lia. change (0 <? 0) with false.
    unfold digits_slice. cbn [d]. replace (Z.to_nat (len - 0)) with (String.length D) by lia.
    change (Z.to_nat 0) with 0%nat. rewrite substring_all.
    replace (len + k - len) with k by lia.
    pose proof (readFloat_literal neg (D +:+ zeros (Z.to_nat k)) "" "" 0) as R.
    rewrite all_digits_app, HD, zeros_digits in R.
    change (String.eqb "" "") with true in R.
    rewrite ?app_assoc, ?app_nil_r, ?app_nil_l in R. rewrite ?app_assoc, ?app_nil_r, ?app_nil_l.
    eexists _, _. split.
    + apply R; [reflexivity| |reflexivity|by left].
      intros E. apply (f_equal String.length) in E. rewrite string_length_app in E. cbn in E. lia.
    + rewrite dec_value_app, zeros_length, zeros_value, HV, Z2Nat.id, Z.add_0_r by lia.
      change (0 - Z.of_nat (String.length "")) with 0. by apply round_decimal_scaled.
  - rewrite (Z.max_l (- k) 0), (proj2 (Z.ltb_lt 0 (- k))) by lia.
    destruct (Z.ltb_spec 0 (len + k)) as [Hdp|Hdp].
    + (* the point falls inside the digits *)
      rewrite (Z.min_r len) by lia.
      destruct (split_at D (Z.to_nat (len + k))) as (s1 & s2 & -> & Hs1); [lia|].
      rewrite string_length_app in Elen.
      rewrite all_digits_app in HD. apply andb_prop in HD as [H1 H2].
      unfold digits_slice. cbn [d]. replace (Z.to_nat (len + k - 0)) with (String.length s1) by lia.
      change (Z.to_nat 0) with 0%nat. rewrite substring_prefix.
      replace (len + k - (len + k)) with 0 by lia. change (zeros (Z.to_nat 0)) with "".
      replace (len + k) with (Z.of_nat (String.length s1)) by lia.
      replace (Z.to_nat (- k)) with (String.length s2) by lia.
      rewrite (fraction_digits_suffix _ s1 s2) by reflexivity.
      assert (Hn2 : s2 <> "").
      { intros ->. cbn in Elen. lia. }
      assert (Hn1 : s1 <> "").
      { intros ->. cbn in Hs1. lia. }
      pose proof (readFloat_literal neg s1 s2 "" 0 H1 Hn1 H2) as R.
      rewrite (eqb_nonempty s2 Hn2) in R.
      rewrite ?app_assoc, ?app_nil_r, ?app_nil_l in R. rewrite ?app_assoc, ?app_nil_r, ?app_nil_l.
      eexists _, _. split; [apply R; by left|].
      rewrite HV. f_equal. lia.
    + (* the digits follow zeros after the point *)
      replace (len + k) with (- Z.of_nat (Z.to_nat (- (len + k)))) by lia.
      replace (Z.to_nat (- k)) with (Z.to_nat (- (len + k)) + String.length D)%nat by lia.
      rewrite fraction_digits_zeros.
      rewrite (fraction_digits_suffix _ "" D) by reflexivity.
      set (z := Z.to_nat (- (len + k))).
      assert (Hfp : all_digits (zeros z +:+ D) = true) by (by rewrite all_digits_app, zeros_digits, HD).
      assert (Hnf : zeros z +:+ D <> "").
      { intros E. apply (f_equal String.length) in E. rewrite string_length_app in E. cbn in E. lia. }
      pose proof (readFloat_literal neg "0" (zeros z +:+ D) "" 0 eq_refl ltac:(discriminate) Hfp) as R.
      rewrite (eqb_nonempty _ Hnf) in R.
      rewrite ?app_assoc, ?app_nil_r, ?app_nil_l in R. rewrite ?app_assoc, ?app_nil_r, ?app_nil_l.
      eexists _, _. split; [apply R; by left|].
      rewrite !dec_value_app, zeros_value, HV, string_length_app, zeros_length.
      change (dec_value "0") with 0. f_equal; lia.
Qed.
End Digits.

(** ** The exponent form of a number literal *)

Section Exponent.
Import GoStrconv GoJson.
#[local] Open Scope Z_scope.

Lemma to_uint_head (p : positive) (u : Decimal.uint) : Pos.to_uint p <> Decimal.D0 u.
Proof.
  intros E. pose proof (DecimalPos.Unsigned.to_of (Pos.to_uint p)) as H.
  rewrite DecimalPos.Unsigned.of_to in H. cbn [N.to_uint] in H.
  unfold Decimal.unorm in H. rewrite E in H.
  destruct (Decimal.nzhead (Decimal.D0 u)) eqn:N;
    try (by apply (DecimalFacts.nzhead_nonzero (Decimal.D0 u) u); rewrite N, H).
  apply (DecimalPos.Unsigned.to_uint_nonzero p). by rewrite E, H.
Qed.

Lemma FormatInt_head (p : positive) (r : string) :
  FormatInt (Zpos p) <> String zero_digit r.
Proof.
  rewrite FormatInt_pos. pose proof (to_uint_head p) as H.
  destruct (Pos.to_uint p); cbn [NilEmpty.string_of_uint]; try discriminate.
  by destruct (H u).
Qed.

Lemma FormatInt_value0 (n : Z) : 0 <= n -> dec_value (FormatInt n) = n.
Proof.
  intros Hn. destruct (Z.eq_dec n 0) as [->|]; [reflexivity|].
  apply FormatInt_value. lia.
Qed.

Lemma digit_byte (c : ascii) : is_digit c = true -> byte_val c = 48 -> c = zero_digit.
Proof.
  intros _. destruct c as [[] [] [] [] [] [] [] []]; vm_compute; try discriminate.
  reflexivity.
Qed.

(** A number below ten is written with one digit; a larger one with
    two digits at least, the first of which is not a zero. *)
Lemma FormatInt_shape (n : Z) :
  0 <= n ->
  n < 10 /\ (exists c, FormatInt n = String c "")
  \/ 10 <= n /\ (exists c1 c2 r, FormatInt n = String c1 (String c2 r)
                               /\ c1 <> zero_digit).
Proof.
  intros Hn. destruct (Z.eq_dec n 0) as [->|Hn0].
  { left. split; [lia|by exists zero_digit]. }
  destruct (FormatInt_digits n Hn) as [HD HDne].
  pose proof (FormatInt_value0 n Hn) as HV.
  assert (Hh : forall r, FormatInt n <> String zero_digit r).
  { destruct n as [|p|p]; try lia. apply FormatInt_head. }
  revert HD HDne HV Hh. generalize (FormatInt n) as D.
  intros [|c1 [|c2 r]] HD HDne HV Hh; [done|left|right].
  - cbn in HD, HV. unfold is_digit in HD. split; [lia|by exists c1].
  - assert (H1 : is_digit c1 = true) by (cbn in HD; by apply andb_prop in HD as [? _]).
    assert (Hr : is_digit c2 = true /\ all_digits r = true).
    { cbn [all_digits] in HD. apply andb_prop in HD as [_ HD].
      by apply andb_prop in HD. }
    destruct Hr as [H2 Hr].
    unfold dec_value in HV. cbn [dec_value_from] in HV.
    rewrite dec_value_from_acc in HV. pose proof (dec_value_nonneg _ Hr) as Hnn.
    assert (Hp : 0 < 10 ^ Z.of_nat (String.length r)) by (apply Z.pow_pos_nonneg; lia).
    assert (Hc : c1 <> zero_digit).
    { intros ->. by apply (Hh (String c2 r)). }
    assert (Hb : byte_val c1 <> 48) by (intros E; by apply Hc, digit_byte).
    unfold is_digit in H1, H2. split; [nia|]. by exists c1, c2, r.
Qed.

Lemma list_ascii_app (a b : string) :
  list_ascii_of_string (a +:+ b)
  = (list_ascii_of_string a ++ list_ascii_of_string b)%list.
Proof. induction a as [|c a IH]; [reflexivity|]. rewrite app_cons. cbn. by rewrite IH. Qed.

Lemma string_of_list_app (a b : list ascii) :
  string_of_list_ascii (a ++ b)%list
  = string_of_list_ascii a +:+ string_of_list_ascii b.
Proof. induction a as [|c a IH]; [reflexivity|]. cbn. by rewrite IH, app_cons. Qed.

Lemma clean_last4 (pre : string) (c4 c3 c2 c1 : ascii) :
  clean_exponent (pre +:+ String c4 (String c3 (String c2 (String c1 ""))))
  = if Ascii.eqb c4 "e"%char
       && (Ascii.eqb c3 "-"%char || Ascii.eqb c3 "+"%char)
       && Ascii.eqb c2 "0"%char
    then pre +:+ String c4 (String c3 (String c1 ""))
    else pre +:+ String c4 (String c3 (String c2 (String c1 ""))).
Proof.
  unfold clean_exponent. rewrite list_ascii_app. cbn [list_ascii_of_string].
  rewrite rev_app_distr. cbn [rev app].
  destruct (_ && _ && _); [|reflexivity].
  rewrite rev_involutive, <- !List.app_assoc. cbn [app].
  by rewrite string_of_list_app, string_of_list_ascii_of_string.
Qed.

Lemma last4 (s : string) :
  (4 <= String.length s)%nat ->
  exists front a b c e, s = front +:+ String a (String b (String c (String e ""))).
Proof.
  induction s as [|x s IH]; cbn [String.length]; [lia|]. intros H.
  destruct (Nat.eq_dec (String.length s) 3%nat) as [E|E].
  - destruct s as [|b [|c [|e [|? ?]]]]; try discriminate. by exists "", x, b, c, e.
  - destruct IH as (front & a & b & c & e & ->); [lia|].
    exists (String x front), a, b, c, e. by rewrite app_cons.
Qed.

Lemma digit_not_e (c : ascii) : is_digit c = true -> Ascii.eqb c "e"%char = false.
Proof.
  intros H. destruct (Ascii.eqb_spec c "e"%char) as [->|]; [discriminate|reflexivity].
Qed.

(** [clean_exponent] leaves the exponent with the digits of
    [FormatInt]. *)
Lemma clean_exponent_exp (pre : string) (eneg : bool) (n : Z) :
  0 <= n ->
  clean_exponent (pre +:+ "e" +:+ (if eneg then "-" else "+") +:+ exponent_digits n)
  = pre +:+ "e" +:+ (if eneg then "-" else "+") +:+ FormatInt n.
Proof.
  intros Hn. unfold exponent_digits.
  destruct (FormatInt_digits n Hn) as [HD _].
  destruct (FormatInt_shape n Hn) as [[Hlt [c E]]|[Hge (c1 & c2 & r & E & Hc1)]].
  - rewrite (proj2 (Z.ltb_lt n 10)) by lia. rewrite E.
    destruct eneg; rewrite !app_cons, !app_nil_l; by rewrite clean_last4.
  - rewrite (proj2 (Z.ltb_ge n 10)) by lia. rewrite E in *.
    destruct r as [|c3 r].
    + assert (H0 : Ascii.eqb c1 "0"%char = false) by (by apply Ascii.eqb_neq).
      destruct eneg; rewrite !app_cons, !app_nil_l; rewrite clean_last4;
        cbn [Ascii.eqb Bool.eqb andb orb]; by rewrite H0.
    + destruct r as [|c4 r].
      * assert (G : forall sg : ascii, Ascii.eqb sg "e"%char = false ->
            clean_exponent (pre +:+ "e" +:+ String sg "" +:+ String c1 (String c2 (String c3 "")))
            = pre +:+ "e" +:+ String sg "" +:+ String c1 (String c2 (String c3 ""))).
        { intros sg Hsg. rewrite <- (app_assoc pre "e"), (app_cons sg), app_nil_l.
          by rewrite clean_last4, Hsg. }
        destruct eneg; by apply G.
      * destruct (last4 (String c1 (String c2 (String c3 (String c4 r)))))
          as (front & a & b & c & e & Efr); [cbn; lia|].
        rewrite Efr in *. rewrite all_digits_app in HD. apply andb_prop in HD as [_ Ha].
        cbn [all_digits] in Ha. apply andb_prop in Ha as [Ha _].
        rewrite <- !app_assoc. by rewrite clean_last4, (digit_not_e a Ha).
Qed.

(** The [%e] form, cleaned, reads as [q * 10^k]. *)
Lemma fmtE_read (neg : bool) (q k : Z) :
  0 < q ->
  let ds := {| d := FormatInt q; dp := Z.of_nat (String.length (FormatInt q)) + k |} in
  exists Q K,
    readFloat (clean_exponent (fmtE neg ds (Z.max (nd ds - 1) 0))) = Some (neg, Q, K)
    /\ round_decimal neg Q K = round_decimal neg q k.
Proof.
  intros Hq. destruct (FormatInt_digits q) as [HD HDne]; [lia|].
  pose proof (FormatInt_value q Hq) as HV.
  revert HD HDne HV. generalize (FormatInt q) as D. intros [|c0 r] HD HDne HV ds; [done|].
  subst ds. unfold fmtE, nd. cbn [d dp String.length].
  set (len := Z.of_nat (String.length r)).
  assert (Elen : len = Z.of_nat (String.length r)) by reflexivity.
  replace (Z.of_nat (S (String.length r))) with (len + 1) by lia.
  rewrite (proj2 (Z.eqb_neq (len + 1) 0)) by lia.
  replace (Z.max (len + 1 - 1) 0) with len by lia.
  rewrite (Z.min_l (len + 1)) by lia.
  replace (len + 1 + k - 1) with (len + k) by lia.
  set (exp := len + k).
  assert (Hch : digit_at {| d := String c0 r; dp := len + 1 + k |} 0 = c0).
  { unfold digit_at, nd. cbn [d String.length]. rewrite Nat2Z.inj_succ, <- Elen.
    by rewrite (proj2 (Z.ltb_lt 0 (Z.succ len))) by lia. }
  rewrite Hch.
  assert (Hmore :
    (if 0 <? len
     then "." +:+ (if 1 <? len + 1
                   then digits_slice {| d := String c0 r; dp := len + 1 + k |} 1 (len + 1)
                   else "")
          +:+ zeros (Z.to_nat (len + 1 - Z.max 1 (len + 1)))
     else "") = if String.eqb r "" then "" else "." +:+ r).
  { destruct r as [|c1 r]; [reflexivity|]. cbn [String.eqb].
    rewrite (proj2 (Z.ltb_lt 0 len)), (proj2 (Z.ltb_lt 1 (len + 1))) by (cbn in Elen; lia).
    unfold digits_slice. cbn [d]. change (Z.to_nat 1) with 1%nat.
    replace (Z.to_nat (len + 1 - 1)) with (String.length (String c1 r)) by lia.
    change (String.substring 1 (String.length (String c1 r)) (String c0 (String c1 r)))
      with (String.substring 0 (String.length (String c1 r)) (String c1 r)).
    rewrite substring_all. replace (len + 1 - Z.max 1 (len + 1)) with 0 by lia.
    change (zeros (Z.to_nat 0)) with "". by rewrite app_nil_r. }
  rewrite Hmore.
  rewrite <- (app_assoc (String c0 "")), <- (app_assoc (sign_prefix neg)).
  rewrite clean_exponent_exp by lia.
  destruct (FormatInt_digits (Z.abs exp)) as [HE HEne]; [lia|].
  assert (Hr : all_digits r = true) by (cbn [all_digits] in HD; by apply andb_prop in HD as [_ ?]).
  pose proof (readFloat_literal neg (String c0 "") r
                ("e" +:+ (if exp <? 0 then "-" else "+") +:+ FormatInt (Z.abs exp)) exp) as R.
  rewrite ?app_assoc. rewrite ?app_assoc in R.
  eexists _, _. split.
  - apply R; [cbn [all_digits] in *; by destruct (is_digit c0)|discriminate|exact Hr|].
    right. exists (exp <? 0), (FormatInt (Z.abs exp)).
    split; [reflexivity|]. split; [exact HE|]. split; [exact HEne|].
    rewrite FormatInt_value0 by lia. destruct (Z.ltb_spec exp 0); lia.
  - rewrite app_cons, app_nil_l, HV. f_equal. lia.
Qed.
End Exponent.

(** ** Reading back the shortest digits of a [float64] *)

Section ReadFloat.
Import GoStrconv.
#[local] Open Scope Z_scope.

Lemma digits2_pos_log2 (m : positive) :
  Zpos (digits2_pos m) = Z.log2 (Zpos m) + 1.
Proof.
  assert (H : forall p, digits2_pos p = Pos.size p).
  { induction p; cbn; congruence. }
  rewrite H. destruct m; cbn; lia.
Qed.

(** What [valid_binary] says of a finite [float64]. *)
Lemma bounded_facts (m : positive) (e : Z) :
  bounded 53 1024 m e = true ->
  Zpos m < 2 ^ 53 /\ -1074 <= e <= 971 /\ (2 ^ 52 <= Zpos m \/ e = -1074).
Proof.
  unfold bounded, canonical_mantissa, fexp, emin.
  intros [Hc He]%andb_prop. apply Z.eqb_eq in Hc. apply Z.leb_le in He.
  rewrite digits2_pos_log2 in Hc.
  pose proof (Z.log2_spec (Zpos m) ltac:(lia)) as [Hlo Hhi].
  pose proof (Z.log2_nonneg (Zpos m)) as Hnn.
  assert (Hl : Z.log2 (Zpos m) <= 52) by lia.
  split; [|split; [lia|]].
  - eapply Z.lt_le_trans; [exact Hhi|]. apply Z.pow_le_mono_r; lia.
  - destruct (Z.eq_dec e (-1074)) as [->|Hne]; [by right|left].
    assert (Z.log2 (Zpos m) = 52) as <- by lia. exact Hlo.
Qed.

Lemma log2_ratio (x y a : Z) :
  0 < y -> 0 <= a -> 2 ^ a * y <= x < 2 ^ (a + 1) * y -> Z.log2 (x / y) = a.
Proof.
  intros Hy Ha [Hlo Hhi]. apply Z.log2_unique; [lia|]. split.
  - apply Z.div_le_lower_bound; lia.
  - apply Z.div_lt_upper_bound; lia.
Qed.

Lemma log2_ratio_le (x y a : Z) :
  0 < y -> 0 <= a -> y <= x < 2 ^ (a + 1) * y -> Z.log2 (x / y) <= a.
Proof.
  intros Hy Ha [Hlo Hhi].
  assert (H1 : 1 <= x / y) by (apply Z.div_le_lower_bound; lia).
  assert (H2 : x / y < 2 ^ (a + 1)) by (apply Z.div_lt_upper_bound; lia).
  apply Z.log2_lt_pow2 in H2; lia.
Qed.

(** Rounding to nearest, ties to even, between two consecutive
    multiples. *)
Lemma div_nearest_even_down (x d n : Z) :
  0 < d -> n * d <= x -> (2 * x < (2 * n + 1) * d \/ Z.even n = true /\ 2 * x = (2 * n + 1) * d) ->
  div_nearest_even x d = n.
Proof.
  intros Hd Hlo Hhi. unfold div_nearest_even.
  assert (Hq : x / d = n).
  { symmetry. apply (Z.div_unique_pos x d n (x - n * d)); lia. }
  assert (Hr : x mod d = x - n * d).
  { rewrite Z.mod_eq by lia. rewrite Hq. lia. }
  rewrite Hq, Hr. destruct Hhi as [Hhi|[He Hhi]].
  - replace (2 * (x - n * d) ?= d) with Lt; [reflexivity|].
    symmetry. apply Z.compare_lt_iff. lia.
  - replace (2 * (x - n * d) ?= d) with Eq; [by rewrite He|].
    symmetry. apply Z.compare_eq_iff. lia.
Qed.

Lemma div_nearest_even_up (x d n : Z) :
  0 < d -> x < n * d -> ((2 * n - 1) * d < 2 * x \/ Z.even n = true /\ (2 * n - 1) * d = 2 * x) ->
  div_nearest_even x d = n.
Proof.
  intros Hd Hhi Hlo. unfold div_nearest_even.
  assert (Hx : (n - 1) * d <= x) by (destruct Hlo as [?|[_ ?]]; nia).
  assert (Hq : x / d = n - 1).
  { symmetry. apply (Z.div_unique_pos x d (n - 1) (x - (n - 1) * d)); lia. }
  assert (Hr : x mod d = x - (n - 1) * d).
  { rewrite Z.mod_eq by lia. rewrite Hq. lia. }
  rewrite Hq, Hr. destruct Hlo as [Hlo|[He Hlo]].
  - replace (2 * (x - (n - 1) * d) ?= d) with Gt; [lia|].
    symmetry. apply Z.compare_gt_iff. lia.
  - replace (2 * (x - (n - 1) * d) ?= d) with Eq.
    + replace (Z.even (n - 1)) with false; [lia|].
      rewrite Z.even_sub, He. reflexivity.
    + symmetry. apply Z.compare_eq_iff. lia.
Qed.

(** The nearest integer when [x / d] lies within one half of [n]. *)
Lemma div_nearest_even_near (x d n : Z) :
  0 < d ->
  ((2 * n - 1) * d < 2 * x \/ Z.even n = true /\ (2 * n - 1) * d = 2 * x) ->
  (2 * x < (2 * n + 1) * d \/ Z.even n = true /\ 2 * x = (2 * n + 1) * d) ->
  div_nearest_even x d = n.
Proof.
  intros Hd Hlo Hhi. destruct (Z.lt_ge_cases x (n * d)) as [H|H].
  - by apply div_nearest_even_up.
  - by apply div_nearest_even_down.
Qed.

(** The heart of the matter: a ratio [x / y] that lies between the
    half-way points around the float [m * 2^e] (scaled by [2^1100]; the
    lower one is nearer when [m] is a power of two) is rounded to that
    float.  [t] is a quarter of the unit in the last place. *)
Ltac pow2_consts :=
  change (2 ^ 52) with 4503599627370496 in *;
  change (2 ^ 53) with 9007199254740992 in *;
  change (2 ^ 54) with 18014398509481984 in *;
  change (2 ^ 55) with 36028797018963968 in *.

Ltac plia := pow2_consts; lia.
Ltac pnia := pow2_consts; nia.

Lemma round_ratio_interval (neg : bool) (m : positive) (e x y lo : Z) :
  bounded 53 1024 m e = true -> 0 < y ->
  let t := 2 ^ (e + 1098) * y in
  (lo = 4 * Zpos m - 2 /\ (Zpos m <> 2 ^ 52 \/ e = -1074)
   \/ lo = 4 * Zpos m - 1 /\ Zpos m = 2 ^ 52 /\ -1074 < e) ->
  (lo * t < x \/ Z.even (Zpos m) = true /\ lo * t = x) ->
  (x < (4 * Zpos m + 2) * t \/ Z.even (Zpos m) = true /\ x = (4 * Zpos m + 2) * t) ->
  round_ratio neg x y = Some (S754_finite neg m e).
Proof.
  intros Hb Hy t Hlo Hx1 Hx2.
  destruct (bounded_facts m e Hb) as (Hm & He & Hn).
  assert (Hu : 0 < 2 ^ (e + 1098)) by (apply Z.pow_pos_nonneg; plia).
  pow2_consts.
  assert (Ht : y <= t) by (unfold t; pnia).
  assert (H4 : y * 2 ^ (e + 1100) = 4 * t).
  { unfold t. replace (e + 1100) with (2 + (e + 1098)) by plia.
    rewrite Z.pow_add_r by plia. change (2 ^ 2) with 4. ring. }
  assert (H54 : 2 ^ (e + 1152) * y = 2 ^ 54 * t).
  { unfold t. replace (e + 1152) with (54 + (e + 1098)) by plia.
    rewrite Z.pow_add_r by plia. ring. }
  assert (H55 : 2 ^ (e + 1153) * y = 2 ^ 55 * t).
  { unfold t. replace (e + 1153) with (55 + (e + 1098)) by plia.
    rewrite Z.pow_add_r by plia. ring. }
  assert (Hlo2 : 4 * Zpos m - 2 <= lo <= 4 * Zpos m - 1) by (destruct Hlo as [[-> _]|[-> _]]; plia).
  assert (Hlt : (4 * Zpos m - 2) * t <= lo * t) by (apply Z.mul_le_mono_nonneg_r; plia).
  assert (Hlx : lo * t <= x) by (destruct Hx1 as [?|[_ ?]]; plia).
  assert (Hxy : y <= x) by pnia.
  unfold round_ratio. replace (x <? y) with false by (symmetry; apply Z.ltb_ge; plia).
  assert (Hut : (4 * Zpos m + 2) * t <= (2 ^ 55 - 2) * t)
    by (apply Z.mul_le_mono_nonneg_r; plia).
  assert (Hup : x < 2 ^ 55 * t) by (destruct Hx2 as [?|[_ ?]]; plia).
  assert (Hnear : (Zpos m <> 2 ^ 52 \/ e = -1074 \/ 2 ^ 54 * t <= x) ->
                  div_nearest_even x (4 * t) = Zpos m).
  { intros Hc. apply div_nearest_even_near; [plia| |].
    - destruct Hlo as [[-> _]|[-> [? ?]]].
      + destruct Hx1 as [?|[? ?]]; [left; plia|right; split; [assumption|plia]].
      + left. plia.
    - destruct Hx2 as [?|[? ?]]; [left; plia|right; split; [assumption|plia]]. }
  assert (Hfin : forall l,
             Z.max (l - 52) minexp = e ->
             (Zpos m <> 2 ^ 52 \/ e = -1074 \/ 2 ^ 54 * t <= x) ->
             (let e0 := Z.max (l - 52) minexp in
              let m0 := div_nearest_even x (y * 2 ^ (e0 + 1100)) in
              let '(m1, e1) := if m0 =? 2 ^ 53 then (2 ^ 52, e0 + 1) else (m0, e0) in
              if 971 <? e1 then None
              else match m1 with
                   | Zpos p => Some (S754_finite neg p e1)
                   | _ => Some (S754_zero neg)
                   end) = Some (S754_finite neg m e)).
  { intros l Hl Hc. cbv zeta. rewrite Hl, H4, (Hnear Hc).
    replace (Zpos m =? 2 ^ 53) with false by (symmetry; apply Z.eqb_neq; plia).
    replace (971 <? e) with false by (symmetry; apply Z.ltb_ge; plia).
    reflexivity. }
  destruct (Z.lt_ge_cases x (2 ^ 54 * t)) as [Hsmall|Hbig].
  - (* below the smallest normal mantissa at this exponent *)
    assert (Hl : Z.log2 (x / y) <= e + 1151).
    { apply log2_ratio_le; [plia|plia|]. split; [plia|].
      replace (e + 1151 + 1) with (e + 1152) by plia. plia. }
    destruct (Z.eq_dec e (-1074)) as [He0|He0].
    { apply Hfin; [unfold minexp; plia|auto]. }
    destruct (Z.eq_dec (Zpos m) (2 ^ 52)) as [Hm52|Hm52].
    2:{ exfalso. destruct Hn as [Hn|?]; [|plia]. pnia. }
    (* [m] is [2^52] and the ratio is in the binade below *)
    destruct Hlo as [[_ [?|?]]|[-> _]]; [plia|plia|].
    assert (Hl1 : Z.log2 (x / y) = e + 1151).
    { apply log2_ratio; [plia|plia|]. replace (e + 1151 + 1) with (e + 1152) by plia.
      split; [|plia].
      assert (2 ^ (e + 1151) * y = 2 ^ 53 * t) as ->; [|pnia].
      unfold t. replace (e + 1151) with (53 + (e + 1098)) by plia.
      rewrite Z.pow_add_r by plia. ring. }
    cbv zeta. rewrite Hl1.
    replace (Z.max (e + 1151 - 1100 - 52) minexp) with (e - 1) by (unfold minexp; plia).
    assert (H2 : y * 2 ^ (e - 1 + 1100) = 2 * t).
    { unfold t. replace (e - 1 + 1100) with (1 + (e + 1098)) by plia.
      rewrite Z.pow_add_r by plia. change (2 ^ 1) with 2. ring. }
    rewrite H2.
    replace (div_nearest_even x (2 * t)) with (2 ^ 53).
    2:{ symmetry. apply div_nearest_even_up; [plia|plia|].
        destruct Hx1 as [?|[_ ?]]; [left; plia|right; split; [reflexivity|plia]]. }
    rewrite Z.eqb_refl.
    replace (971 <? e - 1 + 1) with false by (symmetry; apply Z.ltb_ge; plia).
    replace (e - 1 + 1) with e by plia.
    assert (2 ^ 52 = Zpos m) as Hp by plia. rewrite Hp. reflexivity.
  - (* a normal mantissa at this exponent *)
    apply Hfin; [|auto].
    replace (Z.log2 (x / y)) with (e + 1152); [unfold minexp; plia|].
    symmetry. apply log2_ratio; [plia|plia|].
    replace (e + 1152 + 1) with (e + 1153) by plia. plia.
Qed.

(** *** The shortest digits lie within the rounding interval *)

Lemma interval_of_facts (m : positive) (e : Z) :
  -1074 <= e ->
  let iv := interval_of m e in
  0 < den iv /\ 0 < lower iv /\ lower iv < num iv < upper iv.
Proof.
  intros He iv. unfold iv, interval_of. cbn [den lower num upper].
  assert (H52 : 0 < 2 ^ mantbits) by (unfold mantbits; lia).
  destruct (2 <=? e) eqn:E.
  - apply Z.leb_le in E. assert (0 < 2 ^ (e - 2)) by (apply Z.pow_pos_nonneg; lia).
    destruct ((Zpos m =? 2 ^ mantbits) && (minexp <? e)); nia.
  - assert (0 < 2 ^ (2 - e)) by (apply Z.pow_pos_nonneg; lia).
    destruct ((Zpos m =? 2 ^ mantbits) && (minexp <? e)); lia.
Qed.

Lemma pow10_pos (n : Z) : 0 < 10 ^ Z.max n 0.
Proof. apply Z.pow_pos_nonneg; lia. Qed.

Lemma try_position_within (iv : interval) (k q k' : Z) :
  0 < den iv -> lower iv < num iv < upper iv ->
  try_position iv k = Some (q, k') -> k' = k /\ within iv q k.
Proof.
  intros Hden Hnum. unfold try_position, within. cbv zeta.
  set (s0 := if k <? 0 then 10 ^ (- k) else 1).
  set (w0 := if k <? 0 then den iv else 10 ^ k * den iv).
  assert (Hs : s0 = 10 ^ Z.max (- k) 0).
  { unfold s0. destruct (Z.ltb_spec k 0).
    - by rewrite Z.max_l by lia.
    - by rewrite Z.max_r by lia. }
  assert (Hw : w0 = 10 ^ Z.max k 0 * den iv).
  { unfold w0. destruct (Z.ltb_spec k 0).
    - rewrite Z.max_r by lia. lia.
    - by rewrite Z.max_l by lia. }
  pose proof (pow10_pos (- k)) as Hsp. pose proof (pow10_pos k) as Hwp.
  rewrite <- Hs in *. clearbody s0.
  assert (Hw0 : 0 < w0) by (rewrite Hw; nia).
  set (q0 := num iv * s0 / w0).
  assert (Hq0 : q0 * w0 <= num iv * s0 < (q0 + 1) * w0).
  { unfold q0. pose proof (Z.mul_div_le (num iv * s0) w0 Hw0).
    pose proof (Z.mul_succ_div_gt (num iv * s0) w0 Hw0). lia. }
  clearbody q0.
  assert (Hdown : q0 * w0 < upper iv * s0) by nia.
  assert (Hup : lower iv * s0 < (q0 + 1) * w0) by nia.
  assert (Hwq : forall q, q * 10 ^ Z.max k 0 * den iv = q * w0) by (intros; rewrite Hw; ring).
  rewrite !Hwq.
  set (okdown := (lower iv * s0 <? q0 * w0) || inclusive iv && (lower iv * s0 =? q0 * w0)).
  set (okup := ((q0 + 1) * w0 <? upper iv * s0) || inclusive iv && ((q0 + 1) * w0 =? upper iv * s0)).
  assert (Hokdown : okdown = true ->
            lower iv * s0 < q0 * w0 \/ inclusive iv = true /\ lower iv * s0 = q0 * w0).
  { unfold okdown. intros [H|[H1 H2]%andb_prop]%orb_prop; [left; lia|right].
    split; [done|lia]. }
  assert (Hokup : okup = true ->
            (q0 + 1) * w0 < upper iv * s0
            \/ inclusive iv = true /\ (q0 + 1) * w0 = upper iv * s0).
  { unfold okup. intros [H|[H1 H2]%andb_prop]%orb_prop; [left; lia|right].
    split; [done|lia]. }
  clearbody okdown okup.
  assert (Hd : okdown = true -> k = k /\
            (lower iv * s0 < q0 * w0 \/ inclusive iv = true /\ lower iv * s0 = q0 * w0)
            /\ (q0 * w0 < upper iv * s0 \/ inclusive iv = true /\ q0 * w0 = upper iv * s0)).
  { intros H. split; [done|]. split; [by apply Hokdown|by left]. }
  assert (Hu : okup = true -> k = k /\
            (lower iv * s0 < (q0 + 1) * w0
             \/ inclusive iv = true /\ lower iv * s0 = (q0 + 1) * w0)
            /\ ((q0 + 1) * w0 < upper iv * s0
                \/ inclusive iv = true /\ (q0 + 1) * w0 = upper iv * s0)).
  { intros H. split; [done|]. split; [by left|by apply Hokup]. }
  destruct okdown, okup; cbn [andb].
  - destruct (2 * num iv * s0 ?= (2 * q0 + 1) * w0); [destruct (Z.odd q0)|..];
      intros [= <- <-]; auto.
  - intros [= <- <-]; auto.
  - intros [= <- <-]; auto.
  - discriminate.
Qed.

Lemma walk_within (fuel : nat) (iv : interval) (k q k' : Z) :
  0 < den iv -> lower iv < num iv < upper iv ->
  walk fuel iv k = Some (q, k') -> within iv q k'.
Proof.
  intros Hden Hnum. revert k. induction fuel as [|n IH]; intros k; [discriminate|].
  cbn [walk]. destruct (try_position iv k) as [[q1 k1]|] eqn:E.
  - intros [= -> ->]. by destruct (try_position_within iv k q k' Hden Hnum E) as [-> ?].
  - apply IH.
Qed.

Lemma exact_decimal_within (m : positive) (e q k : Z) :
  -1074 <= e -> exact_decimal m e = (q, k) -> within (interval_of m e) q k.
Proof.
  intros He Hx. destruct (interval_of_facts m e He) as (Hden & Hlow & Hnum).
  assert (Heq : q * 10 ^ Z.max k 0 * den (interval_of m e)
                = num (interval_of m e) * 10 ^ Z.max (- k) 0).
  { unfold exact_decimal in Hx. unfold interval_of. cbn [den num].
    destruct (Z.leb_spec 0 e) as [H0|H0]; injection Hx as <- <-.
    - rewrite Z.max_l, Z.max_l by lia. change (- 0) with 0. rewrite !Z.pow_0_r, !Z.mul_1_r.
      destruct (Z.leb_spec 2 e).
      + replace e with (2 + (e - 2)) at 1 by lia. rewrite Z.pow_add_r by lia.
        change (2 ^ 2) with 4. ring.
      + assert (e = 0 \/ e = 1) as [->| ->] by lia; cbn; lia.
    - rewrite Z.max_r, Z.max_l by lia. rewrite Z.pow_0_r.
      replace (2 <=? e) with false by (symmetry; apply Z.leb_gt; lia).
      replace (2 - e) with (2 + (- e)) by lia. rewrite Z.pow_add_r by lia.
      change 10 with (5 * 2) at 1. rewrite Z.pow_mul_l. change (2 ^ 2) with 4. ring. }
  pose proof (pow10_pos (- k)) as Hs.
  unfold within. cbv zeta. rewrite Heq. split; left; nia.
Qed.

Lemma within_trim_step (iv : interval) (q k : Z) :
  q mod 10 = 0 -> within iv q k -> within iv (q / 10) (k + 1).
Proof.
  intros Hmod. assert (Hq : q = 10 * (q / 10)).
  { pose proof (Z.div_mod q 10 ltac:(lia)) as H. lia. }
  set (q1 := q / 10) in *. clearbody q1. subst q. unfold within. cbv zeta.
  destruct (Z.lt_ge_cases k 0) as [Hk|Hk].
  - rewrite (Z.max_r (k + 1) 0), (Z.max_r k 0) by lia.
    rewrite (Z.max_l (- k) 0) by lia. rewrite (Z.max_l (- (k + 1)) 0) by lia.
    replace (- k) with (1 + - (k + 1)) by lia.
    rewrite Z.pow_add_r by lia. change (10 ^ 1) with 10. rewrite Z.pow_0_r.
    set (s := 10 ^ (- (k + 1))). clearbody s.
    intros [[H1|[Hi H1]] [H2|[Hi2 H2]]]; (split; [try (left; lia)|try (left; lia)]);
      right; (split; [assumption|lia]).
  - rewrite (Z.max_l (k + 1) 0), (Z.max_l k 0) by lia.
    rewrite (Z.max_r (- k) 0) by lia. rewrite (Z.max_r (- (k + 1)) 0) by lia.
    rewrite Z.pow_add_r by lia. change (10 ^ 1) with 10. rewrite Z.pow_0_r.
    set (w := 10 ^ k). clearbody w.
    intros [[H1|[Hi H1]] [H2|[Hi2 H2]]]; (split; [try (left; lia)|try (left; lia)]);
      right; (split; [assumption|lia]).
Qed.

Lemma trim_within (fuel : nat) (iv : interval) (q k q' k' : Z) :
  within iv q k -> trim fuel q k = (q', k') -> within iv q' k'.
Proof.
  revert q k. induction fuel as [|n IH]; intros q k Hw; cbn [trim].
  - by intros [= <- <-].
  - destruct (q =? 0); [by intros [= <- <-]|].
    destruct (Z.eqb_spec (q mod 10) 0) as [Hm|_]; [|by intros [= <- <-]].
    apply IH. by apply within_trim_step.
Qed.

(** The shortest digits of a [float64] denote a number within its
    rounding interval. *)
Lemma shortest_within (m : positive) (e q k : Z) :
  -1074 <= e -> shortest m e = (q, k) -> within (interval_of m e) q k /\ 0 < q.
Proof.
  intros He. unfold shortest. cbv zeta.
  destruct (interval_of_facts m e He) as (Hden & Hlow & Hnum).
  set (iv := interval_of m e) in *.
  destruct (match walk _ iv _ with Some r => r | None => exact_decimal m e end)
    as [q0 k0] eqn:E.
  assert (Hw0 : within iv q0 k0).
  { destruct (walk _ iv _) as [[q1 k1]|] eqn:Ew.
    - injection E as -> ->. by eapply walk_within.
    - by apply exact_decimal_within. }
  intros Ht. pose proof (trim_within _ iv q0 k0 q k Hw0 Ht) as Hw. split; [exact Hw|].
  destruct Hw as [Hl _]. pose proof (pow10_pos (- k)). pose proof (pow10_pos k).
  destruct Hl as [Hl|[_ Hl]]; nia.
Qed.

Lemma interval_scale (e : Z) :
  -1074 <= e ->
  (if 2 <=? e then 2 ^ (e - 2) else 1) * 2 ^ 1100
  = 2 ^ (e + 1098) * (if 2 <=? e then 1 else 2 ^ (2 - e)).
Proof.
  intros He. destruct (Z.leb_spec 2 e).
  - rewrite <- Z.pow_add_r by lia. replace (e - 2 + 1100) with (e + 1098) by lia. lia.
  - rewrite Z.mul_1_l, <- Z.pow_add_r by lia. f_equal. lia.
Qed.

(** Reading a number within the rounding interval of a float gives
    that float. *)
Lemma round_decimal_within (neg : bool) (m : positive) (e q k : Z) :
  bounded 53 1024 m e = true -> within (interval_of m e) q k ->
  round_decimal neg q k = Some (S754_finite neg m e).
Proof.
  intros Hb [Hl Hu]. destruct (bounded_facts m e Hb) as (Hm & He & Hn).
  pose proof (pow10_pos (- k)) as Hs. pose proof (pow10_pos k) as Hw.
  pose proof (interval_scale e ltac:(lia)) as Hsc.
  assert (Hp : 0 < 2 ^ (e + 1098)) by (apply Z.pow_pos_nonneg; lia).
  unfold round_decimal.
  set (s := 10 ^ Z.max (- k) 0) in *. set (w := 10 ^ Z.max k 0) in *.
  unfold interval_of in Hl, Hu. cbn [lower upper den inclusive] in Hl, Hu.
  set (sc := if 2 <=? e then 2 ^ (e - 2) else 1) in *.
  set (dn := if 2 <=? e then 1 else 2 ^ (2 - e)) in *.
  set (narrow := (Zpos m =? 2 ^ mantbits) && (minexp <? e)) in *.
  set (lo := if narrow then 4 * Zpos m - 1 else 4 * Zpos m - 2) in *.
  assert (Hdn : 0 < dn).
  { unfold dn. destruct (Z.leb_spec 2 e); [lia|apply Z.pow_pos_nonneg; lia]. }
  assert (Hscp : 0 < sc).
  { unfold sc. destruct (Z.leb_spec 2 e); [apply Z.pow_pos_nonneg; lia|lia]. }
  (* both sides of the comparisons are scaled by [2^(e+1098) * dn] *)
  assert (Hkey : forall a, a * sc * s * 2 ^ 1100 = a * (2 ^ (e + 1098) * s) * dn).
  { intros a. transitivity (a * s * (sc * 2 ^ 1100)); [ring|]. rewrite Hsc. ring. }
  assert (Hx : q * w * 2 ^ 1100 * dn = (q * w * dn) * 2 ^ 1100) by ring.
  assert (H1100 : 0 < 2 ^ 1100) by (apply Z.pow_pos_nonneg; lia).
  apply (round_ratio_interval neg m e _ s lo Hb Hs).
  - unfold lo, narrow, mantbits, minexp.
    destruct (Z.eqb_spec (Zpos m) (2 ^ 52)) as [E1|E1];
      destruct (Z.ltb_spec (-1074) e) as [E2|E2]; cbn [andb]; [right|left..];
      repeat split; auto; lia.
  - destruct Hl as [Hl|[Hi Hl]]; [left|right; split; [exact Hi|]].
    + apply (Z.mul_lt_mono_pos_r dn); [exact Hdn|]. rewrite Hx, <- Hkey. nia.
    + apply (Z.mul_cancel_r _ _ dn); [lia|]. rewrite Hx, <- Hkey, <- Hl. ring.
  - destruct Hu as [Hu|[Hi Hu]]; [left|right; split; [exact Hi|]].
    + apply (Z.mul_lt_mono_pos_r dn); [exact Hdn|]. rewrite Hx, <- Hkey. nia.
    + apply (Z.mul_cancel_r _ _ dn); [lia|]. rewrite Hx, <- Hkey, Hu. ring.
Qed.

Lemma round_decimal_shortest (neg : bool) (m : positive) (e q k : Z) :
  bounded 53 1024 m e = true -> shortest m e = (q, k) ->
  round_decimal neg q k = Some (S754_finite neg m e) /\ 0 < q.
Proof.
  intros Hb Hs. destruct (bounded_facts m e Hb) as (_ & He & _).
  destruct (shortest_within m e q k ltac:(lia) Hs) as [Hw Hq].
  split; [by apply round_decimal_within|exact Hq].
Qed.
End ReadFloat.

(** ** Numbers read back *)

Section Numbers.
Import GoStrconv GoJson.
#[local] Open Scope Z_scope.

Lemma ParseFloat_fmtF (s : bool) (m : positive) (e : Z) :
  bounded 53 1024 m e = true ->
  ParseFloat (FormatFloat (S754_finite s m e) FmtF) = Some (S754_finite s m e).
Proof.
  intros Hb. unfold FormatFloat, digits_of. cbn [is_neg].
  destruct (shortest m e) as [q k] eqn:Hs.
  destruct (round_decimal_shortest s m e q k Hb Hs) as [Hr Hq].
  destruct (fmtF_read s q k Hq) as (Q & K & HR & HE).
  unfold ParseFloat. cbv zeta in HR. rewrite HR, HE. exact Hr.
Qed.

Lemma ParseFloat_fmtE (s : bool) (m : positive) (e : Z) :
  bounded 53 1024 m e = true ->
  ParseFloat (clean_exponent (FormatFloat (S754_finite s m e) FmtE))
  = Some (S754_finite s m e).
Proof.
  intros Hb. unfold FormatFloat, digits_of. cbn [is_neg].
  destruct (shortest m e) as [q k] eqn:Hs.
  destruct (round_decimal_shortest s m e q k Hb Hs) as [Hr Hq].
  destruct (fmtE_read s q k Hq) as (Q & K & HR & HE).
  unfold ParseFloat. cbv zeta in HR. rewrite HR, HE. exact Hr.
Qed.

(** A finite number is written as a literal that reads back as the
    same number. *)
Lemma floatEncoder_read (f : spec_float) :
  GoFloat64.valid f = true -> is_finite f = true ->
  exists lit, floatEncoder f = Ok lit /\ ParseFloat lit = Some f.
Proof.
  intros Hv Hf. destruct f as [s|s| |s m e]; try discriminate.
  - exists (FormatFloat (S754_zero s) FmtF). split; [reflexivity|]. by destruct s.
  - unfold floatEncoder.
    destruct (negb _ && _); eexists; (split; [reflexivity|]).
    + by apply ParseFloat_fmtE.
    + by apply ParseFloat_fmtF.
Qed.

Lemma ParseInt_FormatInt (n : Z) :
  0 <= n <= GoFloat64.int64_max -> ParseInt (FormatInt n) = Some n.
Proof.
  intros Hn. unfold ParseInt, FormatInt. rewrite NilZero.isi.
  - rewrite DecimalZ.of_to. unfold GoFloat64.int64_max in Hn.
    by rewrite (proj2 (Z.leb_le (- 2 ^ 63) n)), (proj2 (Z.leb_le n (2 ^ 63 - 1))) by lia.
  - destruct n as [|p|p]; cbn; try discriminate.
    intros [= E]. by apply (DecimalPos.Unsigned.to_uint_nonnil p).
  - destruct n as [|p|p]; cbn; try discriminate. lia.
Qed.
End Numbers.

(** ** Induction on cells *)

Section Cells.
Import GoJson.

Lemma list_sum_elem (x : nat) (l : list nat) : x ∈ l -> (x <= list_sum l)%nat.
Proof. induction 1; simpl in *; lia. Qed.

Lemma map_sum_lookup (m : gmap string nat) (k : string) (n : nat) :
  m !! k = Some n -> (n <= map_fold (fun _ n acc => (n + acc)%nat) 0%nat m)%nat.
Proof.
  revert k n. induction m as [|i x m Hi IH] using map_ind; intros k n Hk.
  - by rewrite lookup_empty in Hk.
  - rewrite map_fold_insert_L; [|intros; lia|exact Hi].
    destruct (decide (k = i)) as [->|Hne].
    + rewrite lookup_insert_eq in Hk. injection Hk as ->. lia.
    + rewrite lookup_insert_ne in Hk by done. specialize (IH k n Hk). lia.
Qed.

Lemma value_ind' (P : value -> Prop) :
  P VNil -> (forall s, P (VString s)) -> (forall f, P (VFloat64 f)) ->
  (forall b, P (VBool b)) ->
  (forall l, Forall P l -> P (VSlice l)) ->
  (forall m, map_Forall (fun _ => P) m -> P (VMap m)) ->
  forall v, P v.
Proof.
  intros Hnil Hstr Hflt Hbool Hsl Hmap v.
  remember (value_size v) as n eqn:Hn. revert v Hn.
  induction (lt_wf n) as [n _ IH]. intros [|s|f|b|l|m] ->; auto.
  - apply Hsl, Forall_forall. intros x Hx. apply (IH (value_size x)); [|reflexivity].
    cbn [value_size]. apply Nat.lt_succ_r, list_sum_elem.
    apply list_elem_of_In, in_map, list_elem_of_In, Hx.
  - apply Hmap. intros k x Hk. apply (IH (value_size x)); [|reflexivity].
    cbn [value_size]. apply Nat.lt_succ_r, (map_sum_lookup _ k).
    by rewrite lookup_fmap, Hk.
Qed.

Lemma foldl_add_entry {A} (l : list (string * A)) :
  foldl add_entry ∅ l = list_to_map (rev l).
Proof.
  induction l as [|x l IH] using rev_ind; [reflexivity|].
  by rewrite foldl_app, rev_app_distr, IH.
Qed.

Lemma foldl_add_entry_sorted {A} (m : gmap string A) (l : list (string * A)) :
  map_to_list m ≡ₚ l -> foldl add_entry ∅ l = m.
Proof.
  intros Hp. rewrite foldl_add_entry.
  rewrite <- (list_to_map_to_list m). apply list_to_map_proper.
  - rewrite <- Permutation_rev, <- Hp. apply NoDup_fst_map_to_list.
  - by rewrite <- Permutation_rev, Hp.
Qed.

Lemma sorted_entries_fmap {A B} (f : A -> B) (m : gmap string A) :
  exists l, sorted_entries (f <$> m) = prod_map id f <$> l /\ map_to_list m ≡ₚ l.
Proof.
  assert (Hp : sorted_entries (f <$> m) ≡ₚ prod_map id f <$> map_to_list m).
  { unfold sorted_entries. by rewrite merge_sort_Permutation, map_to_list_fmap. }
  apply Permutation_map_inv in Hp as (l & E & Hl). by exists l.
Qed.

Lemma sequence_round (l : list value) :
  Forall (fun v => exists doc, encode v = Ok doc /\ decode doc = Some v) l ->
  exists docs, sequence (List.map encode l) = Ok docs
            /\ option_sequence (List.map decode docs) = Some l.
Proof.
  induction 1 as [|v l (doc & He & Hd) _ (docs & Hs & Ho)]; [by exists []|].
  exists (doc :: docs). cbn. rewrite He, Hs. cbn. split; [reflexivity|].
  fold (option_sequence (List.map decode docs)). by rewrite Hd, Ho.
Qed.

Lemma entries_round (l : list (string * value)) :
  Forall (fun kv : string * value =>
            GoUtf8.ValidString kv.1 = true
            /\ exists doc, encode kv.2 = Ok doc /\ decode doc = Some kv.2) l ->
  exists docs,
    sequence_entries (prod_map id encode <$> l) = Ok docs
    /\ option_sequence
         (List.map decode_member
            (List.map (fun kv : string * document => (appendString kv.1, kv.2)) docs))
       = Some l.
Proof.
  unfold sequence_entries.
  induction 1 as [|[k v] l (Hk & doc & He & Hd) _ (docs & Hs & Ho)]; [by exists []|].
  exists ((k, doc) :: docs). cbn in *. rewrite He, Hs. cbn. split; [reflexivity|].
  unfold decode_member at 1. cbn [fst snd].
  rewrite (unquote_appendString k Hk), Hd.
  fold (option_sequence
          (List.map decode_member
             (List.map (fun kv : string * document => (appendString kv.1, kv.2)) docs))).
  by rewrite Ho.
Qed.

Lemma json_clean_lookup (m : gmap string value) (k : string) (v : value) :
  json_clean (VMap m) = true -> m !! k = Some v ->
  GoUtf8.ValidString k = true /\ json_clean v = true.
Proof.
  cbn [json_clean]. intros H%bool_decide_eq_true Hk.
  apply (H k (json_clean v)). by rewrite lookup_fmap, Hk.
Qed.

(** A clean cell is encoded, and the document decodes to the cell. *)
Lemma encode_decode (v : value) :
  json_clean v = true ->
  exists doc, encode v = Ok doc /\ decode doc = Some v.
Proof.
  induction v as [|s|f|b|l IH|m IH] using value_ind'; intros Hc.
  - by exists JNull.
  - exists (JString (appendString s)). split; [reflexivity|].
    cbn [decode json_clean] in *. by rewrite (unquote_appendString s Hc).
  - cbn [json_clean] in Hc. apply andb_prop in Hc as [Hv Hf].
    destruct (floatEncoder_read f Hv Hf) as (lit & He & Hp).
    exists (JNumber lit). cbn [encode decode]. by rewrite He, Hp.
  - by exists (JBool b).
  - cbn [json_clean] in Hc.
    destruct (sequence_round l) as (docs & Hs & Ho).
    { rewrite Forall_forall in IH. apply Forall_forall. intros x Hx. apply IH; [exact Hx|].
      rewrite forallb_forall in Hc. by apply Hc, list_elem_of_In. }
    exists (JArray docs). cbn [encode decode]. rewrite Hs. split; [reflexivity|].
    by rewrite Ho.
  - destruct (sorted_entries_fmap encode m) as (l & El & Hl).
    destruct (entries_round l) as (docs & Hs & Ho).
    { apply Forall_forall. intros [k x] Hx.
      assert (Hk : m !! k = Some x) by (by apply elem_of_map_to_list; rewrite Hl).
      destruct (json_clean_lookup m k x Hc Hk) as [H1 H2]. split; [exact H1|].
      by apply (IH k x Hk). }
    exists (members docs). cbn [encode]. rewrite El, Hs. split; [reflexivity|].
    unfold members. cbn [decode].
    change (fun kv : string * document =>
              match unquote kv.1, decode kv.2 with
              | Some k, Some v => Some (k, v)
              | _, _ => None
              end) with decode_member.
    rewrite Ho. cbn. by rewrite (foldl_add_entry_sorted m l Hl).
Qed.
End Cells.

(** ** The response of [ToJSON] *)

Section Response.
Import GoJson.

Lemma row_round (r : row) :
  row_clean r = true ->
  exists doc, encode_row r = Ok doc /\ decode_row doc = Some r.
Proof.
  destruct r as [|m]; intros Hc; [by exists JNull|].
  destruct (encode_decode (VMap m) Hc) as (doc & He & Hd).
  exists doc. split; [exact He|].
  cbn [encode] in He. destruct (sequence_entries _) as [docs|]; [|discriminate].
  injection He as <-. unfold members in *. cbn [decode_row]. by rewrite Hd.
Qed.

Lemma rows_round (data : slice row) :
  rows_clean data = true ->
  exists doc, encode_any (AnyRows data) = Ok doc /\ decode_rows doc = Some data.
Proof.
  destruct data as [|l]; [by exists JNull|]. unfold rows_clean. cbn [elems encode_any].
  intros Hc.
  assert (G : exists docs, sequence (List.map encode_row l) = Ok docs
                        /\ option_sequence (List.map decode_row docs) = Some l).
  { induction l as [|r l IH]; [by exists []|].
    cbn [forallb] in Hc. apply andb_prop in Hc as [Hr Hl].
    destruct (row_round r Hr) as (doc & He & Hd). destruct (IH Hl) as (docs & Hs & Ho).
    exists (doc :: docs). cbn. rewrite He, Hs. cbn. split; [reflexivity|].
    fold (option_sequence (List.map decode_row docs)). by rewrite Hd, Ho. }
  destruct G as (docs & Hs & Ho). exists (JArray docs). rewrite Hs.
  split; [reflexivity|]. cbn [decode_rows]. by rewrite Ho.
Qed.

Lemma names_round (fieldNames : slice string) :
  names_clean fieldNames = true ->
  exists doc, encode_any (AnyStrings fieldNames) = Ok doc
           /\ decode_strings doc = Some fieldNames.
Proof.
  destruct fieldNames as [|l]; [by exists JNull|]. unfold names_clean.
  cbn [elems encode_any]. intros Hc. eexists. split; [reflexivity|].
  cbn [decode_strings].
  assert (G : option_sequence
                (List.map decode_string (List.map (fun s => JString (appendString s)) l))
              = Some l).
  { induction l as [|s l IH]; [reflexivity|].
    cbn [forallb] in Hc. apply andb_prop in Hc as [Hs Hl]. cbn.
    fold (option_sequence
            (List.map decode_string (List.map (fun s => JString (appendString s)) l))).
    by rewrite (unquote_appendString s Hs), (IH Hl). }
  by rewrite G.
Qed.

End Response.




(* ================================================================== *)
(** * Part III: further properties of the code                         *)
(* ================================================================== *)

(** ** Numbers written by [formatValue] read back *)

Section NumbersBack.
Import GoStrconv GoFloat64.
#[local] Open Scope Z_scope.

Lemma ParseInt_FormatInt_int64 (z : Z) :
  int64_min <= z <= int64_max -> ParseInt (FormatInt z) = Some z.
Proof.
  intros Hz. unfold ParseInt, FormatInt. rewrite NilZero.isi.
  - rewrite DecimalZ.of_to. unfold int64_min, int64_max in Hz.
    by rewrite (proj2 (Z.leb_le (- 2 ^ 63) z)), (proj2 (Z.leb_le z (2 ^ 63 - 1))) by lia.
  - destruct z as [|p|p]; cbn; try discriminate.
    intros [= E]. by apply (DecimalPos.Unsigned.to_uint_nonnil p).
  - destruct z as [|p|p]; cbn; try discriminate.
    intros [= E]. by apply (DecimalPos.Unsigned.to_uint_nonnil p).
Qed.

Lemma exponent_digits_value (n : Z) :
  0 <= n ->
  all_digits (exponent_digits n) = true /\ exponent_digits n <> ""
  /\ dec_value (exponent_digits n) = n.
Proof.
  intros Hn. destruct (FormatInt_digits n Hn) as [HD HDne].
  pose proof (FormatInt_value0 n Hn) as HV. unfold exponent_digits.
  destruct (n <? 10); [|done]. split; [exact HD|]. split; [discriminate|exact HV].
Qed.

(** The [%e] form with a two-digit exponent reads as [q * 10^k]. *)
Lemma fmtE_raw_read (neg : bool) (q k : Z) :
  0 < q ->
  let ds := {| d := FormatInt q; dp := Z.of_nat (String.length (FormatInt q)) + k |} in
  exists Q K,
    readFloat (fmtE neg ds (nd ds - 1)) = Some (neg, Q, K)
    /\ round_decimal neg Q K = round_decimal neg q k.
Proof.
  intros Hq. destruct (FormatInt_digits q) as [HD HDne]; [lia|].
  pose proof (FormatInt_value q Hq) as HV.
  revert HD HDne HV. generalize (FormatInt q) as D. intros [|c0 r] HD HDne HV ds; [done|].
  subst ds. unfold fmtE, nd. cbn [d dp String.length].
  set (len := Z.of_nat (String.length r)).
  assert (Elen : len = Z.of_nat (String.length r)) by reflexivity.
  replace (Z.of_nat (S (String.length r))) with (len + 1) by lia.
  rewrite (proj2 (Z.eqb_neq (len + 1) 0)) by lia.
  replace (len + 1 - 1) with len by lia.
  rewrite (Z.min_l (len + 1)) by lia.
  replace (len + 1 + k - 1) with (len + k) by lia.
  set (exp := len + k).
  assert (Hch : digit_at {| d := String c0 r; dp := len + 1 + k |} 0 = c0).
  { unfold digit_at, nd. cbn [d String.length]. rewrite Nat2Z.inj_succ, <- Elen.
    by rewrite (proj2 (Z.ltb_lt 0 (Z.succ len))) by lia. }
  rewrite Hch.
  assert (Hmore :
    (if 0 <? len
     then "." +:+ (if 1 <? len + 1
                   then digits_slice {| d := String c0 r; dp := len + 1 + k |} 1 (len + 1)
                   else "")
          +:+ zeros (Z.to_nat (len + 1 - Z.max 1 (len + 1)))
     else "") = if String.eqb r "" then "" else "." +:+ r).
  { destruct r as [|c1 r]; [reflexivity|]. cbn [String.eqb].
    rewrite (proj2 (Z.ltb_lt 0 len)), (proj2 (Z.ltb_lt 1 (len + 1))) by (cbn in Elen; lia).
    unfold digits_slice. cbn [d]. change (Z.to_nat 1) with 1%nat.
    replace (Z.to_nat (len + 1 - 1)) with (String.length (String c1 r)) by lia.
    change (String.substring 1 (String.length (String c1 r)) (String c0 (String c1 r)))
      with (String.substring 0 (String.length (String c1 r)) (String c1 r)).
    rewrite substring_all. replace (len + 1 - Z.max 1 (len + 1)) with 0 by lia.
    change (zeros (Z.to_nat 0)) with "". by rewrite app_nil_r. }
  rewrite Hmore.
  destruct (exponent_digits_value (Z.abs exp)) as (HE & HEne & HEv); [lia|].
  assert (Hr : all_digits r = true) by (cbn [all_digits] in HD; by apply andb_prop in HD as [_ ?]).
  pose proof (readFloat_literal neg (String c0 "") r
                ("e" +:+ (if exp <? 0 then "-" else "+") +:+ exponent_digits (Z.abs exp))
                exp) as R.
  rewrite ?app_assoc. rewrite ?app_assoc in R.
  eexists _, _. split.
  - apply R; [cbn [all_digits] in *; by destruct (is_digit c0)|discriminate|exact Hr|].
    right. exists (exp <? 0), (exponent_digits (Z.abs exp)).
    split; [reflexivity|]. split; [exact HE|]. split; [exact HEne|].
    rewrite HEv. destruct (Z.ltb_spec exp 0); lia.
  - rewrite app_cons, app_nil_l, HV. f_equal. lia.
Qed.

Lemma ParseFloat_fmtG (s : bool) (m : positive) (e : Z) :
  bounded 53 1024 m e = true ->
  ParseFloat (FormatFloat (S754_finite s m e) FmtG) = Some (S754_finite s m e).
Proof.
  intros Hb. unfold FormatFloat, digits_of. cbn [is_neg].
  destruct (shortest m e) as [q k] eqn:Hs.
  destruct (round_decimal_shortest s m e q k Hb Hs) as [Hr Hq].
  unfold ParseFloat. cbv zeta. destruct (_ || _).
  - destruct (fmtE_raw_read s q k Hq) as (Q & K & HR & HE).
    cbv zeta in HR. rewrite HR, HE. exact Hr.
  - destruct (fmtF_read s q k Hq) as (Q & K & HR & HE).
    cbv zeta in HR. rewrite HR, HE. exact Hr.
Qed.
End NumbersBack.

(** X1.  A whole number within the range of [int64] is written by
    [formatValue] and by [formatSQLValue] as the decimal literal that
    [strconv.ParseInt] reads back as the value of the number. *)
Theorem whole_number_reads_back (v : spec_float) (z : Z) :
  GoFloat64.valid v = true -> GoFloat64.is_integral v = true ->
  GoFloat64.trunc v = Some z ->
  (GoFloat64.int64_min <= z <= GoFloat64.int64_max)%Z ->
  GoStrconv.ParseInt (formatValue (VFloat64 v)) = Some z
  /\ GoStrconv.ParseInt (formatSQLValue (VFloat64 v)) = Some z.
Proof.
  intros Hv Hi Ht Hr. destruct (format_whole v z Hv Hi Ht Hr) as [-> ->].
  split; by apply ParseInt_FormatInt_int64.
Qed.

Lemma whole_number_reads_back_witness :
  GoStrconv.ParseInt (formatValue (num (-42))) = Some (-42)%Z
  /\ GoStrconv.ParseInt (formatSQLValue (num (-42))) = Some (-42)%Z.
Proof.
  apply (whole_number_reads_back (GoFloat64.of_int64 (-42)) (-42)%Z).
  - reflexivity.
  - reflexivity.
  - reflexivity.
  - unfold GoFloat64.int64_min, GoFloat64.int64_max. lia.
Defined.

(** X2.  A finite number with a fractional part is written by
    [formatValue] and by [formatSQLValue] with digits that
    [strconv.ParseFloat] reads back as the same [float64]: the text
    exports lose no precision. *)
Theorem fractional_number_reads_back (v : spec_float) :
  GoFloat64.valid v = true -> is_finite v = true ->
  GoFloat64.is_integral v = false ->
  GoStrconv.ParseFloat (formatValue (VFloat64 v)) = Some v
  /\ GoStrconv.ParseFloat (formatSQLValue (VFloat64 v)) = Some v.
Proof.
  intros Hv Hf Hi. destruct (format_fractional v Hi) as [-> ->].
  destruct v as [s|s| |s m e]; try discriminate.
  split; by apply ParseFloat_fmtG.
Qed.

Lemma fractional_number_reads_back_witness :
  GoStrconv.ParseFloat (formatValue (VFloat64 float_3_14)) = Some float_3_14
  /\ GoStrconv.ParseFloat (formatSQLValue (VFloat64 float_3_14)) = Some float_3_14.
Proof.
  apply (fractional_number_reads_back float_3_14); reflexivity.
Defined.

(** ** Quoting loses nothing *)

Lemma app_inv_tail (a b c : string) : a +:+ c = b +:+ c -> a = b.
Proof.
  revert b. induction a as [|x a IH]; intros [|y b] H.
  - reflexivity.
  - exfalso. apply (f_equal String.length) in H.
    rewrite app_nil_l, string_length_app in H. cbn in H. lia.
  - exfalso. apply (f_equal String.length) in H.
    rewrite app_nil_l, string_length_app in H. cbn in H. lia.
  - rewrite !app_cons in H. injection H as -> H. f_equal. by apply IH.
Qed.

Lemma double_quotes_inj (a b : string) : double_quotes a = double_quotes b -> a = b.
Proof.
  revert b. induction a as [|x a IH]; intros [|y b]; cbn [double_quotes].
  - done.
  - destruct (Ascii.eqb y "'"%char); discriminate.
  - destruct (Ascii.eqb x "'"%char); discriminate.
  - destruct (Ascii.eqb_spec x "'"%char) as [->|Hx],
             (Ascii.eqb_spec y "'"%char) as [->|Hy]; rewrite ?app_cons, ?app_nil_l.
    + intros [= H]. f_equal. by apply IH.
    + intros [= <- _]. done.
    + intros [= -> _]. done.
    + intros [= -> H]. f_equal. by apply IH.
Qed.

(** X3.  [formatSQLValue] loses nothing of a string: two strings that
    give the same SQL literal are the same string. *)
Theorem formatSQLValue_string_injective (a b : string) :
  formatSQLValue (VString a) = formatSQLValue (VString b) -> a = b.
Proof.
  cbn [formatSQLValue]. rewrite !ReplaceAll_quote, !app_cons, !app_nil_l.
  intros [= H]. by apply double_quotes_inj, (app_inv_tail _ _ "'").
Qed.

Lemma formatSQLValue_string_injective_witness :
  formatSQLValue (VString "it's") = formatSQLValue (VString "it's") /\ "it's" = "it's".
Proof.
  split; [reflexivity|]. exact (formatSQLValue_string_injective "it's" "it's" eq_refl).
Defined.

Section CsvFields.
Import GoCsv.

Lemma field_end_head (c : ascii) (r : string) :
  field_end (String c r) -> c = Comma \/ c = LF.
Proof. intros [r' [[= -> _]|[= -> _]]]; auto. Qed.

Lemma plain_no_special (f : string) :
  fieldNeedsQuotes f = false -> has_special f = false.
Proof.
  unfold fieldNeedsQuotes. destruct (String.eqb_spec f "") as [->|_]; [done|].
  destruct (String.eqb f "\."); [done|]. by destruct (has_special f).
Qed.

Lemma special_head (c : ascii) (r : string) :
  has_special (String c r) = false -> c <> Comma /\ c <> LF /\ c <> quote.
Proof.
  cbn [has_special]. intros H.
  destruct (Ascii.eqb_spec c LF), (Ascii.eqb_spec c CR), (Ascii.eqb_spec c quote),
    (Ascii.eqb_spec c Comma); try discriminate. done.
Qed.

Lemma special_tail (c : ascii) (r : string) :
  has_special (String c r) = false -> has_special r = false.
Proof. cbn [has_special]. by intros [_ ?]%orb_false_elim. Qed.

Lemma plain_fields_split (a b ra rb : string) :
  has_special a = false -> has_special b = false ->
  field_end ra -> field_end rb ->
  a +:+ ra = b +:+ rb -> a = b /\ ra = rb.
Proof.
  revert b. induction a as [|x a IH]; intros [|y b] Ha Hb Hra Hrb; rewrite ?app_nil_l, ?app_cons.
  - done.
  - intros ->. destruct (special_head _ _ Hb) as (? & ? & _).
    by destruct (field_end_head _ _ Hra).
  - intros <-. destruct (special_head _ _ Ha) as (? & ? & _).
    by destruct (field_end_head _ _ Hrb).
  - intros [= -> H]. apply special_tail in Ha, Hb.
    destruct (IH b Ha Hb Hra Hrb H) as [-> ->]. done.
Qed.

Lemma quoted_fields_split (a b ra rb : string) :
  field_end ra -> field_end rb ->
  quoted_body a +:+ String quote ra = quoted_body b +:+ String quote rb ->
  a = b /\ ra = rb.
Proof.
  intros Hra Hrb. revert b. induction a as [|x a IH]; intros [|y b]; cbn [quoted_body].
  - rewrite !app_nil_l. by intros [= ->].
  - rewrite app_nil_l. destruct (Ascii.eqb_spec y quote) as [->|Hy];
      rewrite ?app_cons, ?app_nil_l.
    + intros [= ->]. destruct (field_end_head _ _ Hra) as [E|E]; discriminate E.
    + intros [= <- _]. done.
  - rewrite app_nil_l. destruct (Ascii.eqb_spec x quote) as [->|Hx];
      rewrite ?app_cons, ?app_nil_l.
    + intros [= <-]. destruct (field_end_head _ _ Hrb) as [E|E]; discriminate E.
    + intros [= -> _]. done.
  - destruct (Ascii.eqb_spec x quote) as [->|Hx],
             (Ascii.eqb_spec y quote) as [->|Hy]; rewrite ?app_cons, ?app_nil_l.
    + intros [= H]. destruct (IH b H) as [-> ->]. done.
    + intros [= <- _]. done.
    + intros [= -> _]. done.
    + intros [= -> H]. destruct (IH b H) as [-> ->]. done.
Qed.

(** A written field followed by the rest of the record determines
    the field. *)
Lemma write_field_split (a b ra rb : string) :
  field_end ra -> field_end rb ->
  write_field a +:+ ra = write_field b +:+ rb -> a = b /\ ra = rb.
Proof.
  intros Hra Hrb. unfold write_field.
  destruct (fieldNeedsQuotes a) eqn:Ha, (fieldNeedsQuotes b) eqn:Hb.
  - rewrite !app_cons, !app_assoc, !app_cons, !app_nil_l. intros [= H].
    by apply quoted_fields_split.
  - apply plain_no_special in Hb. rewrite !app_cons. intros H. exfalso.
    destruct b as [|y b].
    + rewrite app_nil_l in H. subst rb.
      destruct (field_end_head _ _ Hrb) as [E|E]; discriminate E.
    + rewrite app_cons in H. injection H as <- _. by destruct (special_head _ _ Hb) as (_ & _ & ?).
  - apply plain_no_special in Ha. rewrite !app_cons. intros H. exfalso.
    destruct a as [|x a].
    + rewrite app_nil_l in H. subst ra.
      destruct (field_end_head _ _ Hra) as [E|E]; discriminate E.
    + rewrite app_cons in H. injection H as -> _. by destruct (special_head _ _ Ha) as (_ & _ & ?).
  - apply plain_no_special in Ha, Hb. by apply plain_fields_split.
Qed.

Lemma Join_cons2 (x y : string) (l : list string) (sep : string) :
  GoStrings.Join (x :: y :: l) sep = x +:+ sep +:+ GoStrings.Join (y :: l) sep.
Proof. reflexivity. Qed.

(** A record of one field at least, followed by anything, determines
    its fields. *)
Lemma csv_record_split (r r' : list string) (X X' : string) :
  r <> [] -> r' <> [] ->
  csv_record r +:+ X = csv_record r' +:+ X' -> r = r' /\ X = X'.
Proof.
  unfold csv_record. revert r'. induction r as [|a r IH]; [done|].
  intros [|b r'] _ Hr'; [done|]. clear Hr'.
  destruct r as [|a2 r], r' as [|b2 r']; cbn [List.map];
    rewrite ?Join_cons2; cbn [GoStrings.Join]; rewrite ?app_assoc; intros H.
  - apply write_field_split in H as [-> E]; [|by eexists; right..].
    change (String LF X = String LF X') in E. by injection E as ->.
  - apply write_field_split in H as [_ E]; [|by eexists; right|by eexists; left].
    discriminate E.
  - apply write_field_split in H as [_ E]; [|by eexists; left|by eexists; right].
    discriminate E.
  - apply write_field_split in H as [-> E]; [|by eexists; left..].
    rewrite !app_cons, !app_nil_l in E. injection E as E.
    destruct (IH (b2 :: r')) as [E1 E2]; [done|done| |].
    + cbn [List.map]. by rewrite !app_assoc.
    + by rewrite E1.
Qed.

Lemma csv_records_split (rs rs' : list (list string)) :
  Forall (fun r => r <> []) rs -> Forall (fun r => r <> []) rs' ->
  cat (List.map csv_record rs) = cat (List.map csv_record rs') -> rs = rs'.
Proof.
  intros H. revert rs'. induction H as [|r rs Hr _ IH]; intros rs' H'.
  - destruct H' as [|r' rs' Hr' _]; [done|]. cbn [List.map]. rewrite cat_cons.
    unfold csv_record at 1. rewrite app_assoc. intros E. exfalso.
    apply (f_equal String.length) in E. rewrite !string_length_app in E. cbn in E. lia.
  - destruct H' as [|r' rs' Hr' H']; cbn [List.map]; rewrite ?cat_cons.
    + unfold csv_record at 1. rewrite app_assoc. intros E. exfalso.
      apply (f_equal String.length) in E. rewrite !string_length_app in E. cbn in E. lia.
    + intros E. apply csv_record_split in E as [-> E]; [|done..]. f_equal. by apply IH.
Qed.
End CsvFields.

(** X4.  The CSV export loses nothing of the texts it is given: with
    one field at least, two exports that return the same bytes have
    the same field names and, row by row, the same formatted cells. *)
Theorem ToCSV_lossless (data data' : slice row) (fieldNames fieldNames' : slice string) :
  elems fieldNames <> [] -> elems fieldNames' <> [] ->
  len data <> 0%nat -> len data' <> 0%nat ->
  ToCSV data fieldNames = ToCSV data' fieldNames' ->
  elems fieldNames = elems fieldNames'
  /\ List.map (fun r => row_values formatValue r (elems fieldNames)) (elems data)
     = List.map (fun r => row_values formatValue r (elems fieldNames')) (elems data').
Proof.
  intros Hf Hf' Hd Hd'. rewrite !ToCSV_output by done. intros [= E].
  assert (G : forall (fs : list string) (l : list row),
             fs <> [] ->
             Forall (fun r : list string => r <> [])
               (List.map (fun r => row_values formatValue r fs) l)).
  { intros fs l Hfs. apply Forall_forall. intros r [x [-> _]]%list_elem_of_fmap.
    unfold row_values. by destruct fs. }
  assert (S : elems fieldNames
               :: List.map (fun r => row_values formatValue r (elems fieldNames)) (elems data)
             = elems fieldNames'
               :: List.map (fun r => row_values formatValue r (elems fieldNames')) (elems data')).
  { apply csv_records_split; [constructor; auto..|].
    cbn [List.map]. by rewrite !cat_cons, !List.map_map. }
  by injection S as -> ->.
Qed.

Lemma ToCSV_lossless_witness :
  ToCSV (mk_slice [john]) (mk_slice ["id"]) = ToCSV (mk_slice [john]) (mk_slice ["id"])
  /\ ["id"] = ["id"]
  /\ [row_values formatValue john ["id"]] = [row_values formatValue john ["id"]].
Proof.
  split; [reflexivity|].
  apply (ToCSV_lossless (mk_slice [john]) (mk_slice [john]) (mk_slice ["id"]) (mk_slice ["id"]));
    [discriminate|discriminate|discriminate|discriminate|reflexivity].
Defined.

(** ** When [ToJSON] fails *)

Section Failure.
Import GoJson.

Lemma sequence_cases {A B} (f : A -> res B) (E : error -> Prop) (l : list A) :
  Forall (fun x => (exists b, f x = Ok b) \/ (exists e, E e /\ f x = Err e)) l ->
  (exists bs, sequence (List.map f l) = Ok bs /\ Forall (fun x => exists b, f x = Ok b) l)
  \/ (exists e, E e /\ sequence (List.map f l) = Err e /\ Exists (fun x => f x = Err e) l).
Proof.
  induction 1 as [|x l Hx _ IH]; [left; by exists []|].
  cbn [List.map sequence]. destruct Hx as [[b Hb]|(e & He & Hx)].
  - rewrite Hb. cbn. destruct IH as [(bs & -> & Hall)|(e & He & -> & Hex)].
    + left. exists (b :: bs). split; [reflexivity|]. constructor; eauto.
    + right. exists e. repeat split; [exact He|]. by apply Exists_cons_tl.
  - right. exists e. rewrite Hx. repeat split; [exact He|]. by apply Exists_cons_hd.
Qed.

Lemma floatEncoder_cases (f : spec_float) :
  (exists lit, floatEncoder f = Ok lit /\ is_finite f = true)
  \/ (exists e, unsupported e /\ floatEncoder f = Err e /\ is_finite f = false).
Proof.
  destruct f as [s|s| |s m e].
  - left. eexists. split; reflexivity.
  - right. eexists. split; [|split; reflexivity]. destruct s; unfold unsupported; cbn; auto.
  - right. eexists. split; [|split; reflexivity]. unfold unsupported; cbn; auto.
  - left. unfold floatEncoder. destruct (_ && _); eexists; split; reflexivity.
Qed.

Lemma numbers_finite_map (m : gmap string value) (l : list (string * value)) :
  map_to_list m ≡ₚ l ->
  numbers_finite (VMap m) = forallb (fun kv : string * value => numbers_finite kv.2) l.
Proof.
  intros Hl. cbn [numbers_finite]. apply eq_true_iff_eq.
  rewrite bool_decide_eq_true, forallb_forall. split.
  - intros H [k v] Hkv%list_elem_of_In. rewrite <- Hl in Hkv.
    apply elem_of_map_to_list in Hkv. apply (H k). by rewrite lookup_fmap, Hkv.
  - intros H k b Hb. rewrite lookup_fmap in Hb.
    destruct (m !! k) as [v|] eqn:Hk; [|discriminate]. injection Hb as <-.
    apply (H (k, v)), list_elem_of_In. rewrite <- Hl. by apply elem_of_map_to_list.
Qed.

(** A cell is encoded exactly when its numbers are finite; otherwise
    the encoder stops at a number that is not. *)
Lemma encode_cases (v : value) :
  (exists doc, encode v = Ok doc /\ numbers_finite v = true)
  \/ (exists e, unsupported e /\ encode v = Err e /\ numbers_finite v = false).
Proof.
  induction v as [|s|f|b|l IH|m IH] using value_ind'.
  - left. by exists JNull.
  - left. by eexists.
  - cbn [encode numbers_finite].
    destruct (floatEncoder_cases f) as [(lit & -> & ->)|(e & He & -> & ->)].
    + left. by eexists.
    + right. by exists e.
  - left. by eexists.
  - cbn [encode numbers_finite].
    destruct (sequence_cases encode unsupported l) as [(ds & -> & Hall)|(e & He & -> & Hex)].
    { eapply Forall_impl; [exact IH|]. intros x [(d & H1 & _)|(e & H1 & H2 & _)]; eauto. }
    + left. eexists. split; [reflexivity|]. apply forallb_forall. intros x Hx%list_elem_of_In.
      rewrite Forall_forall in IH, Hall. destruct (Hall x Hx) as [d Hd].
      destruct (IH x Hx) as [(? & _ & ?)|(? & _ & H & _)]; [done|congruence].
    + right. exists e. repeat split; [exact He|].
      apply Exists_exists in Hex as (x & Hx & Hxe). apply not_true_is_false.
      rewrite forallb_forall. intros H. specialize (H x (proj1 (list_elem_of_In _ _) Hx)).
      rewrite Forall_forall in IH.
      destruct (IH x Hx) as [(? & H1 & _)|(? & _ & _ & H1)]; congruence.
  - destruct (sorted_entries_fmap encode m) as (l & El & Hl).
    set (f := fun kv : string * value => res_map (pair kv.1) (encode kv.2)).
    assert (Em : sequence_entries (prod_map id encode <$> l) = sequence (List.map f l)).
    { unfold sequence_entries. by rewrite List.map_map. }
    cbn [encode]. rewrite El, (numbers_finite_map m l Hl), Em.
    assert (IHl : Forall (fun kv : string * value =>
                            (exists d, encode kv.2 = Ok d /\ numbers_finite kv.2 = true)
                            \/ (exists e, unsupported e /\ encode kv.2 = Err e
                                          /\ numbers_finite kv.2 = false)) l).
    { apply Forall_forall. intros [k x] Hx. rewrite <- Hl in Hx.
      apply elem_of_map_to_list in Hx. exact (IH k x Hx). }
    destruct (sequence_cases f unsupported l) as [(ds & Hs & Hall)|(e & He & Hs & Hex)].
    { eapply Forall_impl; [exact IHl|]. intros [k x]. unfold f. cbn [fst snd].
      intros [(d & -> & _)|(e & H1 & -> & _)]; [left|right]; by eexists. }
    + left. rewrite Hs. eexists. split; [reflexivity|].
      apply forallb_forall. intros x Hx%list_elem_of_In.
      rewrite Forall_forall in IHl, Hall. destruct (Hall x Hx) as [d Hd]. unfold f in Hd.
      destruct (IHl x Hx) as [(? & _ & ?)|(? & _ & H & _)]; [done|]. by rewrite H in Hd.
    + right. rewrite Hs. exists e. repeat split; [exact He|].
      apply Exists_exists in Hex as (x & Hx & Hxe). apply not_true_is_false.
      rewrite forallb_forall. intros H. specialize (H x (proj1 (list_elem_of_In _ _) Hx)).
      rewrite Forall_forall in IHl. unfold f in Hxe.
      destruct (IHl x Hx) as [(? & H1 & _)|(? & _ & _ & H1)]; [|congruence].
      by rewrite H1 in Hxe.
Qed.

Lemma encode_row_cases (r : row) :
  (exists doc, encode_row r = Ok doc /\ row_finite r = true)
  \/ (exists e, unsupported e /\ encode_row r = Err e /\ row_finite r = false).
Proof. destruct r as [|m]; [left; by exists JNull|]. apply encode_cases. Qed.

Lemma encode_rows_cases (data : slice row) :
  (exists doc, encode_any (AnyRows data) = Ok doc /\ rows_finite data = true)
  \/ (exists e, unsupported e /\ encode_any (AnyRows data) = Err e
                /\ rows_finite data = false).
Proof.
  destruct data as [|l]; [left; by exists JNull|]. unfold rows_finite. cbn [encode_any elems].
  destruct (sequence_cases encode_row unsupported l) as [(ds & -> & Hall)|(e & He & -> & Hex)].
  { apply Forall_forall. intros r _.
    destruct (encode_row_cases r) as [(d & H1 & _)|(e & H1 & H2 & _)]; eauto. }
  - left. eexists. split; [reflexivity|]. apply forallb_forall. intros x Hx%list_elem_of_In.
    rewrite Forall_forall in Hall. destruct (Hall x Hx) as [d Hd].
    destruct (encode_row_cases x) as [(? & _ & ?)|(? & _ & H & _)]; [done|congruence].
  - right. exists e. repeat split; [exact He|].
    apply Exists_exists in Hex as (x & Hx & Hxe). apply not_true_is_false.
    rewrite forallb_forall. intros H. specialize (H x (proj1 (list_elem_of_In _ _) Hx)).
    destruct (encode_row_cases x) as [(? & H1 & _)|(? & _ & _ & H1)]; congruence.
Qed.

Lemma encode_names_ok (fieldNames : slice string) :
  exists doc, encode_any (AnyStrings fieldNames) = Ok doc.
Proof. destruct fieldNames; by eexists. Qed.
End Failure.



(** ** Keys outside the field list *)

Lemma row_values_listed (format : value -> string) (r r' : row) (fs : list string) :
  same_listed_cells fs r r' -> row_values format r fs = row_values format r' fs.
Proof.
  intros H. unfold row_values. apply List.map_ext_in. intros g Hg.
  by rewrite (H g) by (by apply list_elem_of_In).
Qed.

Lemma sql_column_list_listed (r r' : row) (fs : list string) :
  same_listed_cells fs r r' -> sql_column_list r fs = sql_column_list r' fs.
Proof.
  intros H. rewrite !sql_column_list_lines. unfold sql_column_lines.
  destruct fs as [|f fs]; [reflexivity|]. do 2 f_equal.
  apply List.map_ext_in. intros g Hg. by rewrite (H g) by (by apply list_elem_of_In).
Qed.

Lemma text_exports_listed (data data' : list row) (fieldNames : slice string)
    (tableName : string) :
  Forall2 (same_listed_cells (elems fieldNames)) data data' ->
  ToCSV (mk_slice data) fieldNames = ToCSV (mk_slice data') fieldNames
  /\ ToMarkdownTable (mk_slice data) fieldNames = ToMarkdownTable (mk_slice data') fieldNames
  /\ ToSQL (mk_slice data) fieldNames tableName = ToSQL (mk_slice data') fieldNames tableName.
Proof.
  intros H. destruct H as [|r r' rs rs' Hr Hrs]; [done|].
  rewrite !ToCSV_output, !ToMarkdownTable_output, !ToSQL_output by done.
  cbn [elems List.hd].
  assert (H2 : Forall2 (same_listed_cells (elems fieldNames)) (r :: rs) (r' :: rs'))
    by by constructor.
  assert (Hcsv : List.map (fun r => csv_record (row_values formatValue r (elems fieldNames)))
                   (r :: rs)
                 = List.map (fun r => csv_record (row_values formatValue r (elems fieldNames)))
                     (r' :: rs')).
  { clear Hr Hrs. induction H2 as [|a b l l' Hab _ IH]; [reflexivity|].
    cbn [List.map]. by rewrite IH, (row_values_listed _ a b). }
  assert (Hmd : List.map (md_row (elems fieldNames)) (r :: rs)
                = List.map (md_row (elems fieldNames)) (r' :: rs')).
  { clear Hr Hrs Hcsv. induction H2 as [|a b l l' Hab _ IH]; [reflexivity|].
    cbn [List.map]. unfold md_row at 1 3. by rewrite IH, (row_values_listed _ a b). }
  assert (Hsql : List.map (sql_insert (effective_table tableName) (elems fieldNames)) (r :: rs)
                 = List.map (sql_insert (effective_table tableName) (elems fieldNames))
                     (r' :: rs')).
  { clear Hr Hrs Hcsv Hmd. induction H2 as [|a b l l' Hab _ IH]; [reflexivity|].
    cbn [List.map]. unfold sql_insert at 1 3. by rewrite IH, (row_values_listed _ a b). }
  rewrite Hcsv, Hmd, Hsql. unfold sql_create_table.
  by rewrite (sql_column_list_listed r r').
Qed.

(** X6.  The three text exports read a row only under the listed
    fields: setting (or replacing) the cell of a key that is not in
    the field list changes nothing in the output of [ToCSV],
    [ToMarkdownTable] and [ToSQL], wherever the row stands. *)
Theorem unlisted_key_ignored
    (before after : list row) (m : gmap string value) (key : string) (v : value)
    (fieldNames : slice string) (tableName : string) :
  key ∉ elems fieldNames ->
  let plain := mk_slice (before ++ mk_map m :: after) in
  let extended := mk_slice (before ++ mk_map (<[key := v]> m) :: after) in
  ToCSV plain fieldNames = ToCSV extended fieldNames
  /\ ToMarkdownTable plain fieldNames = ToMarkdownTable extended fieldNames
  /\ ToSQL plain fieldNames tableName = ToSQL extended fieldNames tableName.
Proof.
  intros H plain extended. apply text_exports_listed.
  apply Forall2_app.
  - apply Forall_Forall2_diag, Forall_forall. by intros r _ g.
  - constructor.
    + intros g Hg. cbn [index]. rewrite lookup_insert_ne; [done|]. by intros ->.
    + apply Forall_Forall2_diag, Forall_forall. by intros r _ g.
Qed.

Lemma unlisted_key_ignored_witness :
  ("email" ∉ ["id"; "name"])
  /\ ToCSV (mk_slice [john_short; jane_short]) (mk_slice ["id"; "name"])
     = ToCSV (mk_slice [john_short; mk_map (<["email" := VString "j@x"]>
                                              {[ "id" := num 2; "name" := VString "Jane" ]})])
         (mk_slice ["id"; "name"]).
Proof.
  assert (H : "email" ∉ ["id"; "name"]).
  { rewrite !not_elem_of_cons, elem_of_nil. repeat split; [discriminate..|tauto]. }
  split; [exact H|].
  exact (proj1 (unlisted_key_ignored [john_short] []
                  {[ "id" := num 2; "name" := VString "Jane" ]} "email" (VString "j@x")
                  (mk_slice ["id"; "name"]) "" H)).
Defined.

(** X7.  On an empty dataset [ToJSON] succeeds with the count 0; the
    data member is [null] for a [nil] slice of rows and [[]] for an
    empty one. *)
Theorem ToJSON_empty_dataset (fieldNames : slice string) :
  exists f,
    GoJson.encode_any (GoJson.AnyStrings fieldNames) = Ok f
    /\ ToJSON nil_slice fieldNames
       = (Some ("{" +:+ newline
                +:+ "  " +:+ GoJson.appendString "count" +:+ ": 0," +:+ newline
                +:+ "  " +:+ GoJson.appendString "data" +:+ ": null," +:+ newline
                +:+ "  " +:+ GoJson.appendString "fields" +:+ ": " +:+ GoJson.Indent f 1
                +:+ newline +:+ "}"), None)
    /\ ToJSON (mk_slice []) fieldNames
       = (Some ("{" +:+ newline
                +:+ "  " +:+ GoJson.appendString "count" +:+ ": 0," +:+ newline
                +:+ "  " +:+ GoJson.appendString "data" +:+ ": []," +:+ newline
                +:+ "  " +:+ GoJson.appendString "fields" +:+ ": " +:+ GoJson.Indent f 1
                +:+ newline +:+ "}"), None).
Proof.
  destruct (encode_names_ok fieldNames) as [f Hf]. exists f. split; [exact Hf|].
  unfold ToJSON, GoJson.MarshalIndent. rewrite !Marshal_response.
  unfold sequence_entries. cbn [List.map fst snd]. rewrite Hf. split; reflexivity.
Qed.

(** ** Splitting and joining *)

Section SplitJoin.
Import GoStrings GoStringsSplit.

Lemma HasPrefix_app (s prefix : string) :
  HasPrefix s prefix = true -> exists r, s = prefix +:+ r.
Proof.
  revert s. induction prefix as [|p ps IH]; intros s; [by exists s|].
  destruct s as [|c cs]; [discriminate|]. cbn [HasPrefix].
  intros [Hc H]%andb_prop. apply Ascii.eqb_eq in Hc as ->.
  destruct (IH cs H) as [r ->]. by exists r.
Qed.

Lemma split_from_skip (t s cur sep : string) :
  split_from (String.length t) cur (t +:+ s) sep = split_from 0 cur s sep.
Proof. induction t as [|x t IH]; [reflexivity|]. rewrite app_cons. exact IH. Qed.

Lemma split_from_nonempty (skip : nat) (cur s sep : string) :
  split_from skip cur s sep <> [].
Proof.
  revert skip cur. induction s as [|c cs IH]; intros skip cur; [done|].
  cbn [split_from]. destruct skip; [|apply IH]. destruct (HasPrefix _ _); [done|apply IH].
Qed.

Lemma Join_cons_nonempty (x : string) (l : list string) (sep : string) :
  l <> [] -> Join (x :: l) sep = x +:+ sep +:+ Join l sep.
Proof. by destruct l. Qed.

Lemma Join_split_from (sep : string) (n : nat) (s cur : string) :
  sep <> "" -> (String.length s <= n)%nat ->
  Join (split_from 0 cur s sep) sep = cur +:+ s.
Proof.
  intros Hsep. revert s cur. induction n as [|n IH]; intros [|c cs] cur Hn;
    try (cbn in Hn; lia); try (cbn; by rewrite app_nil_r).
  cbn [split_from]. destruct (HasPrefix (String c cs) sep) eqn:Hp.
  - destruct (HasPrefix_app _ _ Hp) as [r E]. destruct sep as [|p ps]; [done|].
    rewrite app_cons in E. injection E as -> ->.
    cbn [String.length Nat.sub]. rewrite Nat.sub_0_r, split_from_skip.
    rewrite Join_cons_nonempty by apply split_from_nonempty.
    rewrite IH; [by rewrite app_nil_l, app_cons|].
    cbn [String.length] in Hn. rewrite string_length_app in Hn. lia.
  - rewrite IH by (cbn in Hn; lia). by rewrite app_assoc, app_cons, app_nil_l.
Qed.

(** Joining the pieces of a split gives the string back. *)
Lemma Join_Split (s sep : string) :
  sep <> "" -> Join (elems (Split s sep)) sep = s.
Proof.
  intros Hsep. unfold Split. destruct sep as [|p ps]; [done|]. cbn [elems].
  by rewrite (Join_split_from _ (String.length s)).
Qed.

Lemma Split_nonempty (s sep : string) : sep <> "" -> elems (Split s sep) <> [].
Proof.
  intros Hsep. unfold Split. destruct sep; [done|]. cbn [elems]. apply split_from_nonempty.
Qed.
End SplitJoin.

(** ** The CORS origins *)

Section Origins.
Import Middleware.

Lemma origins_loop_Join (origins : list string) (result : string) (i : nat) :
  origins_loop result i (Z.of_nat (i + List.length origins)) origins
  = result +:+ GoStrings.Join origins ",".
Proof.
  revert result i. induction origins as [|o os IH]; intros result i.
  - cbn. by rewrite app_nil_r.
  - cbn [origins_loop List.length].
    replace (i + S (List.length os))%nat with (S i + List.length os)%nat by lia.
    rewrite IH. destruct os as [|o2 os].
    + rewrite (proj2 (Z.ltb_ge _ _)) by (cbn [List.length]; lia).
      cbn [GoStrings.Join]. by rewrite app_nil_r.
    + rewrite (proj2 (Z.ltb_lt _ _)) by (cbn [List.length]; lia).
      rewrite Join_cons2. by rewrite !app_assoc.
Qed.
Lemma getAllowOriginsString_Join (origins : slice string) :
  getAllowOriginsString origins = GoStrings.Join (elems origins) ",".
Proof.
  unfold getAllowOriginsString, len.
  pose proof (origins_loop_Join (elems origins) "" 0) as H. cbn [Nat.add] in H.
  by rewrite H, app_nil_l.
Qed.
End Origins.

(** X8.  [getAllowOriginsString] joins the origins with commas: its
    loop gives what [strings.Join(origins, ",")] gives, so there is no
    comma after the last origin, and a [nil] or empty slice gives the
    empty string. *)
Theorem getAllowOriginsString_is_Join (origins : slice string) :
  Middleware.getAllowOriginsString origins = GoStrings.Join (elems origins) ","
  /\ (len origins = 0%nat -> Middleware.getAllowOriginsString origins = "").
Proof.
  split; [apply getAllowOriginsString_Join|].
  rewrite getAllowOriginsString_Join. unfold len. by destruct (elems origins).
Qed.

Lemma getAllowOriginsString_is_Join_witness :
  len (nil_slice : slice string) = 0%nat
  /\ Middleware.getAllowOriginsString nil_slice = "".
Proof.
  split; [reflexivity|].
  exact (proj2 (getAllowOriginsString_is_Join nil_slice) eq_refl).
Defined.

(** X9.  The CORS origins survive the configuration: [Load] splits
    the setting [CORS_ORIGINS] (or its default) at the commas, and
    [getAllowOriginsString] applied to the origins of a loaded
    configuration gives that setting back, byte for byte. *)
Theorem cors_origins_round_trip (env : Config.environ) (cfg : Config.Config) :
  Config.Load env = (Some cfg, None) ->
  Middleware.getAllowOriginsString (Config.CORSOrigins cfg)
  = Config.getEnv env "CORS_ORIGINS" "http://localhost:5173".
Proof.
  unfold Config.Load. destruct (Config.Validate _); [discriminate|].
  intros [= <-]. cbn [Config.CORSOrigins].
  rewrite getAllowOriginsString_Join.
  exact (Join_Split (Config.getEnv env "CORS_ORIGINS" "http://localhost:5173") ","
           ltac:(discriminate)).
Qed.

(** ** The configuration *)

Section Configuration.
Import Config.

Lemma getEnv_set (env : environ) (key defaultValue : string) :
  Getenv env key <> "" -> getEnv env key defaultValue = Getenv env key.
Proof. intros H. unfold getEnv. by rewrite (eqb_nonempty _ H). Qed.

Lemma getEnv_unset (env : environ) (key defaultValue : string) :
  Getenv env key = "" -> getEnv env key defaultValue = defaultValue.
Proof. intros H. unfold getEnv. by rewrite H. Qed.

Lemma getEnv_nonempty (env : environ) (key defaultValue : string) :
  defaultValue <> "" -> getEnv env key defaultValue <> "".
Proof.
  intros H. unfold getEnv. destruct (String.eqb_spec (Getenv env key) ""); [exact H|done].
Qed.

Lemma Load_inv (env : environ) (cfg : Config) :
  Load env = (Some cfg, None) ->
  OpenAIAPIKey cfg <> "" /\ DatabaseConfig.Password (Database cfg) <> ""
  /\ cfg
     = {| Port := getEnv env "PORT" "3000";
          Environment := getEnv env "ENVIRONMENT" "development";
          OpenAIAPIKey := getEnv env "OPENAI_API_KEY" "";
          Database :=
            {| DatabaseConfig.Host := getEnv env "DB_HOST" "localhost";
               DatabaseConfig.Port := getEnv env "DB_PORT" "5432";
               DatabaseConfig.User := getEnv env "DB_USER" "postgres";
               DatabaseConfig.Password := getEnv env "DB_PASSWORD" "";
               DatabaseConfig.DBName := getEnv env "DB_NAME" "mockdata_generator";
               DatabaseConfig.SSLMode := getEnv env "DB_SSL_MODE" "disable" |};
          CORSOrigins :=
            GoStringsSplit.Split (getEnv env "CORS_ORIGINS" "http://localhost:5173") "," |}.
Proof.
  unfold Load, Validate. cbn [OpenAIAPIKey Database DatabaseConfig.Password].
  destruct (String.eqb_spec (getEnv env "OPENAI_API_KEY" "") "") as [|H1]; [discriminate|].
  destruct (String.eqb_spec (getEnv env "DB_PASSWORD" "") "") as [|H2]; [discriminate|].
  intros [= <-]. done.
Qed.
End Configuration.

(** X10.  [Load] succeeds exactly when [OPENAI_API_KEY] and
    [DB_PASSWORD] are set to non-empty values.  A missing key is
    reported first; otherwise a missing password; in both cases no
    configuration is returned. *)
Theorem Load_requires_the_secrets (env : Config.environ) :
  (Config.Getenv env "OPENAI_API_KEY" = "" ->
   Config.Load env = (None, Some (Errorf "OPENAI_API_KEY is required")))
  /\ (Config.Getenv env "OPENAI_API_KEY" <> "" ->
      Config.Getenv env "DB_PASSWORD" = "" ->
      Config.Load env = (None, Some (Errorf "DB_PASSWORD is required")))
  /\ (Config.Getenv env "OPENAI_API_KEY" <> "" ->
      Config.Getenv env "DB_PASSWORD" <> "" ->
      exists cfg,
        Config.Load env = (Some cfg, None)
        /\ Config.OpenAIAPIKey cfg = Config.Getenv env "OPENAI_API_KEY"
        /\ Config.DatabaseConfig.Password (Config.Database cfg)
           = Config.Getenv env "DB_PASSWORD").
Proof.
  unfold Config.Load, Config.Validate.
  cbn [Config.OpenAIAPIKey Config.Database Config.DatabaseConfig.Password].
  split; [|split].
  - intros H. by rewrite (getEnv_unset _ _ _ H).
  - intros H1 H2. rewrite (getEnv_set _ _ _ H1), (eqb_nonempty _ H1).
    by rewrite (getEnv_unset _ _ _ H2).
  - intros H1 H2. rewrite (getEnv_set _ _ _ H1), (eqb_nonempty _ H1).
    rewrite (getEnv_set _ _ _ H2), (eqb_nonempty _ H2). eexists. split; [reflexivity|].
    done.
Qed.

(** X11.  A loaded configuration has no empty setting: the defaults
    fill what the environment leaves unset or empty, the two secrets
    are checked, and there is one CORS origin at least. *)
Theorem loaded_config_is_complete (env : Config.environ) (cfg : Config.Config) :
  Config.Load env = (Some cfg, None) ->
  Config.Port cfg <> "" /\ Config.Environment cfg <> ""
  /\ Config.OpenAIAPIKey cfg <> ""
  /\ Config.DatabaseConfig.Host (Config.Database cfg) <> ""
  /\ Config.DatabaseConfig.Port (Config.Database cfg) <> ""
  /\ Config.DatabaseConfig.User (Config.Database cfg) <> ""
  /\ Config.DatabaseConfig.Password (Config.Database cfg) <> ""
  /\ Config.DatabaseConfig.DBName (Config.Database cfg) <> ""
  /\ Config.DatabaseConfig.SSLMode (Config.Database cfg) <> ""
  /\ elems (Config.CORSOrigins cfg) <> [].
Proof.
  intros (H1 & H2 & E)%Load_inv. repeat split; try assumption; rewrite E; cbn;
    try (by apply getEnv_nonempty).
  apply (Split_nonempty _ ","). discriminate.
Qed.

(** ** The export handler *)

Section ExportHandler.
Import Fiber Handlers.
Variable Unmarshal : string -> res (slice row).
Variables (h : Handler) (c : Ctx) (dataJSON : string) (fieldNames : slice string)
  (data : slice row).
Hypothesis Hscan : select_dataset (db h) (Params c "id") = Scanned dataJSON fieldNames.
Hypothesis Hparse : Unmarshal dataJSON = Ok data.

Lemma export_json :
  Query c "format" "json" = "json" ->
  ExportMockData Unmarshal h c
  = match ToJSON data fieldNames with
    | (_, Some err) =>
        JSON (Status c StatusInternalServerError)
          (Fiber.OfError {| Models.Error := "Export failed"; Models.Message := Error err |})
    | (Some bytes, None) => download c "application/json" ".json" bytes
    | (None, None) =>
        Send (Set_ (Set_ c "Content-Type" "application/json") "Content-Disposition"
                ("attachment; filename=mockdata-" +:+ Params c "id" +:+ ".json")) None
    end.
Proof.
  intros Hf. unfold ExportMockData. rewrite Hscan, Hparse, Hf.
  cbn [String.eqb Ascii.eqb Bool.eqb andb].
  destruct (ToJSON data fieldNames) as [[b|] [e|]]; reflexivity.
Qed.

Lemma export_text (format : string) :
  Query c "format" "json" = format ->
  len data <> 0%nat ->
  (format = "csv" ->
   ExportMockData Unmarshal h c
   = download c "text/csv" ".csv"
       (csv_record (elems fieldNames)
        +:+ cat (List.map (fun r => csv_record (row_values formatValue r (elems fieldNames)))
                   (elems data))))
  /\ (format = "markdown" \/ format = "md" ->
      ExportMockData Unmarshal h c
      = download c "text/markdown" ".md"
          (md_header (elems fieldNames) +:+ md_separator_row (elems fieldNames)
           +:+ cat (List.map (md_row (elems fieldNames)) (elems data))))
  /\ (format = "sql" ->
      ExportMockData Unmarshal h c
      = download c "application/sql" ".sql"
          (sql_comment (effective_table (Query c "table" "mock_data"))
           +:+ sql_create_table (effective_table (Query c "table" "mock_data"))
                 (List.hd nil_map (elems data)) (elems fieldNames)
           +:+ cat (List.map (sql_insert (effective_table (Query c "table" "mock_data"))
                                (elems fieldNames)) (elems data)))).
Proof.
  intros Hf Hd. unfold ExportMockData. rewrite Hscan, Hparse, Hf.
  split; [|split].
  - intros ->. cbn [String.eqb Ascii.eqb Bool.eqb andb].
    by rewrite ToCSV_output.
  - intros [-> | ->]; cbn [String.eqb Ascii.eqb Bool.eqb andb orb];
      by rewrite ToMarkdownTable_output.
  - intros ->. cbn [String.eqb Ascii.eqb Bool.eqb andb orb].
    by rewrite ToSQL_output.
Qed.

Lemma export_empty (format : string) :
  Query c "format" "json" = format ->
  len data = 0%nat ->
  format = "csv" \/ format = "markdown" \/ format = "md" \/ format = "sql" ->
  ExportMockData Unmarshal h c
  = JSON (Status c StatusInternalServerError)
      (Fiber.OfError {| Models.Error := "Export failed"; Models.Message := "no data to export" |}).
Proof.
  intros Hf Hd Hfmt. unfold ExportMockData. rewrite Hscan, Hparse, Hf.
  unfold ToCSV, ToMarkdownTable, ToSQL. rewrite Hd.
  destruct Hfmt as [-> | [-> | [-> | ->]]]; reflexivity.
Qed.

Lemma export_unknown (format : string) :
  Query c "format" "json" = format ->
  format <> "json" -> format <> "csv" -> format <> "markdown" -> format <> "md" ->
  format <> "sql" ->
  ExportMockData Unmarshal h c = invalid_format c format.
Proof.
  intros Hf H1 H2 H3 H4 H5. unfold ExportMockData. rewrite Hscan, Hparse, Hf.
  apply String.eqb_neq in H1, H2, H3, H4, H5. by rewrite H1, H2, H3, H4, H5.
Qed.

Lemma export_known (format : string) :
  Query c "format" "json" = format ->
  format = "json" \/ format = "csv" \/ format = "markdown" \/ format = "md"
  \/ format = "sql" ->
  body (ExportMockData Unmarshal h c) <> body (invalid_format c format).
Proof.
  intros Hf Hfmt. unfold ExportMockData. rewrite Hscan, Hparse, Hf.
  destruct Hfmt as [-> | [-> | [-> | [-> | ->]]]];
    cbn [String.eqb Ascii.eqb Bool.eqb andb orb];
    match goal with
    | |- context [match ?r with _ => _ end] => destruct r as [[?|] [?|]]
    end; cbn; discriminate.
Qed.
End ExportHandler.

Lemma GetAvailableFormats_list :
  GetAvailableFormats = mk_slice ["csv"; "json"; "markdown"; "sql"].
Proof. by vm_compute. Qed.

Lemma ToJSON_of_finite (data : slice row) (fieldNames : slice string) :
  rows_finite data = true -> exists out, ToJSON data fieldNames = (Some out, None).
Proof.
  intros Hfin. unfold ToJSON, GoJson.MarshalIndent. rewrite Marshal_response.
  unfold sequence_entries. cbn [List.map fst snd].
  destruct (encode_names_ok fieldNames) as [f Hf].
  destruct (encode_rows_cases data) as [(d & Hd & _)|(e & _ & _ & H)]; [|congruence].
  rewrite Hd, Hf. by eexists.
Qed.

Section Requests.
Import Fiber Handlers.

Lemma Params_with_query (c : Ctx) (key val name : string) :
  Params (with_query c key val) name = Params c name.
Proof. reflexivity. Qed.

Lemma Query_with_query_ne (c : Ctx) (key val name def : string) :
  key <> name -> Query (with_query c key val) name def = Query c name def.
Proof. intros H. unfold Query, with_query. cbn [queries]. by rewrite lookup_insert_ne. Qed.

Lemma Query_with_query (c : Ctx) (key val def : string) :
  val <> "" -> Query (with_query c key val) key def = val.
Proof.
  intros H. unfold Query, with_query. cbn [queries]. rewrite lookup_insert_eq. cbn.
  by rewrite (eqb_nonempty _ H).
Qed.

(** Two requests with the same route parameters and the same values
    of [format] and [table] get the same response. *)
Lemma export_same_response (Unmarshal : string -> res (slice row)) (h : Handler)
    (c c' : Ctx) :
  params c = params c' -> status c = status c' -> headers c = headers c' ->
  Query c "format" "json" = Query c' "format" "json" ->
  Query c "table" "mock_data" = Query c' "table" "mock_data" ->
  response (ExportMockData Unmarshal h c) = response (ExportMockData Unmarshal h c').
Proof.
  intros Hp Hs Hh Hf Ht. unfold ExportMockData, Params. rewrite Hp, Hf, Ht.
  destruct (select_dataset (db h) _) as [|err|dataJSON fieldNames].
  - unfold response. cbn. by rewrite Hh.
  - unfold response. cbn. by rewrite Hh.
  - destruct (Unmarshal dataJSON) as [data|err].
    + match goal with
      | |- context [match ?x with Some _ => _ | None => _ end] =>
          destruct x as [[[[b [err|]] ct] fn]|]
      end; unfold response; cbn; by rewrite ?Hh, ?Hs.
    + unfold response. cbn. by rewrite Hh.
Qed.
End Requests.

(** X12.  [ExportMockData] serves every format that
    [GetAvailableFormats] lists, and the alias [md]: for them the
    answer is never the error [Invalid format].  Any other value of
    [format] is answered with the status 400 and that error, which
    names the value; nothing is exported. *)
Theorem export_formats_served (Unmarshal : string -> res (slice row))
    (h : Handlers.Handler) (c : Fiber.Ctx) (dataJSON : string)
    (fieldNames : slice string) (data : slice row) :
  Handlers.select_dataset (Handlers.db h) (Fiber.Params c "id") = Handlers.Scanned dataJSON fieldNames ->
  Unmarshal dataJSON = Ok data ->
  let format := Fiber.Query c "format" "json" in
  (format ∈ elems GetAvailableFormats \/ format = "md" ->
   Fiber.body (Handlers.ExportMockData Unmarshal h c)
   <> Fiber.body (invalid_format c format))
  /\ (format ∉ elems GetAvailableFormats -> format <> "md" ->
      Handlers.ExportMockData Unmarshal h c = invalid_format c format).
Proof.
  intros Hscan Hparse format. rewrite GetAvailableFormats_list. cbn [elems]. split.
  - intros H. apply (export_known Unmarshal h c dataJSON fieldNames data Hscan Hparse);
      [reflexivity|].
    rewrite !elem_of_cons, elem_of_nil in H. tauto.
  - intros H Hmd. rewrite !not_elem_of_cons in H. destruct H as (H1 & H2 & H3 & H4 & _).
    by apply (export_unknown Unmarshal h c dataJSON fieldNames data Hscan Hparse).
Qed.

(** X13.  On a dataset that is not empty, [ExportMockData] answers
    the formats [csv], [markdown] (or [md]) and [sql] with a download:
    the status of the context is kept, [Content-Type] and
    [Content-Disposition] are set (the file is named after the request
    id), and the body is what [ToCSV], [ToMarkdownTable] or [ToSQL]
    writes for the stored rows and field names; the table of the SQL
    statements is the query parameter [table], [mock_data] by default. *)
Theorem export_download (Unmarshal : string -> res (slice row))
    (h : Handlers.Handler) (c : Fiber.Ctx) (dataJSON : string)
    (fieldNames : slice string) (data : slice row) :
  Handlers.select_dataset (Handlers.db h) (Fiber.Params c "id") = Handlers.Scanned dataJSON fieldNames ->
  Unmarshal dataJSON = Ok data ->
  len data <> 0%nat ->
  let format := Fiber.Query c "format" "json" in
  let table := effective_table (Fiber.Query c "table" "mock_data") in
  (format = "csv" ->
   Handlers.ExportMockData Unmarshal h c
   = download c "text/csv" ".csv"
       (csv_record (elems fieldNames)
        +:+ cat (List.map (fun r => csv_record (row_values formatValue r (elems fieldNames)))
                   (elems data))))
  /\ (format = "markdown" \/ format = "md" ->
      Handlers.ExportMockData Unmarshal h c
      = download c "text/markdown" ".md"
          (md_header (elems fieldNames) +:+ md_separator_row (elems fieldNames)
           +:+ cat (List.map (md_row (elems fieldNames)) (elems data))))
  /\ (format = "sql" ->
      Handlers.ExportMockData Unmarshal h c
      = download c "application/sql" ".sql"
          (sql_comment table
           +:+ sql_create_table table (List.hd nil_map (elems data)) (elems fieldNames)
           +:+ cat (List.map (sql_insert table (elems fieldNames)) (elems data)))).
Proof.
  intros Hscan Hparse Hd format table.
  exact (export_text Unmarshal h c dataJSON fieldNames data Hscan Hparse format eq_refl Hd).
Qed.

(** X14.  On an empty dataset, [ExportMockData] answers the formats
    [csv], [markdown], [md] and [sql] with the status 500 and the
    error [Export failed], whose message is [no data to export]; the
    format [json] is answered with a download. *)
Theorem export_empty_dataset (Unmarshal : string -> res (slice row))
    (h : Handlers.Handler) (c : Fiber.Ctx) (dataJSON : string)
    (fieldNames : slice string) (data : slice row) :
  Handlers.select_dataset (Handlers.db h) (Fiber.Params c "id") = Handlers.Scanned dataJSON fieldNames ->
  Unmarshal dataJSON = Ok data ->
  len data = 0%nat ->
  let format := Fiber.Query c "format" "json" in
  (format = "csv" \/ format = "markdown" \/ format = "md" \/ format = "sql" ->
   Handlers.ExportMockData Unmarshal h c
   = Fiber.JSON (Fiber.Status c Fiber.StatusInternalServerError)
       (Fiber.OfError {| Models.Error := "Export failed"; Models.Message := "no data to export" |}))
  /\ (format = "json" ->
      exists bytes,
        ToJSON data fieldNames = (Some bytes, None)
        /\ Handlers.ExportMockData Unmarshal h c
           = download c "application/json" ".json" bytes).
Proof.
  intros Hscan Hparse Hd format. split.
  - by apply (export_empty Unmarshal h c dataJSON fieldNames data Hscan Hparse).
  - intros Hf. destruct (ToJSON_of_finite data fieldNames) as [out Hout].
    { unfold rows_finite. unfold len in Hd. by destruct (elems data). }
    exists out. split; [exact Hout|].
    rewrite (export_json Unmarshal h c dataJSON fieldNames data Hscan Hparse Hf).
    by rewrite Hout.
Qed.

(** X15.  The query parameters have defaults and one alias: a request
    without [format] (or with an empty one) is answered as with
    [format=json], a request with [format=md] as with
    [format=markdown], and a request without [table] (or with an empty
    one) as with [table=mock_data]. *)
Theorem export_defaults_and_alias (Unmarshal : string -> res (slice row))
    (h : Handlers.Handler) (c : Fiber.Ctx) :
  (default "" (Fiber.queries c !! "format") = "" ->
   response (Handlers.ExportMockData Unmarshal h c)
   = response (Handlers.ExportMockData Unmarshal h (with_query c "format" "json")))
  /\ (Fiber.queries c !! "format" = Some "md" ->
      response (Handlers.ExportMockData Unmarshal h c)
      = response (Handlers.ExportMockData Unmarshal h (with_query c "format" "markdown")))
  /\ (default "" (Fiber.queries c !! "table") = "" ->
      response (Handlers.ExportMockData Unmarshal h c)
      = response (Handlers.ExportMockData Unmarshal h (with_query c "table" "mock_data"))).
Proof.
  split; [|split].
  - intros H. apply export_same_response; try reflexivity.
    + rewrite Query_with_query by discriminate. unfold Fiber.Query. by rewrite H.
    + by rewrite Query_with_query_ne.
  - intros H. unfold Handlers.ExportMockData.
    rewrite !Params_with_query, (Query_with_query c "format" "markdown") by discriminate.
    rewrite (Query_with_query_ne c "format") by discriminate.
    replace (Fiber.Query c "format" "json") with "md" by (unfold Fiber.Query; by rewrite H).
    cbn [String.eqb Ascii.eqb Bool.eqb andb orb].
    destruct (Handlers.select_dataset (Handlers.db h) _) as [|err|dataJSON fieldNames]; try reflexivity.
    destruct (Unmarshal dataJSON) as [data|err]; [|reflexivity].
    by destruct (ToMarkdownTable data fieldNames) as [b [e|]].
  - intros H. apply export_same_response; try reflexivity.
    + by rewrite Query_with_query_ne.
    + rewrite Query_with_query by discriminate. unfold Fiber.Query. by rewrite H.
Qed.

Lemma cors_origins_round_trip_witness :
  exists cfg,
    Config.Load sample_env = (Some cfg, None)
    /\ Middleware.getAllowOriginsString (Config.CORSOrigins cfg)
       = "http://a.example,http://b.example".
Proof.
  eexists. split; [by vm_compute|].
  exact (cors_origins_round_trip sample_env _ eq_refl).
Defined.

Lemma Load_requires_the_secrets_witness :
  Config.Getenv ∅ "OPENAI_API_KEY" = ""
  /\ Config.Load ∅ = (None, Some (Errorf "OPENAI_API_KEY is required"))
  /\ exists cfg, Config.Load sample_env = (Some cfg, None)
                 /\ Config.OpenAIAPIKey cfg = "sk-test"
                 /\ Config.DatabaseConfig.Password (Config.Database cfg) = "secret".
Proof.
  split; [reflexivity|]. split.
  - exact (proj1 (Load_requires_the_secrets ∅) eq_refl).
  - apply (proj2 (proj2 (Load_requires_the_secrets sample_env))); vm_compute; discriminate.
Defined.

Lemma loaded_config_is_complete_witness :
  exists cfg,
    Config.Load sample_env = (Some cfg, None)
    /\ Config.Port cfg <> "" /\ elems (Config.CORSOrigins cfg) <> [].
Proof.
  eexists. split; [by vm_compute|].
  pose proof (loaded_config_is_complete sample_env _ eq_refl) as H.
  split; [exact (proj1 H)|].
  exact (proj2 (proj2 (proj2 (proj2 (proj2 (proj2 (proj2 (proj2 (proj2 H))))))))).
Defined.

Lemma export_formats_served_witness :
  Fiber.body (Handlers.ExportMockData stored_rows one_dataset (export_request "csv"))
  <> Fiber.body (invalid_format (export_request "csv") "csv")
  /\ Handlers.ExportMockData stored_rows one_dataset (export_request "xml")
     = invalid_format (export_request "xml") "xml".
Proof.
  split.
  - apply (proj1 (export_formats_served stored_rows one_dataset (export_request "csv")
                    "stored" (mk_slice ["id"; "name"]) (mk_slice [john_short; jane_short])
                    eq_refl eq_refl)).
    left. rewrite GetAvailableFormats_list. cbn. apply list_elem_of_here.
  - apply (proj2 (export_formats_served stored_rows one_dataset (export_request "xml")
                    "stored" (mk_slice ["id"; "name"]) (mk_slice [john_short; jane_short])
                    eq_refl eq_refl)); [|discriminate].
    rewrite GetAvailableFormats_list. cbn.
    rewrite !not_elem_of_cons, elem_of_nil. repeat split; [discriminate..|tauto].
Defined.

Lemma export_download_witness :
  Handlers.ExportMockData stored_rows one_dataset (export_request "md")
  = download (export_request "md") "text/markdown" ".md"
      ("| id | name |" +:+ newline +:+ "|--------|--------|" +:+ newline
       +:+ "| 1 | John |" +:+ newline +:+ "| 2 | Jane |" +:+ newline).
Proof.
  apply (proj1 (proj2 (export_download stored_rows one_dataset (export_request "md")
                         "stored" (mk_slice ["id"; "name"])
                         (mk_slice [john_short; jane_short]) eq_refl eq_refl
                         ltac:(discriminate)))).
  right. reflexivity.
Defined.

Lemma export_empty_dataset_witness :
  Handlers.ExportMockData stored_nothing one_dataset (export_request "sql")
  = Fiber.JSON (Fiber.Status (export_request "sql") Fiber.StatusInternalServerError)
      (Fiber.OfError {| Models.Error := "Export failed"; Models.Message := "no data to export" |}).
Proof.
  apply (proj1 (export_empty_dataset stored_nothing one_dataset (export_request "sql")
                  "stored" (mk_slice ["id"; "name"]) (mk_slice []) eq_refl eq_refl eq_refl)).
  right. right. right. reflexivity.
Defined.

Lemma export_defaults_and_alias_witness :
  response (Handlers.ExportMockData stored_rows one_dataset (export_request "md"))
  = response (Handlers.ExportMockData stored_rows one_dataset
                (with_query (export_request "md") "format" "markdown")).
Proof.
  exact (proj1 (proj2 (export_defaults_and_alias stored_rows one_dataset
                         (export_request "md"))) eq_refl).
Defined.

(** ** The generation handler *)

Section Generation.
Import Fiber Handlers.

Lemma Validate_None (req : Models.GenerateRequest) :
  Models.Validate req = None
  <-> Models.Scenario req <> "" /\ (1 <= Models.RowCount req <= 1000)%Z.
Proof.
  unfold Models.Validate.
  destruct (String.eqb_spec (Models.Scenario req) "") as [E|E];
    destruct (Z.ltb_spec (Models.RowCount req) 1);
    destruct (Z.ltb_spec 1000 (Models.RowCount req)); cbn; split;
    try discriminate; try tauto; try lia; intros [? ?]; try done; lia.
Qed.

End Generation.

(** Unfolds the handler and splits on the outcome of every call. *)
Ltac run_handler :=
  unfold Handlers.GenerateMockData;
  repeat match goal with
         | |- context [match ?x with _ => _ end] =>
             lazymatch x with
             | context [match _ with _ => _ end] => fail
             | _ => destruct x as [] eqn:?
             end
         end;
  cbn [fst snd Fiber.status Fiber.body Fiber.JSON Fiber.Status].

(** X16.  [GenerateMockData] rejects a request before it touches the
    database or the OpenAI service: the status is 400 exactly when no
    call has been made.  A request whose body parses is rejected
    exactly when its scenario is empty or its row count is not between
    1 and 1000, and the empty scenario is reported first. *)
Theorem generate_rejects_before_any_call
    (BodyParser : Fiber.Ctx -> res Models.GenerateRequest) (Now : nat -> Models.Time)
    (h : Handlers.Handler) (c : Fiber.Ctx) :
  let run := Handlers.GenerateMockData BodyParser Now h c in
  (fst run = [] <-> Fiber.status (snd run) = Fiber.StatusBadRequest)
  /\ (forall req,
         BodyParser c = Ok req ->
         (Fiber.status (snd run) = Fiber.StatusBadRequest
          <-> Models.Scenario req = "" \/ (Models.RowCount req < 1)%Z
              \/ (1000 < Models.RowCount req)%Z)
         /\ (Models.Scenario req = "" ->
             Fiber.body (snd run)
             = Fiber.JSONBody
                 (Fiber.OfError {| Models.Error := "Validation failed";
                                   Models.Message := "scenario description is required" |}))).
Proof.
  intros run. subst run. split.
  - run_handler; split; try discriminate; done.
  - intros req Hreq. split.
    + assert (Hv := Validate_None req). unfold Handlers.GenerateMockData. rewrite Hreq.
      destruct (Models.Validate req) as [err|] eqn:Ev.
      * cbn. split; [intros _|done].
        destruct (String.eqb_spec (Models.Scenario req) ""); [tauto|].
        destruct (Z.ltb_spec (Models.RowCount req) 1); [tauto|].
        destruct (Z.ltb_spec 1000 (Models.RowCount req)); [tauto|].
        assert (Some err = None) by (apply Hv; split; [done|lia]). discriminate.
      * assert (Hok : Models.Scenario req <> "" /\ (1 <= Models.RowCount req <= 1000)%Z)
          by (by apply Hv).
        split.
        -- repeat match goal with
                  | |- context [match ?x with _ => _ end] => destruct x as [] eqn:?
                  end; cbn; discriminate.
        -- intros [?|[?|?]]; [tauto|lia|lia].
    + intros Hs. unfold Handlers.GenerateMockData, Models.Validate. by rewrite Hreq, Hs.
Qed.

(** X17.  [GenerateMockData] answers 201 exactly when the body
    parses, the request is valid, the request row is inserted, the
    service returns a dataset, the dataset is serialized and its row is
    inserted, whatever becomes of the three status updates.  The calls
    are then, in this order: the insertion of the request, the update
    to [processing], the generation, the insertion of the dataset (the
    JSON text of the generated rows under the id of the request) and
    the update to [completed]. *)
Theorem created_means_saved
    (BodyParser : Fiber.Ctx -> res Models.GenerateRequest) (Now : nat -> Models.Time)
    (h : Handlers.Handler) (c : Fiber.Ctx) :
  let run := Handlers.GenerateMockData BodyParser Now h c in
  Fiber.status (snd run) = Fiber.StatusCreated
  <-> exists req id data fieldNames dataJSON,
        BodyParser c = Ok req /\ Models.Validate req = None
        /\ Handlers.insert_request (Handlers.db h) (Models.Scenario req) (Models.RowCount req)
           = Ok id
        /\ Handlers.openaiService h (Models.Scenario req) (Models.RowCount req)
           = Ok (data, fieldNames)
        /\ GoJsonText.Marshal_rows data = Ok dataJSON
        /\ Handlers.insert_dataset (Handlers.db h) id dataJSON fieldNames = None
        /\ fst run
           = [Handlers.InsertRequest (Models.Scenario req) (Models.RowCount req);
              Handlers.UpdateStatus "processing" id;
              Handlers.Generate (Models.Scenario req) (Models.RowCount req);
              Handlers.InsertDataset id dataJSON fieldNames;
              Handlers.CompleteRequest (Now 0%nat) id].
Proof.
  intros run. subst run. split.
  - run_handler; try discriminate. intros _. by eexists _, _, _, _, _.
  - intros (req & id & data & fs & dataJSON & H1 & H2 & H3 & H4 & H5 & H6 & _).
    unfold Handlers.GenerateMockData. by rewrite H1, H2, H3, H4, H5, H6.
Qed.

(** X18.  The status [failed] is written exactly when the generation
    fails.  When the dataset cannot be serialized or its row cannot be
    inserted, the answer is 500 and the request is left as it was: the
    only status written is [processing], and the request is not
    completed. *)
Theorem failed_only_when_generation_fails
    (BodyParser : Fiber.Ctx -> res Models.GenerateRequest) (Now : nat -> Models.Time)
    (h : Handlers.Handler) (c : Fiber.Ctx) :
  let run := Handlers.GenerateMockData BodyParser Now h c in
  ((exists id, Handlers.UpdateStatus "failed" id ∈ fst run)
   <-> exists msg,
         Fiber.body (snd run)
         = Fiber.JSONBody (Fiber.OfError {| Models.Error := "Failed to generate data";
                                            Models.Message := msg |}))
  /\ ((exists msg,
          Fiber.body (snd run)
          = Fiber.JSONBody (Fiber.OfError {| Models.Error := "Failed to serialize data";
                                             Models.Message := msg |})
          \/ Fiber.body (snd run)
             = Fiber.JSONBody (Fiber.OfError {| Models.Error := "Failed to save dataset";
                                                Models.Message := msg |})) ->
      Fiber.status (snd run) = Fiber.StatusInternalServerError
      /\ (exists id, Handlers.UpdateStatus "processing" id ∈ fst run)
      /\ (forall status id, Handlers.UpdateStatus status id ∈ fst run -> status = "processing")
      /\ (forall t id, Handlers.CompleteRequest t id ∉ fst run)).
Proof.
  intros run. subst run. split.
  - run_handler; cbn [app]; split;
      try (intros [id H]; rewrite ?elem_of_cons, ?elem_of_nil in H;
           exfalso; intuition congruence);
      try (intros [msg H]; discriminate H).
    + intros _. by eexists.
    + intros _. eexists. rewrite !elem_of_cons. eauto.
  - run_handler; cbn [app]; intros [msg [H|H]]; try discriminate H;
      (split; [reflexivity|]); (split; [eexists; rewrite !elem_of_cons; eauto|]);
      (split; [intros st i Hi|intros t i Hi]);
      rewrite ?elem_of_cons, ?elem_of_nil in Hi; intuition congruence.
Qed.

(** X19.  The OpenAI service never returns an empty dataset: what
    [GenerateMockData] returns without error has one row and one field
    at least, and was read from the first choice of the completion.
    Such a dataset is exported by [ToCSV], [ToMarkdownTable] and
    [ToSQL] without error. *)
Theorem generated_dataset_is_exportable
    (Unmarshal : string -> res (slice string * slice row))
    (completion : res (list string)) (data : slice row) (fieldNames : slice string)
    (tableName : string) :
  OpenAI.GenerateMockData Unmarshal completion = Ok (data, fieldNames) ->
  (exists content rest,
      completion = Ok (content :: rest) /\ Unmarshal content = Ok (fieldNames, data))
  /\ len data <> 0%nat /\ len fieldNames <> 0%nat
  /\ (exists csv, ToCSV data fieldNames = (Some csv, None))
  /\ (exists md, ToMarkdownTable data fieldNames = (Some md, None))
  /\ (exists sql, ToSQL data fieldNames tableName = (Some sql, None)).
Proof.
  unfold OpenAI.GenerateMockData.
  destruct completion as [[|content rest]|err]; try discriminate.
  destruct (Unmarshal content) as [[fs d]|err] eqn:EU; [|discriminate].
  destruct (Nat.eqb_spec (len fs) 0) as [|Hf]; [discriminate|].
  destruct (Nat.eqb_spec (len d) 0) as [|Hd]; [discriminate|].
  intros [= <- <-]. split; [by eexists _, _|]. split; [exact Hd|]. split; [exact Hf|].
  rewrite ToCSV_output, ToMarkdownTable_output, ToSQL_output by exact Hd.
  repeat split; by eexists.
Qed.

Lemma generate_rejects_before_any_call_witness :
  empty_scenario_request (export_request "") = Ok {| Models.Scenario := ""; Models.RowCount := 2 |}
  /\ Fiber.body (snd (Handlers.GenerateMockData empty_scenario_request clock one_dataset
                        (export_request "")))
     = Fiber.JSONBody
         (Fiber.OfError {| Models.Error := "Validation failed";
                           Models.Message := "scenario description is required" |}).
Proof.
  split; [reflexivity|].
  exact (proj2 (proj2 (generate_rejects_before_any_call empty_scenario_request clock
                         one_dataset (export_request "")) _ eq_refl) eq_refl).
Defined.

Lemma created_means_saved_witness :
  Fiber.status (snd (Handlers.GenerateMockData users_request clock one_dataset
                       (export_request "")))
  = Fiber.StatusCreated
  /\ exists req id data fieldNames dataJSON,
       users_request (export_request "") = Ok req /\ Models.Validate req = None
       /\ Handlers.insert_request (Handlers.db one_dataset) (Models.Scenario req)
            (Models.RowCount req) = Ok id
       /\ Handlers.openaiService one_dataset (Models.Scenario req) (Models.RowCount req)
          = Ok (data, fieldNames)
       /\ GoJsonText.Marshal_rows data = Ok dataJSON
       /\ Handlers.insert_dataset (Handlers.db one_dataset) id dataJSON fieldNames = None
       /\ fst (Handlers.GenerateMockData users_request clock one_dataset (export_request ""))
          = [Handlers.InsertRequest (Models.Scenario req) (Models.RowCount req);
             Handlers.UpdateStatus "processing" id;
             Handlers.Generate (Models.Scenario req) (Models.RowCount req);
             Handlers.InsertDataset id dataJSON fieldNames;
             Handlers.CompleteRequest (clock 0%nat) id].
Proof.
  assert (H : Fiber.status (snd (Handlers.GenerateMockData users_request clock one_dataset
                                   (export_request ""))) = Fiber.StatusCreated)
    by (by vm_compute).
  split; [exact H|].
  exact (proj1 (created_means_saved users_request clock one_dataset (export_request "")) H).
Defined.

Lemma failed_only_when_generation_fails_witness :
  (exists id,
      Handlers.UpdateStatus "failed" id
      ∈ fst (Handlers.GenerateMockData users_request clock failing_service
               (export_request "")))
  /\ (forall status id,
         Handlers.UpdateStatus status id
         ∈ fst (Handlers.GenerateMockData users_request clock full_table (export_request ""))
         -> status = "processing").
Proof.
  split.
  - apply (proj1 (failed_only_when_generation_fails users_request clock failing_service
                    (export_request ""))).
    eexists. by vm_compute.
  - apply (proj2 (failed_only_when_generation_fails users_request clock full_table
                    (export_request ""))).
    eexists. right. by vm_compute.
Defined.

Lemma generated_dataset_is_exportable_witness :
  OpenAI.GenerateMockData two_people (Ok ["{...}"])
  = Ok (mk_slice [john_short; jane_short], mk_slice ["id"; "name"])
  /\ exists csv,
       ToCSV (mk_slice [john_short; jane_short]) (mk_slice ["id"; "name"]) = (Some csv, None).
Proof.
  split; [reflexivity|].
  exact (proj1 (proj2 (proj2 (proj2
           (generated_dataset_is_exportable two_people (Ok ["{...}"])
              (mk_slice [john_short; jane_short]) (mk_slice ["id"; "name"]) "" eq_refl))))).
Defined.


